(** * VectorStudio: the document model, the history hook and the canvas
      geometry, embedded from the TypeScript sources.

    - [src/types/index.ts]       : the records of the document model;
    - [src/hooks/useCanvas.ts]   : the history hook ([useCanvas]), and the
      components that were appended to that file (MenuBar, PropertiesPanel);
    - [src/utils/geometry.ts]    : bounding boxes;
    - [src/components/Canvas.tsx]: canvas growth, the curve generator and the
      mouse-down and mouse-up handlers;
    - [App.tsx]                  : the derived lists handed to the panels.

    JavaScript numbers are IEEE-754 doubles: they are Rocq's primitive
    floats here.  React state is explicit: a callback of the hook closes
    over the [state] of the render that created it and queues an updater
    [prev => next] on the history, so each operation below takes the
    captured [state] and returns a function on the history. *)

From Stdlib Require Import PrimFloat FloatClass.
From Stdlib Require Import List String Bool Arith ZArith Lia.
From Stdlib Require Import DecimalString.
From Stdlib Require Uint63.
Import ListNotations.

Set Warnings "-inexact-float".

Local Open Scope string_scope.
Local Open Scope list_scope.

(** ** The fragment of the JavaScript run time the sources rely on *)

Module JS.

(** [-0] is told apart from [+0] by [Math.max] and [Math.min]. *)
Definition is_negzero (a : float) : bool :=
  match classify a with NZero => true | _ => false end.

(** [Math.max(a, b)]: NaN if either is NaN, [+0] above [-0]. *)
Definition Math_max (a b : float) : float :=
  if is_nan a || is_nan b then nan
  else if (a <? b)%float then b
  else if (b <? a)%float then a
  else if is_negzero a then b else a.

(** [Math.min(a, b)]: NaN if either is NaN, [-0] below [+0]. *)
Definition Math_min (a b : float) : float :=
  if is_nan a || is_nan b then nan
  else if (a <? b)%float then a
  else if (b <? a)%float then b
  else if is_negzero a then a else b.

(** [Math.max(...xs)] and [Math.min(...xs)] start from the infinities. *)
Definition Math_max_list (xs : list float) : float :=
  fold_left Math_max xs neg_infinity.

Definition Math_min_list (xs : list float) : float :=
  fold_left Math_min xs infinity.

Definition Math_abs (a : float) : float := abs a.

(** [a > b] and [a >= b], [a <= b] on numbers (false on NaN). *)
Definition gt (a b : float) : bool := (b <? a)%float.
Definition ge (a b : float) : bool := (b <=? a)%float.
Definition le (a b : float) : bool := (a <=? b)%float.

(** Truthiness: a number is falsy when it is [0], [-0] or NaN; a string
    when it is empty. *)
Definition truthy_number (a : float) : bool :=
  negb (is_nan a || is_zero a).

Definition truthy_string (s : string) : bool :=
  negb (String.eqb s "").

(** [a || b] on possibly absent numbers and strings. *)
Definition or_number (a : option float) (b : float) : float :=
  match a with
  | Some x => if truthy_number x then x else b
  | None => b
  end.

Definition or_string (a : option string) (b : string) : string :=
  match a with
  | Some s => if truthy_string s then s else b
  | None => b
  end.

(** Reading a numeric property that is absent gives [undefined], which
    arithmetic turns into NaN. *)
Definition num (a : option float) : float :=
  match a with Some x => x | None => nan end.

(** The length of a string or an array as a number. *)
Definition of_nat (n : nat) : float := of_uint63 (Uint63.of_Z (Z.of_nat n)).

(** A counter printed in a template literal. *)
Definition nat_to_string (n : nat) : string :=
  NilEmpty.string_of_uint (Nat.to_uint n).

(** [Math.PI]. *)
Definition Math_PI : float := 0x1.921fb54442d18p+1%float.

(** [arr[i]]: [undefined] ([None]) outside the array. *)
Definition get {A} (l : list A) (i : Z) : option A :=
  if (i <? 0)%Z then None else nth_error l (Z.to_nat i).

(** [a || b] on possibly [undefined] objects. *)
Definition or_else {A} (a b : option A) : option A :=
  match a with Some _ => a | None => b end.

(** [[...new Set(l)]]: the first occurrence of each string, in order. *)
Definition unique (l : list string) : list string :=
  fold_left (fun acc x =>
               if existsb (String.eqb x) acc then acc else acc ++ [x])
            l [].

(** [arr.includes(x)] on strings. *)
Definition includes (l : list string) (x : string) : bool :=
  existsb (String.eqb x) l.

(** [arr.slice(-n)]: the last [n] elements. *)
Definition slice_last {A} (n : nat) (l : list A) : list A :=
  skipn (List.length l - n) l.

(** [arr.findIndex(p)], [None] for [-1]. *)
Fixpoint findIndex {A} (p : A -> bool) (l : list A) : option nat :=
  match l with
  | [] => None
  | a :: l' => if p a then Some 0 else option_map S (findIndex p l')
  end.

(** [arr.splice(i, 1)] on a copy: the array without index [i]. *)
Definition remove_at {A} (i : nat) (l : list A) : list A :=
  firstn i l ++ skipn (S i) l.

(** [arr.splice(i, 0, a)] on a copy: [a] inserted before index [i]. *)
Definition insert_at {A} (i : nat) (a : A) (l : list A) : list A :=
  firstn i l ++ a :: skipn i l.




End JS.

(** ** src/types/index.ts *)

Module Point.
Record t := mk { x : float; y : float }.
End Point.

Module BoundingBox.
Record t := mk { x : float; y : float;
                 width : float; height : float }.
End BoundingBox.

Module Size.
Record t := mk { width : float; height : float }.
End Size.

Module Transform.
Record t := mk { x : float; y : float; rotation : float;
                 scaleX : float; scaleY : float }.
End Transform.

Module GradientStop.
Record t := mk { offset : float; color : string; opacity : float }.
End GradientStop.

Inductive GradientType := linear | radial.

Module Gradient.
Record t := mk { type : GradientType; stops : list GradientStop.t;
                 angle : option float }.
End Gradient.

(** [gradient?: Gradient | null]: the key may be absent ([None]), hold
    [null] ([Some None]) or hold a gradient. *)
Module StyleProperties.
Record t := mk {
  fill : string;
  stroke : string;
  strokeWidth : float;
  opacity : float;
  fillOpacity : float;
  strokeOpacity : float;
  gradient : option (option Gradient.t) }.
End StyleProperties.

(** The fields the seven variants add to [BaseObject].  A JavaScript object
    either has such a property or not, whatever its [type] says, and a
    spread copies whatever is there: each is optional here. *)
Module Props.
Record t := mk {
  width : option float;
  height : option float;
  rx : option float;
  ry : option float;
  radius : option float;
  points : option (list Point.t);
  closed : option bool;
  controlPoints : option (list Point.t);
  content : option string;
  fontSize : option float;
  fontFamily : option string;
  fontWeight : option string;
  x1 : option float;
  y1 : option float;
  x2 : option float;
  y2 : option float;
  src : option string;
  originalWidth : option float;
  originalHeight : option float }.

Definition none : t :=
  mk None None None None None None None None None None
     None None None None None None None None None.

(** The variant fields as the object literals of the sources list them. *)
Definition rect (width height : float) : t :=
  mk (Some width) (Some height) None None None None None None None None
     None None None None None None None None None.

Definition circle (radius : float) : t :=
  mk None None None None (Some radius) None None None None None
     None None None None None None None None None.

Definition path (points : list Point.t) (closed : bool) : t :=
  mk None None None None None (Some points) (Some closed) None None None
     None None None None None None None None None.

Definition curve (points controlPoints : list Point.t) (closed : bool) : t :=
  mk None None None None None (Some points) (Some closed)
     (Some controlPoints) None None
     None None None None None None None None None.

Definition text (content : string) (fontSize : float)
    (fontFamily fontWeight : string) : t :=
  mk None None None None None None None None (Some content) (Some fontSize)
     (Some fontFamily) (Some fontWeight) None None None None None None None.

Definition line (x1 y1 x2 y2 : float) : t :=
  mk None None None None None None None None None None
     None None (Some x1) (Some y1) (Some x2) (Some y2) None None None.

(** [{ ...a, ...b }] on the variant fields: a key of [b] wins. *)
Definition over {A} (b a : option A) : option A :=
  match b with Some _ => b | None => a end.

Definition spread (a b : t) : t :=
  mk (over (width b) (width a)) (over (height b) (height a))
     (over (rx b) (rx a)) (over (ry b) (ry a))
     (over (radius b) (radius a)) (over (points b) (points a))
     (over (closed b) (closed a))
     (over (controlPoints b) (controlPoints a))
     (over (content b) (content a)) (over (fontSize b) (fontSize a))
     (over (fontFamily b) (fontFamily a))
     (over (fontWeight b) (fontWeight a))
     (over (x1 b) (x1 a)) (over (y1 b) (y1 a))
     (over (x2 b) (x2 a)) (over (y2 b) (y2 a))
     (over (src b) (src a))
     (over (originalWidth b) (originalWidth a))
     (over (originalHeight b) (originalHeight a)).
End Props.

Module CanvasObject.
Record t := mk {
  id : string;
  type : string;
  transform : Transform.t;
  style : StyleProperties.t;
  visible : bool;
  locked : bool;
  selected : bool;
  props : Props.t }.
End CanvasObject.

(** [Partial<CanvasObject>]: every key optional. *)
Module PartialObject.
Record t := mk {
  id : option string;
  type : option string;
  transform : option Transform.t;
  style : option StyleProperties.t;
  visible : option bool;
  locked : option bool;
  selected : option bool;
  props : Props.t }.

Definition none : t :=
  mk None None None None None None None Props.none.

Definition of_style (s : StyleProperties.t) : t :=
  mk None None None (Some s) None None None Props.none.

Definition of_transform (tr : Transform.t) : t :=
  mk None None (Some tr) None None None None Props.none.

Definition of_visible (b : bool) : t :=
  mk None None None None (Some b) None None Props.none.

Definition of_props (p : Props.t) : t :=
  mk None None None None None None None p.
End PartialObject.

Module Layer.
Record t := mk {
  id : string;
  name : string;
  visible : bool;
  locked : bool;
  objects : list CanvasObject.t }.
End Layer.

(** [Partial<Layer>]. *)
Module PartialLayer.
Record t := mk {
  id : option string;
  name : option string;
  visible : option bool;
  locked : option bool;
  objects : option (list CanvasObject.t) }.
End PartialLayer.

Module Tool.
Inductive t :=
  | select | pen | curve | rect | circle | ellipse | line | text | brush
  | eyedropper | zoom | hand | polygon | star | triangle | eraser.
End Tool.

Module CanvasState.
Record t := mk {
  layers : list Layer.t;
  activeLayerId : string;
  selectedObjectIds : list string;
  zoom : float;
  pan : Point.t;
  tool : Tool.t;
  canvasSize : Size.t }.
End CanvasState.

Module HistoryState.
Record t := mk {
  past : list CanvasState.t;
  present : CanvasState.t;
  future : list CanvasState.t }.
End HistoryState.

(** ** src/hooks/useCanvas.ts: the [useCanvas] hook *)

Module UseCanvas.
Import HistoryState CanvasState.

Definition createInitialState : CanvasState.t :=
  {| layers := [ {| Layer.id := "layer-1"; Layer.name := "Layer 1";
                    Layer.visible := true; Layer.locked := false;
                    Layer.objects := [] |} ];
     activeLayerId := "layer-1";
     selectedObjectIds := [];
     zoom := 1%float;
     pan := Point.mk 100 100;
     tool := Tool.select;
     canvasSize := Size.mk 4000 4000 |}.

(** The history as [useState] creates it. *)
Definition initialHistory : HistoryState.t :=
  {| past := []; present := createInitialState; future := [] |}.

(** An updater handed to [setHistory]. *)
Definition updater := HistoryState.t -> HistoryState.t.

(** [setHistory(prev => ({ ...prev, present: newState }))]. *)
Definition setPresent (newState : CanvasState.t) : updater :=
  fun prev => {| past := past prev; present := newState;
                 future := future prev |}.

Definition pushToHistory (newState : CanvasState.t) : updater :=
  fun prev =>
    {| past := JS.slice_last 50 (past prev) ++ [present prev];
       present := newState;
       future := [] |}.

(** In [undo] the last entry of a non-empty [past] is always there: the
    [None] branch is never taken. *)
Definition undo : updater :=
  fun prev =>
    match List.length (past prev) with
    | 0 => prev
    | S n =>
        match nth_error (past prev) n with
        | Some previous =>
            {| past := firstn n (past prev);
               present := previous;
               future := present prev :: firstn 49 (future prev) |}
        | None => prev
        end
    end.

Definition redo : updater :=
  fun prev =>
    match future prev with
    | [] => prev
    | next :: newFuture =>
        {| past := past prev ++ [present prev];
           present := next;
           future := newFuture |}
    end.

Definition canUndo (history : HistoryState.t) : bool :=
  Nat.ltb 0 (List.length (past history)).

Definition canRedo (history : HistoryState.t) : bool :=
  Nat.ltb 0 (List.length (future history)).

Definition setTool (state : CanvasState.t) (tool : Tool.t) : updater :=
  let newState :=
    {| layers := layers state; activeLayerId := activeLayerId state;
       selectedObjectIds := [];
       zoom := zoom state; pan := pan state;
       tool := tool;
       canvasSize := canvasSize state |} in
  setPresent newState.

(** [{ ...state, layers: newLayers }]. *)
Definition withLayers (state : CanvasState.t) (newLayers : list Layer.t)
    : CanvasState.t :=
  {| layers := newLayers; activeLayerId := activeLayerId state;
     selectedObjectIds := selectedObjectIds state;
     zoom := zoom state; pan := pan state; tool := tool state;
     canvasSize := canvasSize state |}.

(** [{ ...layer, objects: objs }]. *)
Definition withObjects (layer : Layer.t) (objs : list CanvasObject.t)
    : Layer.t :=
  {| Layer.id := Layer.id layer; Layer.name := Layer.name layer;
     Layer.visible := Layer.visible layer;
     Layer.locked := Layer.locked layer;
     Layer.objects := objs |}.

(** [addObject] numbers the object from the [nextObjectId] ref, which is
    advanced whether or not the active layer is found; an [id] the
    argument carries is overwritten. *)
Definition addObject (state : CanvasState.t) (nextObjectId : nat)
    (obj : CanvasObject.t) : nat * updater :=
  let newObject :=
    {| CanvasObject.id := "obj-" ++ JS.nat_to_string nextObjectId;
       CanvasObject.type := CanvasObject.type obj;
       CanvasObject.transform := CanvasObject.transform obj;
       CanvasObject.style := CanvasObject.style obj;
       CanvasObject.visible := CanvasObject.visible obj;
       CanvasObject.locked := CanvasObject.locked obj;
       CanvasObject.selected := CanvasObject.selected obj;
       CanvasObject.props := CanvasObject.props obj |} in
  let activeLayer :=
    find (fun layer => String.eqb (Layer.id layer) (activeLayerId state))
         (layers state) in
  match activeLayer with
  | None => (S nextObjectId, fun prev => prev)
  | Some _ =>
      let newLayers :=
        map (fun layer =>
               if String.eqb (Layer.id layer) (activeLayerId state)
               then withObjects layer (Layer.objects layer ++ [newObject])
               else layer)
            (layers state) in
      let newState :=
        {| layers := newLayers; activeLayerId := activeLayerId state;
           selectedObjectIds := [CanvasObject.id newObject];
           zoom := zoom state; pan := pan state; tool := tool state;
           canvasSize := canvasSize state |} in
      (S nextObjectId, pushToHistory newState)
  end.

(** [{ ...obj, ...updates }]: a shallow spread, key by key. *)
Definition spreadObject (obj : CanvasObject.t) (updates : PartialObject.t)
    : CanvasObject.t :=
  {| CanvasObject.id :=
       match PartialObject.id updates with
       | Some v => v | None => CanvasObject.id obj end;
     CanvasObject.type :=
       match PartialObject.type updates with
       | Some v => v | None => CanvasObject.type obj end;
     CanvasObject.transform :=
       match PartialObject.transform updates with
       | Some v => v | None => CanvasObject.transform obj end;
     CanvasObject.style :=
       match PartialObject.style updates with
       | Some v => v | None => CanvasObject.style obj end;
     CanvasObject.visible :=
       match PartialObject.visible updates with
       | Some v => v | None => CanvasObject.visible obj end;
     CanvasObject.locked :=
       match PartialObject.locked updates with
       | Some v => v | None => CanvasObject.locked obj end;
     CanvasObject.selected :=
       match PartialObject.selected updates with
       | Some v => v | None => CanvasObject.selected obj end;
     CanvasObject.props :=
       Props.spread (CanvasObject.props obj) (PartialObject.props updates)
  |}.

Definition updateObject (state : CanvasState.t) (objectId : string)
    (updates : PartialObject.t) : updater :=
  let newLayers :=
    map (fun layer =>
           withObjects layer
             (map (fun obj =>
                     if String.eqb (CanvasObject.id obj) objectId
                     then spreadObject obj updates else obj)
                  (Layer.objects layer)))
        (layers state) in
  let newState := withLayers state newLayers in
  setPresent newState.

Definition deleteObject (state : CanvasState.t) (objectId : string)
    : updater :=
  let newLayers :=
    map (fun layer =>
           withObjects layer
             (filter (fun obj =>
                        negb (String.eqb (CanvasObject.id obj) objectId))
                     (Layer.objects layer)))
        (layers state) in
  let newState :=
    {| layers := newLayers; activeLayerId := activeLayerId state;
       selectedObjectIds :=
         filter (fun i => negb (String.eqb i objectId))
                (selectedObjectIds state);
       zoom := zoom state; pan := pan state; tool := tool state;
       canvasSize := canvasSize state |} in
  pushToHistory newState.

Definition selectObjects (state : CanvasState.t) (objectIds : list string)
    : updater :=
  let newState :=
    {| layers := layers state; activeLayerId := activeLayerId state;
       selectedObjectIds := objectIds;
       zoom := zoom state; pan := pan state; tool := tool state;
       canvasSize := canvasSize state |} in
  setPresent newState.

Definition setZoom (state : CanvasState.t) (zoom : float) : updater :=
  let newState :=
    {| layers := layers state; activeLayerId := activeLayerId state;
       selectedObjectIds := selectedObjectIds state;
       zoom := JS.Math_max 0.1 (JS.Math_min 5 zoom);
       pan := pan state; tool := tool state;
       canvasSize := canvasSize state |} in
  setPresent newState.

Definition setPan (state : CanvasState.t) (pan : Point.t) : updater :=
  let newState :=
    {| layers := layers state; activeLayerId := activeLayerId state;
       selectedObjectIds := selectedObjectIds state;
       zoom := zoom state; pan := pan; tool := tool state;
       canvasSize := canvasSize state |} in
  setPresent newState.

(** [now] is the text of [Date.now()] at the call. *)
Definition addLayer (state : CanvasState.t) (now : string) : updater :=
  let newLayer :=
    {| Layer.id := "layer-" ++ now;
       Layer.name :=
         "Layer " ++ JS.nat_to_string (List.length (layers state) + 1);
       Layer.visible := true; Layer.locked := false;
       Layer.objects := [] |} in
  let newState :=
    {| layers := layers state ++ [newLayer];
       activeLayerId := Layer.id newLayer;
       selectedObjectIds := selectedObjectIds state;
       zoom := zoom state; pan := pan state; tool := tool state;
       canvasSize := canvasSize state |} in
  pushToHistory newState.

(** [deleteLayer] reads [newLayers[0].id] when the active layer goes: on
    an empty [newLayers] that is a TypeError, [None] here, and nothing is
    queued. *)
Definition deleteLayer (state : CanvasState.t) (layerId : string)
    : option updater :=
  if Nat.leb (List.length (layers state)) 1 then Some (fun prev => prev)
  else
    let newLayers :=
      filter (fun layer => negb (String.eqb (Layer.id layer) layerId))
             (layers state) in
    let newActiveLayerId :=
      if String.eqb layerId (activeLayerId state)
      then option_map Layer.id (nth_error newLayers 0)
      else Some (activeLayerId state) in
    match newActiveLayerId with
    | None => None
    | Some active =>
        let newState :=
          {| layers := newLayers; activeLayerId := active;
             selectedObjectIds := selectedObjectIds state;
             zoom := zoom state; pan := pan state; tool := tool state;
             canvasSize := canvasSize state |} in
        Some (pushToHistory newState)
    end.

(** [{ ...layer, ...updates }]. *)
Definition spreadLayer (layer : Layer.t) (updates : PartialLayer.t)
    : Layer.t :=
  {| Layer.id :=
       match PartialLayer.id updates with
       | Some v => v | None => Layer.id layer end;
     Layer.name :=
       match PartialLayer.name updates with
       | Some v => v | None => Layer.name layer end;
     Layer.visible :=
       match PartialLayer.visible updates with
       | Some v => v | None => Layer.visible layer end;
     Layer.locked :=
       match PartialLayer.locked updates with
       | Some v => v | None => Layer.locked layer end;
     Layer.objects :=
       match PartialLayer.objects updates with
       | Some v => v | None => Layer.objects layer end |}.

Definition updateLayer (state : CanvasState.t) (layerId : string)
    (updates : PartialLayer.t) : updater :=
  let newLayers :=
    map (fun layer =>
           if String.eqb (Layer.id layer) layerId
           then spreadLayer layer updates else layer)
        (layers state) in
  let newState := withLayers state newLayers in
  setPresent newState.

Inductive direction := up | down.

(** [findIndex] gives an index inside the array, so the layer moved is
    always found. *)
Definition moveLayer (state : CanvasState.t) (layerId : string)
    (dir : direction) : updater :=
  match JS.findIndex (fun layer => String.eqb (Layer.id layer) layerId)
                     (layers state) with
  | None => fun prev => prev
  | Some currentIndex =>
      let newIndex : Z :=
        match dir with
        | up => (Z.of_nat currentIndex - 1)%Z
        | down => (Z.of_nat currentIndex + 1)%Z
        end in
      if (newIndex <? 0)%Z
         || (Z.of_nat (List.length (layers state)) <=? newIndex)%Z
      then fun prev => prev
      else
        match nth_error (layers state) currentIndex with
        | None => fun prev => prev
        | Some movedLayer =>
            let newLayers :=
              JS.insert_at (Z.to_nat newIndex) movedLayer
                (JS.remove_at currentIndex (layers state)) in
            let newState := withLayers state newLayers in
            pushToHistory newState
        end
  end.

(** The [data: any] that [loadProject] receives, as far as it reads it:
    [null] and [undefined] make the first property read throw; of any
    other value it reads [layers], [activeLayerId] and [canvasSize],
    each absent or of the declared type. *)
Inductive ProjectData :=
  | Nullish
  | Data (layers : option (list Layer.t)) (activeLayerId : option string)
         (canvasSize : option Size.t).

(** The body of the [try]: [None] is the TypeError the [catch] logs. *)
Definition loadedState (data : ProjectData) : option CanvasState.t :=
  match data with
  | Nullish => None
  | Data dlayers dactive dsize =>
      Some
        {| layers :=
             match dlayers with
             | Some l => l
             | None => layers createInitialState
             end;
           activeLayerId :=
             JS.or_string dactive
               (JS.or_string
                  (match dlayers with
                   | Some (l :: _) => Some (Layer.id l)
                   | _ => None
                   end)
                  "layer-1");
           selectedObjectIds := [];
           zoom := 1%float;
           pan := Point.mk 100 100;
           tool := Tool.select;
           canvasSize :=
             match dsize with
             | Some s => s
             | None => Size.mk 4000 4000
             end |}
  end.

Definition loadProject (data : ProjectData) : updater :=
  match loadedState data with
  | Some newState =>
      fun _ => {| past := []; present := newState; future := [] |}
  | None => fun prev => prev
  end.

End UseCanvas.

(** ** Code that can throw

    A TypeError (a property read on [undefined]) aborts the handler that
    runs it: such code returns an [option], [None] for the exception. *)

Module Throwing.

Definition bind {A B} (m : option A) (k : A -> option B) : option B :=
  match m with Some a => k a | None => None end.

Notation "x <- m ;; k" := (bind m (fun x => k))
  (at level 61, m at next level, right associativity).

(** [arr.filter(p)] with a predicate that can throw. *)
Fixpoint filterM {A} (p : A -> option bool) (l : list A)
    : option (list A) :=
  match l with
  | [] => Some []
  | a :: l' =>
      b <- p a ;;
      r <- filterM p l' ;;
      Some (if b then a :: r else r)
  end.

(** [arr.find(p)]: stops at the first hit. *)
Fixpoint findM {A} (p : A -> option bool) (l : list A)
    : option (option A) :=
  match l with
  | [] => Some None
  | a :: l' =>
      b <- p a ;;
      if b then Some (Some a) else findM p l'
  end.

(** [arr.forEach(f)] threading the variables the callback assigns. *)
Fixpoint foldM {A S} (f : S -> A -> option S) (l : list A) (s : S)
    : option S :=
  match l with
  | [] => Some s
  | a :: l' => s' <- f s a ;; foldM f l' s'
  end.

End Throwing.

(** ** src/utils/geometry.ts *)

Module Geometry.
Import Throwing.
Local Open Scope float_scope.

(** The length of [content]; ASCII text is assumed, for which the count
    of UTF-16 units is the count of characters. *)
Definition contentLength (content : option string) : option float :=
  option_map (fun s => JS.of_nat (String.length s)) content.

Definition getBoundingBox (obj : CanvasObject.t) : option BoundingBox.t :=
  let transform := CanvasObject.transform obj in
  let p := CanvasObject.props obj in
  let type := CanvasObject.type obj in
  if String.eqb type "rect" then
    Some {| BoundingBox.x := Transform.x transform;
            BoundingBox.y := Transform.y transform;
            BoundingBox.width :=
              JS.num (Props.width p) * Transform.scaleX transform;
            BoundingBox.height :=
              JS.num (Props.height p) * Transform.scaleY transform |}
  else if String.eqb type "circle" then
    let r := JS.num (Props.radius p)
             * JS.Math_max (Transform.scaleX transform)
                           (Transform.scaleY transform) in
    Some {| BoundingBox.x := Transform.x transform - r;
            BoundingBox.y := Transform.y transform - r;
            BoundingBox.width := r * 2;
            BoundingBox.height := r * 2 |}
  else if String.eqb type "line" then
    let minX := JS.Math_min (JS.num (Props.x1 p)) (JS.num (Props.x2 p)) in
    let maxX := JS.Math_max (JS.num (Props.x1 p)) (JS.num (Props.x2 p)) in
    let minY := JS.Math_min (JS.num (Props.y1 p)) (JS.num (Props.y2 p)) in
    let maxY := JS.Math_max (JS.num (Props.y1 p)) (JS.num (Props.y2 p)) in
    Some {| BoundingBox.x := minX + Transform.x transform;
            BoundingBox.y := minY + Transform.y transform;
            BoundingBox.width := maxX - minX;
            BoundingBox.height := maxY - minY |}
  else if String.eqb type "path" || String.eqb type "curve" then
    points <- Props.points p ;;
    if Nat.eqb (List.length points) 0 then
      Some {| BoundingBox.x := Transform.x transform;
              BoundingBox.y := Transform.y transform;
              BoundingBox.width := 0;
              BoundingBox.height := 0 |}
    else
      let xs := map Point.x points in
      let ys := map Point.y points in
      let minPX := JS.Math_min_list xs in
      let maxPX := JS.Math_max_list xs in
      let minPY := JS.Math_min_list ys in
      let maxPY := JS.Math_max_list ys in
      Some {| BoundingBox.x := minPX + Transform.x transform;
              BoundingBox.y := minPY + Transform.y transform;
              BoundingBox.width := maxPX - minPX;
              BoundingBox.height := maxPY - minPY |}
  else if String.eqb type "text" then
    let textWidth :=
      JS.or_number (contentLength (Props.content p)) 0
      * JS.or_number (Props.fontSize p) 16 * 0.6 in
    let textHeight := JS.or_number (Props.fontSize p) 16 in
    Some {| BoundingBox.x := Transform.x transform;
            BoundingBox.y := Transform.y transform - textHeight / 2;
            BoundingBox.width := textWidth;
            BoundingBox.height := textHeight |}
  else if String.eqb type "image" then
    Some {| BoundingBox.x := Transform.x transform;
            BoundingBox.y := Transform.y transform;
            BoundingBox.width :=
              JS.num (Props.width p) * Transform.scaleX transform;
            BoundingBox.height :=
              JS.num (Props.height p) * Transform.scaleY transform |}
  else
    Some {| BoundingBox.x := Transform.x transform;
            BoundingBox.y := Transform.y transform;
            BoundingBox.width := 100;
            BoundingBox.height := 100 |}.

Definition pointInBoundingBox (point : Point.t) (box : BoundingBox.t)
    : bool :=
  JS.ge (Point.x point) (BoundingBox.x box)
  && JS.le (Point.x point) (BoundingBox.x box + BoundingBox.width box)
  && JS.ge (Point.y point) (BoundingBox.y box)
  && JS.le (Point.y point) (BoundingBox.y box + BoundingBox.height box).

End Geometry.

(** ** src/components/Canvas.tsx: the [Canvas] component *)

Module Canvas.
Import Throwing.
Local Open Scope float_scope.

(** The props the handlers read. *)
Record CanvasProps := {
  objects : list CanvasObject.t;
  selectedObjectIds : list string;
  tool : Tool.t;
  zoom : float;
  pan : Point.t }.

Record PenSettings := { pen_color : string; pen_width : float }.

Record BrushSettings :=
  { brush_size : float; brush_opacity : float; brush_color : string }.

(** The [useState] cells of the component, and the top-left corner of
    [canvasRef.current.getBoundingClientRect()] ([None] while the ref is
    unset). *)
Record State := mkState {
  canvasRef : option Point.t;
  isDragging : bool;
  dragStart : option Point.t;
  isDrawing : bool;
  drawingStart : option Point.t;
  previewObject : option CanvasObject.t;
  isSpacePressed : bool;
  canvasSize : Size.t;
  selectionBox : option (Point.t * Point.t);
  editingTextId : option string;
  textInput : string;
  textPosition : Point.t;
  penPath : list Point.t;
  isDrawingPath : bool;
  penSettings : PenSettings;
  brushStrokes : list Point.t;
  isBrushing : bool;
  brushSettings : BrushSettings;
  curvePoints : list Point.t;
  isDrawingCurve : bool }.

Definition initialState : State :=
  {| canvasRef := None;
     isDragging := false; dragStart := None;
     isDrawing := false; drawingStart := None;
     previewObject := None; isSpacePressed := false;
     canvasSize := Size.mk 4000 4000;
     selectionBox := None;
     editingTextId := None; textInput := "";
     textPosition := Point.mk 0 0;
     penPath := []; isDrawingPath := false;
     penSettings := {| pen_color := "#1E40AF"; pen_width := 2 |};
     brushStrokes := []; isBrushing := false;
     brushSettings :=
       {| brush_size := 10; brush_opacity := 1;
          brush_color := "#1E40AF" |};
     curvePoints := []; isDrawingCurve := false |}.

(** The state setters the handlers call. *)
Definition setIsDragging (v : bool) (s : State) : State :=
  mkState (canvasRef s) v (dragStart s) (isDrawing s) (drawingStart s)
    (previewObject s) (isSpacePressed s) (canvasSize s) (selectionBox s)
    (editingTextId s) (textInput s) (textPosition s) (penPath s)
    (isDrawingPath s) (penSettings s) (brushStrokes s) (isBrushing s)
    (brushSettings s) (curvePoints s) (isDrawingCurve s).

Definition setDragStart (v : option Point.t) (s : State) : State :=
  mkState (canvasRef s) (isDragging s) v (isDrawing s) (drawingStart s)
    (previewObject s) (isSpacePressed s) (canvasSize s) (selectionBox s)
    (editingTextId s) (textInput s) (textPosition s) (penPath s)
    (isDrawingPath s) (penSettings s) (brushStrokes s) (isBrushing s)
    (brushSettings s) (curvePoints s) (isDrawingCurve s).

Definition setIsDrawing (v : bool) (s : State) : State :=
  mkState (canvasRef s) (isDragging s) (dragStart s) v (drawingStart s)
    (previewObject s) (isSpacePressed s) (canvasSize s) (selectionBox s)
    (editingTextId s) (textInput s) (textPosition s) (penPath s)
    (isDrawingPath s) (penSettings s) (brushStrokes s) (isBrushing s)
    (brushSettings s) (curvePoints s) (isDrawingCurve s).

Definition setDrawingStart (v : option Point.t) (s : State) : State :=
  mkState (canvasRef s) (isDragging s) (dragStart s) (isDrawing s) v
    (previewObject s) (isSpacePressed s) (canvasSize s) (selectionBox s)
    (editingTextId s) (textInput s) (textPosition s) (penPath s)
    (isDrawingPath s) (penSettings s) (brushStrokes s) (isBrushing s)
    (brushSettings s) (curvePoints s) (isDrawingCurve s).

Definition setPreviewObject (v : option CanvasObject.t) (s : State)
    : State :=
  mkState (canvasRef s) (isDragging s) (dragStart s) (isDrawing s)
    (drawingStart s) v (isSpacePressed s) (canvasSize s) (selectionBox s)
    (editingTextId s) (textInput s) (textPosition s) (penPath s)
    (isDrawingPath s) (penSettings s) (brushStrokes s) (isBrushing s)
    (brushSettings s) (curvePoints s) (isDrawingCurve s).

Definition setCanvasSize (v : Size.t) (s : State) : State :=
  mkState (canvasRef s) (isDragging s) (dragStart s) (isDrawing s)
    (drawingStart s) (previewObject s) (isSpacePressed s) v
    (selectionBox s)
    (editingTextId s) (textInput s) (textPosition s) (penPath s)
    (isDrawingPath s) (penSettings s) (brushStrokes s) (isBrushing s)
    (brushSettings s) (curvePoints s) (isDrawingCurve s).

Definition setSelectionBox (v : option (Point.t * Point.t)) (s : State)
    : State :=
  mkState (canvasRef s) (isDragging s) (dragStart s) (isDrawing s)
    (drawingStart s) (previewObject s) (isSpacePressed s) (canvasSize s) v
    (editingTextId s) (textInput s) (textPosition s) (penPath s)
    (isDrawingPath s) (penSettings s) (brushStrokes s) (isBrushing s)
    (brushSettings s) (curvePoints s) (isDrawingCurve s).

Definition setEditingTextId (v : option string) (s : State) : State :=
  mkState (canvasRef s) (isDragging s) (dragStart s) (isDrawing s)
    (drawingStart s) (previewObject s) (isSpacePressed s) (canvasSize s)
    (selectionBox s) v (textInput s) (textPosition s) (penPath s)
    (isDrawingPath s) (penSettings s) (brushStrokes s) (isBrushing s)
    (brushSettings s) (curvePoints s) (isDrawingCurve s).

Definition setTextInput (v : string) (s : State) : State :=
  mkState (canvasRef s) (isDragging s) (dragStart s) (isDrawing s)
    (drawingStart s) (previewObject s) (isSpacePressed s) (canvasSize s)
    (selectionBox s) (editingTextId s) v (textPosition s) (penPath s)
    (isDrawingPath s) (penSettings s) (brushStrokes s) (isBrushing s)
    (brushSettings s) (curvePoints s) (isDrawingCurve s).

Definition setTextPosition (v : Point.t) (s : State) : State :=
  mkState (canvasRef s) (isDragging s) (dragStart s) (isDrawing s)
    (drawingStart s) (previewObject s) (isSpacePressed s) (canvasSize s)
    (selectionBox s) (editingTextId s) (textInput s) v (penPath s)
    (isDrawingPath s) (penSettings s) (brushStrokes s) (isBrushing s)
    (brushSettings s) (curvePoints s) (isDrawingCurve s).

Definition setPenPath (v : list Point.t) (s : State) : State :=
  mkState (canvasRef s) (isDragging s) (dragStart s) (isDrawing s)
    (drawingStart s) (previewObject s) (isSpacePressed s) (canvasSize s)
    (selectionBox s) (editingTextId s) (textInput s) (textPosition s) v
    (isDrawingPath s) (penSettings s) (brushStrokes s) (isBrushing s)
    (brushSettings s) (curvePoints s) (isDrawingCurve s).

Definition setIsDrawingPath (v : bool) (s : State) : State :=
  mkState (canvasRef s) (isDragging s) (dragStart s) (isDrawing s)
    (drawingStart s) (previewObject s) (isSpacePressed s) (canvasSize s)
    (selectionBox s) (editingTextId s) (textInput s) (textPosition s)
    (penPath s) v (penSettings s) (brushStrokes s) (isBrushing s)
    (brushSettings s) (curvePoints s) (isDrawingCurve s).

Definition setBrushStrokes (v : list Point.t) (s : State) : State :=
  mkState (canvasRef s) (isDragging s) (dragStart s) (isDrawing s)
    (drawingStart s) (previewObject s) (isSpacePressed s) (canvasSize s)
    (selectionBox s) (editingTextId s) (textInput s) (textPosition s)
    (penPath s) (isDrawingPath s) (penSettings s) v (isBrushing s)
    (brushSettings s) (curvePoints s) (isDrawingCurve s).

Definition setIsBrushing (v : bool) (s : State) : State :=
  mkState (canvasRef s) (isDragging s) (dragStart s) (isDrawing s)
    (drawingStart s) (previewObject s) (isSpacePressed s) (canvasSize s)
    (selectionBox s) (editingTextId s) (textInput s) (textPosition s)
    (penPath s) (isDrawingPath s) (penSettings s) (brushStrokes s) v
    (brushSettings s) (curvePoints s) (isDrawingCurve s).

Definition setCurvePoints (v : list Point.t) (s : State) : State :=
  mkState (canvasRef s) (isDragging s) (dragStart s) (isDrawing s)
    (drawingStart s) (previewObject s) (isSpacePressed s) (canvasSize s)
    (selectionBox s) (editingTextId s) (textInput s) (textPosition s)
    (penPath s) (isDrawingPath s) (penSettings s) (brushStrokes s)
    (isBrushing s) (brushSettings s) v (isDrawingCurve s).

Definition setIsDrawingCurve (v : bool) (s : State) : State :=
  mkState (canvasRef s) (isDragging s) (dragStart s) (isDrawing s)
    (drawingStart s) (previewObject s) (isSpacePressed s) (canvasSize s)
    (selectionBox s) (editingTextId s) (textInput s) (textPosition s)
    (penPath s) (isDrawingPath s) (penSettings s) (brushStrokes s)
    (isBrushing s) (brushSettings s) (curvePoints s) v.

(** What a handler asks of its parent through the callback props, and
    the timer the text tool starts. *)
Inductive Call :=
  | ObjectSelect (objectIds : list string)
  | ObjectUpdate (objectId : string) (updates : PartialObject.t)
  | AddObject (obj : CanvasObject.t)
  | PanChange (pan : Point.t)
  | ZoomChange (zoom : float)
  | SetTimeout (callback : State -> State) (ms : float).

(** The part of a mouse event the handlers read. *)
Record MouseEvent := {
  clientX : float;
  clientY : float;
  shiftKey : bool;
  buttons : float }.

Definition getCanvasPoint (props : CanvasProps) (s : State)
    (clientX clientY : float) : Point.t :=
  match canvasRef s with
  | None => Point.mk 0 0
  | Some rect =>
      Point.mk ((clientX - Point.x rect - Point.x (pan props)) / zoom props)
               ((clientY - Point.y rect - Point.y (pan props)) / zoom props)
  end.

Definition getScreenPoint (props : CanvasProps) (s : State)
    (canvasPoint : Point.t) : Point.t :=
  match canvasRef s with
  | None => Point.mk 0 0
  | Some rect =>
      Point.mk (Point.x canvasPoint * zoom props + Point.x (pan props)
                + Point.x rect)
               (Point.y canvasPoint * zoom props + Point.y (pan props)
                + Point.y rect)
  end.

(** The four variables the loops of [updateCanvasSize] assign. *)
Record Bounds := { minX : float; minY : float; maxX : float; maxY : float }.

Definition growByObject (b : Bounds) (obj : CanvasObject.t)
    : option Bounds :=
  if negb (CanvasObject.visible obj) then Some b
  else
    bbox <- Geometry.getBoundingBox obj ;;
    Some {| minX := JS.Math_min (minX b) (BoundingBox.x bbox - 100);
            minY := JS.Math_min (minY b) (BoundingBox.y bbox - 100);
            maxX := JS.Math_max (maxX b)
                      (BoundingBox.x bbox + BoundingBox.width bbox + 100);
            maxY := JS.Math_max (maxY b)
                      (BoundingBox.y bbox + BoundingBox.height bbox + 100)
         |}.

Definition growByPoint (b : Bounds) (point : Point.t) : Bounds :=
  {| minX := JS.Math_min (minX b) (Point.x point - 100);
     minY := JS.Math_min (minY b) (Point.y point - 100);
     maxX := JS.Math_max (maxX b) (Point.x point + 100);
     maxY := JS.Math_max (maxY b) (Point.y point + 100) |}.

(** [updateCanvasSize(newPoint?, additionalObjects = [])]: the canvas
    size after the call, which is the old one unless [setCanvasSize]
    ran. *)
Definition updateCanvasSize (props : CanvasProps) (s : State)
    (newPoint : option Point.t) (additionalObjects : list CanvasObject.t)
    : option Size.t :=
  let allObjects :=
    (objects props ++ additionalObjects)
    ++ match previewObject s with Some o => [o] | None => [] end in
  let pointsToCheck :=
    (match newPoint with Some p => [p] | None => [] end)
    ++ penPath s ++ brushStrokes s ++ curvePoints s in
  b1 <- foldM growByObject allObjects
          {| minX := 0; minY := 0; maxX := 4000; maxY := 4000 |} ;;
  let b2 := fold_left growByPoint pointsToCheck b1 in
  let padding := 500 in
  let requiredMinX := minX b2 - padding in
  let requiredMinY := minY b2 - padding in
  let requiredMaxX := maxX b2 + padding in
  let requiredMaxY := maxY b2 + padding in
  let newWidth := JS.Math_max 4000 (requiredMaxX - requiredMinX) in
  let newHeight := JS.Math_max 4000 (requiredMaxY - requiredMinY) in
  let needsResize :=
    JS.gt newWidth (Size.width (canvasSize s))
    || JS.gt newHeight (Size.height (canvasSize s)) in
  if needsResize then Some (Size.mk newWidth newHeight)
  else Some (canvasSize s).

(** [useEffect(() => { updateCanvasSize(); }, [objects, previewObject])]:
    the effect that runs when the objects change. *)
Definition objectsEffect (props : CanvasProps) (s : State) : option State :=
  size <- updateCanvasSize props s None [] ;;
  Some (setCanvasSize size s).

Section Platform.

(** The engine's number-to-string conversion (template literals) and
    its trigonometry. *)
Variable toString : float -> string.
Variables Math_cos Math_sin : float -> float.

(** One turn of the loop of [generateSmoothCurve]. *)
Definition curveSegment (points : list Point.t) (path : string)
    (i : nat) : option string :=
  let i := Z.of_nat i in
  p0 <- JS.or_else (JS.get points (i - 1)) (JS.get points i) ;;
  p1 <- JS.get points i ;;
  p2 <- JS.get points (i + 1) ;;
  p3 <- JS.or_else (JS.get points (i + 2)) (JS.get points (i + 1)) ;;
  let cp1x := Point.x p1 + (Point.x p2 - Point.x p0) / 6 in
  let cp1y := Point.y p1 + (Point.y p2 - Point.y p0) / 6 in
  let cp2x := Point.x p2 - (Point.x p3 - Point.x p1) / 6 in
  let cp2y := Point.y p2 - (Point.y p3 - Point.y p1) / 6 in
  Some (path ++ " C " ++ toString cp1x ++ " " ++ toString cp1y
             ++ ", " ++ toString cp2x ++ " " ++ toString cp2y
             ++ ", " ++ toString (Point.x p2) ++ " "
             ++ toString (Point.y p2))%string.

Definition generateSmoothCurve (points : list Point.t) : option string :=
  if Nat.ltb (List.length points) 2 then Some ""%string
  else if Nat.eqb (List.length points) 2 then
    a <- JS.get points 0 ;;
    b <- JS.get points 1 ;;
    Some ("M " ++ toString (Point.x a) ++ " " ++ toString (Point.y a)
          ++ " L " ++ toString (Point.x b) ++ " "
          ++ toString (Point.y b))%string
  else
    a <- JS.get points 0 ;;
    let path :=
      ("M " ++ toString (Point.x a) ++ " "
       ++ toString (Point.y a))%string in
    foldM (curveSegment points)
          (seq 0 (List.length points - 1)) path.

(** An [Omit<CanvasObject, 'id'>] carries the empty id until
    [addObject] numbers it. *)
Definition unit_transform (x y : float) : Transform.t :=
  {| Transform.x := x; Transform.y := y; Transform.rotation := 0;
     Transform.scaleX := 1; Transform.scaleY := 1 |}.

Definition finishBrushStroke (s : State) : list Call * State :=
  let calls :=
    if Nat.ltb 1 (List.length (brushStrokes s)) then
      let pathObject :=
        {| CanvasObject.id := "";
           CanvasObject.type := "path";
           CanvasObject.transform := unit_transform 0 0;
           CanvasObject.style :=
             {| StyleProperties.fill := "none";
                StyleProperties.stroke := brush_color (brushSettings s);
                StyleProperties.strokeWidth :=
                  brush_size (brushSettings s);
                StyleProperties.opacity :=
                  brush_opacity (brushSettings s);
                StyleProperties.fillOpacity := 1;
                StyleProperties.strokeOpacity := 1;
                StyleProperties.gradient := Some None |};
           CanvasObject.visible := true;
           CanvasObject.locked := false;
           CanvasObject.selected := false;
           CanvasObject.props := Props.path (brushStrokes s) false |} in
      [AddObject pathObject]
    else [] in
  (calls, setIsBrushing false (setBrushStrokes [] s)).

Definition handleEraserTool (props : CanvasProps) (point : Point.t)
    : option (list Call) :=
  objectsToErase <-
    filterM (fun obj =>
               bbox <- Geometry.getBoundingBox obj ;;
               Some (Geometry.pointInBoundingBox point bbox
                     && negb (CanvasObject.locked obj)))
            (objects props) ;;
  Some (map (fun obj =>
               ObjectUpdate (CanvasObject.id obj)
                 (PartialObject.of_visible false))
            objectsToErase).

(** [['rect', 'circle', 'line', 'ellipse', 'polygon', 'star',
    'triangle'].includes(tool)]. *)
Definition isShapeTool (t : Tool.t) : bool :=
  match t with
  | Tool.rect | Tool.circle | Tool.line | Tool.ellipse
  | Tool.polygon | Tool.star | Tool.triangle => true
  | _ => false
  end.

Definition isTool (a b : Tool.t) : bool :=
  match a, b with
  | Tool.select, Tool.select | Tool.pen, Tool.pen
  | Tool.curve, Tool.curve | Tool.rect, Tool.rect
  | Tool.circle, Tool.circle | Tool.ellipse, Tool.ellipse
  | Tool.line, Tool.line | Tool.text, Tool.text
  | Tool.brush, Tool.brush | Tool.eyedropper, Tool.eyedropper
  | Tool.zoom, Tool.zoom | Tool.hand, Tool.hand
  | Tool.polygon, Tool.polygon | Tool.star, Tool.star
  | Tool.triangle, Tool.triangle | Tool.eraser, Tool.eraser => true
  | _, _ => false
  end.

(** [if (editingTextId)]: set and not the empty string. *)
Definition editing (s : State) : bool :=
  match editingTextId s with
  | Some i => JS.truthy_string i
  | None => false
  end.

Definition handleMouseDown (props : CanvasProps) (s : State)
    (e : MouseEvent) : option (list Call * State) :=
  let point := getCanvasPoint props s (clientX e) (clientY e) in
  if editing s then Some ([], s)
  else if isTool (tool props) Tool.hand || isSpacePressed s then
    Some ([], setDragStart (Some (Point.mk (clientX e) (clientY e)))
                (setIsDragging true s))
  else if isTool (tool props) Tool.pen then
    if negb (isDrawingPath s) then
      Some ([], setIsDrawingPath true (setPenPath [point] s))
    else
      size <- updateCanvasSize props s (Some point) [] ;;
      Some ([], setCanvasSize size (setPenPath (penPath s ++ [point]) s))
  else if isTool (tool props) Tool.curve then
    size <- updateCanvasSize props s (Some point) [] ;;
    Some ([], setIsDrawingCurve true
                (setCanvasSize size
                   (setCurvePoints (curvePoints s ++ [point]) s)))
  else if isTool (tool props) Tool.brush then
    size <- updateCanvasSize props s (Some point) [] ;;
    Some ([], setCanvasSize size
                (setBrushStrokes [point] (setIsBrushing true s)))
  else if isTool (tool props) Tool.eraser then
    calls <- handleEraserTool props point ;;
    Some (calls, s)
  else if isTool (tool props) Tool.select then
    clickedObject <-
      findM (fun obj =>
               bbox <- Geometry.getBoundingBox obj ;;
               Some (Geometry.pointInBoundingBox point bbox))
            (objects props) ;;
    match clickedObject with
    | Some clicked =>
        let calls :=
          if negb (JS.includes (selectedObjectIds props)
                               (CanvasObject.id clicked))
          then
            if shiftKey e
            then [ObjectSelect (selectedObjectIds props
                                ++ [CanvasObject.id clicked])]
            else [ObjectSelect [CanvasObject.id clicked]]
          else [] in
        Some (calls, setDragStart (Some point) (setIsDragging true s))
    | None =>
        let calls :=
          if negb (shiftKey e) then [ObjectSelect []] else [] in
        Some (calls,
              setDragStart (Some point)
                (setIsDragging true
                   (setSelectionBox (Some (point, point)) s)))
    end
  else if isShapeTool (tool props) then
    Some ([], setDrawingStart (Some point) (setIsDrawing true s))
  else if isTool (tool props) Tool.text then
    let textObject :=
      {| CanvasObject.id := "";
         CanvasObject.type := "text";
         CanvasObject.transform :=
           unit_transform (Point.x point) (Point.y point);
         CanvasObject.style :=
           {| StyleProperties.fill := "#000000";
              StyleProperties.stroke := "none";
              StyleProperties.strokeWidth := 0;
              StyleProperties.opacity := 1;
              StyleProperties.fillOpacity := 1;
              StyleProperties.strokeOpacity := 1;
              StyleProperties.gradient := Some None |};
         CanvasObject.visible := true;
         CanvasObject.locked := false;
         CanvasObject.selected := false;
         CanvasObject.props := Props.text "Text" 24 "Arial" "normal" |} in
    size <- updateCanvasSize props s (Some point) [] ;;
    let later (st : State) : State :=
      match JS.get (objects props)
                   (Z.of_nat (List.length (objects props)) - 1) with
      | Some newTextObj =>
          if String.eqb (CanvasObject.type newTextObj) "text" then
            setTextPosition (getScreenPoint props st point)
              (setTextInput
                 (JS.or_string
                    (Props.content (CanvasObject.props newTextObj))
                    "Text")
                 (setEditingTextId (Some (CanvasObject.id newTextObj))
                    st))
          else st
      | None => st
      end in
    Some ([AddObject textObject; SetTimeout later 100],
          setCanvasSize size s)
  else Some ([], s).

Definition baseStyle : StyleProperties.t :=
  {| StyleProperties.fill := "#3B82F6";
     StyleProperties.stroke := "#1E40AF";
     StyleProperties.strokeWidth := 2;
     StyleProperties.opacity := 1;
     StyleProperties.fillOpacity := 1;
     StyleProperties.strokeOpacity := 1;
     StyleProperties.gradient := Some None |}.

(** [{ ...baseStyle, fill: 'none' }]. *)
Definition lineStyle : StyleProperties.t :=
  {| StyleProperties.fill := "none";
     StyleProperties.stroke := StyleProperties.stroke baseStyle;
     StyleProperties.strokeWidth := StyleProperties.strokeWidth baseStyle;
     StyleProperties.opacity := StyleProperties.opacity baseStyle;
     StyleProperties.fillOpacity := StyleProperties.fillOpacity baseStyle;
     StyleProperties.strokeOpacity :=
       StyleProperties.strokeOpacity baseStyle;
     StyleProperties.gradient := StyleProperties.gradient baseStyle |}.

Definition shapeObject (type : string) (transform : Transform.t)
    (style : StyleProperties.t) (props : Props.t) : CanvasObject.t :=
  {| CanvasObject.id := "";
     CanvasObject.type := type;
     CanvasObject.transform := transform;
     CanvasObject.style := style;
     CanvasObject.visible := true;
     CanvasObject.locked := false;
     CanvasObject.selected := false;
     CanvasObject.props := props |}.

(** The ten corners the [star] loop pushes. *)
Definition starPoints (centerX centerY outerRadius innerRadius : float)
    : list Point.t :=
  map (fun i =>
         let angle := (JS.of_nat i * JS.Math_PI) / 5 in
         let radius :=
           if Nat.eqb (Nat.modulo i 2) 0 then outerRadius
           else innerRadius in
         Point.mk
           (centerX + radius * Math_cos (angle - JS.Math_PI / 2))
           (centerY + radius * Math_sin (angle - JS.Math_PI / 2)))
      (seq 0 10).

(** The object a finished shape gesture adds, if any: the body of
    [if (isDrawing && drawingStart && [...].includes(tool))]. *)
Definition drawnShape (tool : Tool.t) (drawingStart point : Point.t)
    : list Call :=
  let width := JS.Math_abs (Point.x point - Point.x drawingStart) in
  let height := JS.Math_abs (Point.y point - Point.y drawingStart) in
  let x := JS.Math_min (Point.x point) (Point.x drawingStart) in
  let y := JS.Math_min (Point.y point) (Point.y drawingStart) in
  if JS.gt width 5 || JS.gt height 5 then
    match tool with
    | Tool.rect =>
        let rectObject :=
          shapeObject "rect" (unit_transform x y) baseStyle
            (Props.rect width height) in
        [AddObject rectObject]
    | Tool.circle | Tool.ellipse =>
        let radius := JS.Math_min width height / 2 in
        let circleObject :=
          shapeObject "circle"
            (unit_transform (x + width / 2) (y + height / 2))
            baseStyle (Props.circle radius) in
        [AddObject circleObject]
    | Tool.line =>
        let lineObject :=
          shapeObject "line" (unit_transform 0 0) lineStyle
            (Props.line (Point.x drawingStart) (Point.y drawingStart)
                        (Point.x point) (Point.y point)) in
        [AddObject lineObject]
    | Tool.triangle =>
        let points :=
          [ Point.mk (x + width / 2) y;
            Point.mk x (y + height);
            Point.mk (x + width) (y + height) ] in
        let triangleObject :=
          shapeObject "path" (unit_transform 0 0) baseStyle
            (Props.path points true) in
        [AddObject triangleObject]
    | Tool.star =>
        let centerX := x + width / 2 in
        let centerY := y + height / 2 in
        let outerRadius := JS.Math_min width height / 2 in
        let innerRadius := outerRadius * 0.4 in
        let points :=
          starPoints centerX centerY outerRadius innerRadius in
        let starObject :=
          shapeObject "path" (unit_transform 0 0) baseStyle
            (Props.path points true) in
        [AddObject starObject]
    | _ => []
    end
  else [].

(** The rubber band: the objects whose box lies inside it. *)
Definition boxSelection (props : CanvasProps)
    (selectionBox : Point.t * Point.t) (e : MouseEvent)
    : option (list Call) :=
  let (start, end_) := selectionBox in
  let box :=
    {| BoundingBox.x := JS.Math_min (Point.x start) (Point.x end_);
       BoundingBox.y := JS.Math_min (Point.y start) (Point.y end_);
       BoundingBox.width := JS.Math_abs (Point.x end_ - Point.x start);
       BoundingBox.height := JS.Math_abs (Point.y end_ - Point.y start)
    |} in
  inside <-
    filterM (fun obj =>
               bbox <- Geometry.getBoundingBox obj ;;
               Some (JS.ge (BoundingBox.x bbox) (BoundingBox.x box)
                     && JS.ge (BoundingBox.y bbox) (BoundingBox.y box)
                     && JS.le (BoundingBox.x bbox + BoundingBox.width bbox)
                              (BoundingBox.x box + BoundingBox.width box)
                     && JS.le (BoundingBox.y bbox
                               + BoundingBox.height bbox)
                              (BoundingBox.y box
                               + BoundingBox.height box)))
            (objects props) ;;
  let selectedIds := map CanvasObject.id inside in
  if shiftKey e
  then Some [ObjectSelect
               (JS.unique (selectedObjectIds props ++ selectedIds))]
  else Some [ObjectSelect selectedIds].

Definition handleMouseUp (props : CanvasProps) (s : State)
    (e : MouseEvent) : option (list Call * State) :=
  let point := getCanvasPoint props s (clientX e) (clientY e) in
  if editing s then Some ([], s)
  else if isTool (tool props) Tool.brush && isBrushing s then
    Some (finishBrushStroke s)
  else
    selecting <-
      match selectionBox s with
      | Some box =>
          if isTool (tool props) Tool.select
          then boxSelection props box e
          else Some []
      | None => Some []
      end ;;
    let drawing :=
      match drawingStart s with
      | Some start =>
          if isDrawing s && isShapeTool (tool props)
          then drawnShape (tool props) start point
          else []
      | None => []
      end in
    Some (selecting ++ drawing,
          setSelectionBox None
            (setPreviewObject None
               (setDrawingStart None
                  (setDragStart None
                     (setIsDrawing false (setIsDragging false s)))))).

End Platform.

Definition setPenSettings (v : PenSettings) (s : State) : State :=
  mkState (canvasRef s) (isDragging s) (dragStart s) (isDrawing s)
    (drawingStart s) (previewObject s) (isSpacePressed s) (canvasSize s)
    (selectionBox s) (editingTextId s) (textInput s) (textPosition s)
    (penPath s) (isDrawingPath s) v (brushStrokes s)
    (isBrushing s) (brushSettings s) (curvePoints s) (isDrawingCurve s).

Definition setBrushSettings (v : BrushSettings) (s : State) : State :=
  mkState (canvasRef s) (isDragging s) (dragStart s) (isDrawing s)
    (drawingStart s) (previewObject s) (isSpacePressed s) (canvasSize s)
    (selectionBox s) (editingTextId s) (textInput s) (textPosition s)
    (penPath s) (isDrawingPath s) (penSettings s) (brushStrokes s)
    (isBrushing s) v (curvePoints s) (isDrawingCurve s).

Definition finishPenPath (s : State) : list Call * State :=
  let calls :=
    if Nat.ltb 1 (List.length (penPath s)) then
      let pathObject :=
        {| CanvasObject.id := "";
           CanvasObject.type := "path";
           CanvasObject.transform := unit_transform 0 0;
           CanvasObject.style :=
             {| StyleProperties.fill := "none";
                StyleProperties.stroke := pen_color (penSettings s);
                StyleProperties.strokeWidth := pen_width (penSettings s);
                StyleProperties.opacity := 1;
                StyleProperties.fillOpacity := 1;
                StyleProperties.strokeOpacity := 1;
                StyleProperties.gradient := Some None |};
           CanvasObject.visible := true;
           CanvasObject.locked := false;
           CanvasObject.selected := false;
           CanvasObject.props := Props.path (penPath s) false |} in
      [AddObject pathObject]
    else [] in
  (calls, setIsDrawingPath false (setPenPath [] s)).

Definition finishCurve (s : State) : list Call * State :=
  let calls :=
    if Nat.ltb 1 (List.length (curvePoints s)) then
      let curveObject :=
        {| CanvasObject.id := "";
           CanvasObject.type := "curve";
           CanvasObject.transform := unit_transform 0 0;
           CanvasObject.style :=
             {| StyleProperties.fill := "none";
                StyleProperties.stroke := "#3B82F6";
                StyleProperties.strokeWidth := 2;
                StyleProperties.opacity := 1;
                StyleProperties.fillOpacity := 1;
                StyleProperties.strokeOpacity := 1;
                StyleProperties.gradient := Some None |};
           CanvasObject.visible := true;
           CanvasObject.locked := false;
           CanvasObject.selected := false;
           CanvasObject.props := Props.curve (curvePoints s) [] false |} in
      [AddObject curveObject]
    else [] in
  (calls, setIsDrawingCurve false (setCurvePoints [] s)).

(** [{ content: c }]. *)
Definition contentUpdate (c : string) : PartialObject.t :=
  PartialObject.of_props
    (Props.mk None None None None None None None None (Some c) None
       None None None None None None None None None).

Section Text.

(** The engine's [String.prototype.trim]. *)
Variable trim : string -> string.

Definition finishTextEditing (props : CanvasProps) (s : State)
    : list Call * State :=
  let calls :=
    match editingTextId s with
    | Some i =>
        if JS.truthy_string i then
          if JS.truthy_string (trim (textInput s)) then
            [ObjectUpdate i (contentUpdate (trim (textInput s)))]
          else
            match find (fun obj => String.eqb (CanvasObject.id obj) i)
                       (objects props) with
            | Some _ => [ObjectUpdate i (PartialObject.of_visible false)]
            | None => []
            end
        else []
    | None => []
    end in
  (calls, setTextInput "" (setEditingTextId None s)).

Definition cancelTextEditing (props : CanvasProps) (s : State)
    : list Call * State :=
  let calls :=
    match editingTextId s with
    | Some i =>
        if JS.truthy_string i then
          match find (fun obj => String.eqb (CanvasObject.id obj) i)
                     (objects props) with
          | Some textObj =>
              match Props.content (CanvasObject.props textObj) with
              | Some c =>
                  if String.eqb c "Text"
                  then [ObjectUpdate i (PartialObject.of_visible false)]
                  else []
              | None => []
              end
          | None => []
          end
        else []
    | None => []
    end in
  (calls, setTextInput "" (setEditingTextId None s)).

(** The effect on [[tool]]: [prevTool] is [prevToolRef.current], and the
    result carries its new value. *)
Definition toolChangeEffect (prevTool : Tool.t) (props : CanvasProps)
    (s : State) : list Call * State * Tool.t :=
  if negb (isTool prevTool (tool props)) then
    let '(calls1, s1) :=
      if isTool prevTool Tool.pen && Nat.ltb 1 (List.length (penPath s))
      then finishPenPath s
      else if isTool prevTool Tool.brush
              && Nat.ltb 1 (List.length (brushStrokes s))
      then finishBrushStroke s
      else if isTool prevTool Tool.curve
              && Nat.ltb 1 (List.length (curvePoints s))
      then finishCurve s
      else ([], s) in
    let '(calls2, s2) :=
      if isTool prevTool Tool.text && editing s
      then finishTextEditing props s1
      else ([], s1) in
    (calls1 ++ calls2, s2, tool props)
  else ([], s, prevTool).

End Text.

(** The part of a wheel event [handleWheel] reads. *)
Record WheelEvent := {
  deltaY : float;
  wheelCtrlKey : bool;
  wheelMetaKey : bool;
  wheelShiftKey : bool }.

Definition handleWheel (props : CanvasProps) (s : State) (e : WheelEvent)
    : list Call * State :=
  if wheelCtrlKey e || wheelMetaKey e then
    let delta := if JS.gt (deltaY e) 0 then 0.9 else 1.1 in
    let newZoom := JS.Math_max 0.1 (JS.Math_min 5 (zoom props * delta)) in
    ([ZoomChange newZoom], s)
  else if isTool (tool props) Tool.brush then
    let delta := if JS.gt (deltaY e) 0 then -2 else 2 in
    let prev := brushSettings s in
    ([], setBrushSettings
           {| brush_size :=
                JS.Math_max 1 (JS.Math_min 100 (brush_size prev + delta));
              brush_opacity := brush_opacity prev;
              brush_color := brush_color prev |} s)
  else if isTool (tool props) Tool.pen then
    let delta := if JS.gt (deltaY e) 0 then -0.5 else 0.5 in
    let prev := penSettings s in
    ([], setPenSettings
           {| pen_color := pen_color prev;
              pen_width :=
                JS.Math_max 0.5 (JS.Math_min 20 (pen_width prev + delta)) |}
           s)
  else
    let delta := if JS.gt (deltaY e) 0 then -50 else 50 in
    if wheelShiftKey e
    then ([PanChange (Point.mk (Point.x (pan props) + delta)
                               (Point.y (pan props)))], s)
    else ([PanChange (Point.mk (Point.x (pan props))
                               (Point.y (pan props) + delta))], s).

(** The [+] and [-] buttons over the canvas: the zoom they ask for. *)
Definition zoomInButton (props : CanvasProps) : list Call :=
  [ZoomChange (JS.Math_min 5 (zoom props * 1.2))].

Definition zoomOutButton (props : CanvasProps) : list Call :=
  [ZoomChange (JS.Math_max 0.1 (zoom props * 0.8))].

End Canvas.

(** ** PropertiesPanel.tsx (appended to useCanvas.ts in the sources) *)

Module PropertiesPanel.

(** [updateStyle(property, value)] for the keys of [StyleProperties]. *)
Inductive StyleChange :=
  | fill (value : string)
  | stroke (value : string)
  | strokeWidth (value : float)
  | opacity (value : float)
  | fillOpacity (value : float)
  | strokeOpacity (value : float)
  | gradient (value : option Gradient.t).

(** [{ ...style, [property]: value }]. *)
Definition withStyle (style : StyleProperties.t) (c : StyleChange)
    : StyleProperties.t :=
  let '(StyleProperties.mk f s sw o fo so g) := style in
  match c with
  | fill v => StyleProperties.mk v s sw o fo so g
  | stroke v => StyleProperties.mk f v sw o fo so g
  | strokeWidth v => StyleProperties.mk f s v o fo so g
  | opacity v => StyleProperties.mk f s sw v fo so g
  | fillOpacity v => StyleProperties.mk f s sw o v so g
  | strokeOpacity v => StyleProperties.mk f s sw o fo v g
  | gradient v => StyleProperties.mk f s sw o fo so (Some v)
  end.

(** The calls of [onUpdateObject] that [updateStyle] makes, in order. *)
Definition updateStyle (selectedObjects : list CanvasObject.t)
    (c : StyleChange) : list (string * PartialObject.t) :=
  map (fun obj =>
         (CanvasObject.id obj,
          PartialObject.of_style (withStyle (CanvasObject.style obj) c)))
      selectedObjects.

(** [updateTransform(property, value)] for the keys of [Transform]. *)
Inductive TransformChange :=
  | x (value : float)
  | y (value : float)
  | rotation (value : float)
  | scaleX (value : float)
  | scaleY (value : float).

(** [{ ...transform, [property]: value }]. *)
Definition withTransform (transform : Transform.t) (c : TransformChange)
    : Transform.t :=
  let '(Transform.mk tx ty r sx sy) := transform in
  match c with
  | x v => Transform.mk v ty r sx sy
  | y v => Transform.mk tx v r sx sy
  | rotation v => Transform.mk tx ty v sx sy
  | scaleX v => Transform.mk tx ty r v sy
  | scaleY v => Transform.mk tx ty r sx v
  end.

Definition updateTransform (selectedObjects : list CanvasObject.t)
    (c : TransformChange) : list (string * PartialObject.t) :=
  map (fun obj =>
         (CanvasObject.id obj,
          PartialObject.of_transform
            (withTransform (CanvasObject.transform obj) c)))
      selectedObjects.






End PropertiesPanel.

(** ** The project file: [JSON.parse(JSON.stringify(data, null, 2))]

    The value that comes back from the text, field by field.  A number
    that is NaN or infinite is written as [null], [-0] is written as [0],
    and any other number is written with digits that read back as the
    same number; strings and booleans come back as they are; a key that
    is absent stays absent and a [null] stays [null].  [None] stands for
    a value that holds [null] where the declared type has a number: no
    value of the declared types comes back then. *)

Module JSON.
Import Throwing.

Definition number (a : float) : option float :=
  if is_nan a || is_infinity a then None
  else if JS.is_negzero a then Some 0%float
  else Some a.

(** An optional key. *)
Definition optional {A} (value : A -> option A) (a : option A)
    : option (option A) :=
  match a with
  | None => Some None
  | Some x => y <- value x ;; Some (Some y)
  end.

Fixpoint array {A} (value : A -> option A) (l : list A)
    : option (list A) :=
  match l with
  | [] => Some []
  | a :: rest =>
      b <- value a ;; others <- array value rest ;; Some (b :: others)
  end.

Definition point (p : Point.t) : option Point.t :=
  x <- number (Point.x p) ;;
  y <- number (Point.y p) ;;
  Some (Point.mk x y).

Definition size (s : Size.t) : option Size.t :=
  width <- number (Size.width s) ;;
  height <- number (Size.height s) ;;
  Some (Size.mk width height).

Definition transform (t : Transform.t) : option Transform.t :=
  x <- number (Transform.x t) ;;
  y <- number (Transform.y t) ;;
  rotation <- number (Transform.rotation t) ;;
  scaleX <- number (Transform.scaleX t) ;;
  scaleY <- number (Transform.scaleY t) ;;
  Some (Transform.mk x y rotation scaleX scaleY).

Definition gradientStop (stop : GradientStop.t) : option GradientStop.t :=
  offset <- number (GradientStop.offset stop) ;;
  opacity <- number (GradientStop.opacity stop) ;;
  Some (GradientStop.mk offset (GradientStop.color stop) opacity).

Definition gradient (g : Gradient.t) : option Gradient.t :=
  stops <- array gradientStop (Gradient.stops g) ;;
  angle <- optional number (Gradient.angle g) ;;
  Some (Gradient.mk (Gradient.type g) stops angle).

Definition style (s : StyleProperties.t) : option StyleProperties.t :=
  strokeWidth <- number (StyleProperties.strokeWidth s) ;;
  opacity <- number (StyleProperties.opacity s) ;;
  fillOpacity <- number (StyleProperties.fillOpacity s) ;;
  strokeOpacity <- number (StyleProperties.strokeOpacity s) ;;
  gradient <- optional (optional gradient) (StyleProperties.gradient s) ;;
  Some (StyleProperties.mk (StyleProperties.fill s)
          (StyleProperties.stroke s) strokeWidth opacity fillOpacity
          strokeOpacity gradient).

Definition props (p : Props.t) : option Props.t :=
  width <- optional number (Props.width p) ;;
  height <- optional number (Props.height p) ;;
  rx <- optional number (Props.rx p) ;;
  ry <- optional number (Props.ry p) ;;
  radius <- optional number (Props.radius p) ;;
  points <- optional (array point) (Props.points p) ;;
  controlPoints <- optional (array point) (Props.controlPoints p) ;;
  fontSize <- optional number (Props.fontSize p) ;;
  x1 <- optional number (Props.x1 p) ;;
  y1 <- optional number (Props.y1 p) ;;
  x2 <- optional number (Props.x2 p) ;;
  y2 <- optional number (Props.y2 p) ;;
  originalWidth <- optional number (Props.originalWidth p) ;;
  originalHeight <- optional number (Props.originalHeight p) ;;
  Some (Props.mk width height rx ry radius points (Props.closed p)
          controlPoints (Props.content p) fontSize (Props.fontFamily p)
          (Props.fontWeight p) x1 y1 x2 y2 (Props.src p) originalWidth
          originalHeight).

Definition object (obj : CanvasObject.t) : option CanvasObject.t :=
  transform <- transform (CanvasObject.transform obj) ;;
  style <- style (CanvasObject.style obj) ;;
  props <- props (CanvasObject.props obj) ;;
  Some (CanvasObject.mk (CanvasObject.id obj) (CanvasObject.type obj)
          transform style (CanvasObject.visible obj)
          (CanvasObject.locked obj) (CanvasObject.selected obj) props).

Definition layer (l : Layer.t) : option Layer.t :=
  objects <- array object (Layer.objects l) ;;
  Some (Layer.mk (Layer.id l) (Layer.name l) (Layer.visible l)
          (Layer.locked l) objects).

End JSON.

(** ** MenuBar.tsx (appended to useCanvas.ts in the sources) *)

Module MenuBar.

Record SaveData := {
  version : string;
  application : string;
  created : string;
  layers : list Layer.t;
  canvasSize : Size.t;
  timestamp : float }.

(** The [data] that [handleSave] serializes; [created] and [timestamp]
    come from the clock. *)
Definition handleSave (layers : list Layer.t) (canvasSize : Size.t)
    (created : string) (timestamp : float) : SaveData :=
  {| version := "1.0";
     application := "VectorStudio Pro";
     created := created;
     layers := layers;
     canvasSize := canvasSize;
     timestamp := timestamp |}.

(** [handleFileOpen] hands [JSON.parse(text)] to [loadProject], where the
    text is the [JSON.stringify(data, null, 2)] that [handleSave] wrote:
    of the value that comes back [loadProject] reads [layers] and
    [canvasSize]; the file holds no [activeLayerId]. *)
Definition parsed (data : SaveData) : option UseCanvas.ProjectData :=
  match JSON.array JSON.layer (layers data),
        JSON.size (canvasSize data) with
  | Some layers, Some canvasSize =>
      Some (UseCanvas.Data (Some layers) None (Some canvasSize))
  | _, _ => None
  end.

Definition zoomLevels : list float :=
  [0.25; 0.5; 0.75; 1; 1.25; 1.5; 2; 3; 4]%float.

(** [zoomLevels.findIndex(level => Math.abs(level - zoom) < 0.01)], as the
    integer it is. *)
Definition currentZoomIndex (zoom : float) : Z :=
  match JS.findIndex
          (fun level => (JS.Math_abs (level - zoom) <? 0.01)%float)
          zoomLevels with
  | Some i => Z.of_nat i
  | None => (-1)%Z
  end.

(** What the zoom-out and zoom-in buttons hand to [onZoomChange]; an index
    outside the array would read [undefined]. *)
Definition zoomOutClick (zoom : float) : float :=
  let newIndex := Z.max 0 (currentZoomIndex zoom - 1) in
  JS.num (JS.get zoomLevels newIndex).

Definition zoomInClick (zoom : float) : float :=
  let newIndex :=
    Z.min (Z.of_nat (List.length zoomLevels) - 1)
          (currentZoomIndex zoom + 1) in
  JS.num (JS.get zoomLevels newIndex).

Definition zoomOutDisabled (zoom : float) : bool :=
  (currentZoomIndex zoom <=? 0)%Z.

Definition zoomInDisabled (zoom : float) : bool :=
  (Z.of_nat (List.length zoomLevels) - 1 <=? currentZoomIndex zoom)%Z.

End MenuBar.

(** ** LayersPanel.tsx (appended to useCanvas.ts in the sources) *)

Module LayersPanel.




End LayersPanel.

(** ** src/utils/export.ts: the SVG that every export format starts from *)

Module SvgExport.
Import Throwing Ascii.
Local Open Scope string_scope.

Definition quote : string := String "034"%char "".
Definition newline : string := String "010"%char "".

(** [name="value"] inside a template literal. *)
Definition attr (name value : string) : string :=
  name ++ "=" ++ quote ++ value ++ quote.

(** [arr.join(sep)]. *)
Definition join (sep : string) (l : list string) : string :=
  String.concat sep l.

(** [arr.map(f)] with a callback that can throw. *)
Fixpoint mapM {A B} (f : A -> option B) (l : list A) : option (list B) :=
  match l with
  | [] => Some []
  | a :: l' =>
      b <- f a ;;
      r <- mapM f l' ;;
      Some (b :: r)
  end.

Section Platform.

(** The engine's number-to-string conversion and its trigonometry. *)
Variable toString : float -> string.
Variables Math_cos Math_sin : float -> float.

(** A property that may be absent, in a template literal. *)
Definition showNumber (a : option float) : string :=
  match a with Some x => toString x | None => "undefined" end.

Definition showString (a : option string) : string :=
  match a with Some s => s | None => "undefined" end.

(** [style.gradient] as a condition: a gradient object is truthy, [null]
    and a missing key are not. *)
Definition hasGradient (style : StyleProperties.t) : bool :=
  match StyleProperties.gradient style with
  | Some (Some _) => true
  | _ => false
  end.

Definition stopToSVG (stop : GradientStop.t) : string :=
  "<stop "
  ++ attr "offset" (toString (GradientStop.offset stop * 100) ++ "%")
  ++ " " ++ attr "stop-color" (GradientStop.color stop)
  ++ " " ++ attr "stop-opacity" (toString (GradientStop.opacity stop))
  ++ " />".

Definition generateGradientDef (gradient : Gradient.t) (id : string)
    : string :=
  let stops :=
    join (newline ++ "      ") (map stopToSVG (Gradient.stops gradient)) in
  match Gradient.type gradient with
  | linear =>
      let angle := JS.or_number (Gradient.angle gradient) 0 in
      let x1 := (50 + 50 * Math_cos ((angle - 90) * JS.Math_PI / 180))%float in
      let y1 := (50 + 50 * Math_sin ((angle - 90) * JS.Math_PI / 180))%float in
      let x2 := (50 + 50 * Math_cos ((angle + 90) * JS.Math_PI / 180))%float in
      let y2 := (50 + 50 * Math_sin ((angle + 90) * JS.Math_PI / 180))%float in
      "<linearGradient " ++ attr "id" id
      ++ " " ++ attr "x1" (toString x1 ++ "%")
      ++ " " ++ attr "y1" (toString y1 ++ "%")
      ++ " " ++ attr "x2" (toString x2 ++ "%")
      ++ " " ++ attr "y2" (toString y2 ++ "%") ++ ">"
      ++ newline ++ "      " ++ stops
      ++ newline ++ "    </linearGradient>"
  | radial =>
      "<radialGradient " ++ attr "id" id
      ++ " " ++ attr "cx" "50%" ++ " " ++ attr "cy" "50%"
      ++ " " ++ attr "r" "50%" ++ ">"
      ++ newline ++ "      " ++ stops
      ++ newline ++ "    </radialGradient>"
  end.

Definition transformStr (transform : Transform.t) : string :=
  "translate(" ++ toString (Transform.x transform)
  ++ "," ++ toString (Transform.y transform)
  ++ ") rotate("
  ++ toString (Transform.rotation transform * 180 / JS.Math_PI)%float
  ++ ") scale(" ++ toString (Transform.scaleX transform)
  ++ "," ++ toString (Transform.scaleY transform) ++ ")".

Definition styleStr (obj : CanvasObject.t) : string :=
  let style := CanvasObject.style obj in
  let fillValue :=
    if hasGradient style
    then "url(#gradient-" ++ CanvasObject.id obj ++ ")"
    else StyleProperties.fill style in
  attr "fill" fillValue
  ++ " " ++ attr "stroke" (StyleProperties.stroke style)
  ++ " " ++ attr "stroke-width"
                 (toString (StyleProperties.strokeWidth style))
  ++ " " ++ attr "opacity" (toString (StyleProperties.opacity style))
  ++ " " ++ attr "fill-opacity"
                 (toString (StyleProperties.fillOpacity style))
  ++ " " ++ attr "stroke-opacity"
                 (toString (StyleProperties.strokeOpacity style)).

(** What every element ends with before it closes. *)
Definition common (obj : CanvasObject.t) : string :=
  styleStr obj
  ++ " " ++ attr "transform" (transformStr (CanvasObject.transform obj))
  ++ " " ++ attr "class" "smooth-edges".

(** The [d] of a path; reading [points.length] throws when the object
    has no [points]. *)
Definition pathData (p : Props.t) : option string :=
  points <- Props.points p ;;
  match points with
  | first :: rest =>
      Some ("M " ++ toString (Point.x first) ++ " "
            ++ toString (Point.y first) ++ " "
            ++ join " " (map (fun pt => "L " ++ toString (Point.x pt) ++ " "
                                        ++ toString (Point.y pt)) rest)
            ++ match Props.closed p with
               | Some true => " Z"
               | _ => ""
               end)
  | [] => Some ""
  end.

Definition objectToSVG (obj : CanvasObject.t) : option string :=
  let p := CanvasObject.props obj in
  let type := CanvasObject.type obj in
  if String.eqb type "rect" then
    Some ("<rect " ++ attr "x" "0" ++ " " ++ attr "y" "0"
          ++ " " ++ attr "width" (showNumber (Props.width p))
          ++ " " ++ attr "height" (showNumber (Props.height p))
          ++ " " ++ attr "rx" (toString (JS.or_number (Props.rx p) 0))
          ++ " " ++ attr "ry" (toString (JS.or_number (Props.ry p) 0))
          ++ " " ++ common obj ++ " />")
  else if String.eqb type "circle" then
    Some ("<circle " ++ attr "cx" "0" ++ " " ++ attr "cy" "0"
          ++ " " ++ attr "r" (showNumber (Props.radius p))
          ++ " " ++ common obj ++ " />")
  else if String.eqb type "line" then
    Some ("<line " ++ attr "x1" (showNumber (Props.x1 p))
          ++ " " ++ attr "y1" (showNumber (Props.y1 p))
          ++ " " ++ attr "x2" (showNumber (Props.x2 p))
          ++ " " ++ attr "y2" (showNumber (Props.y2 p))
          ++ " " ++ common obj ++ " />")
  else if String.eqb type "text" then
    Some ("<text " ++ attr "x" "0" ++ " " ++ attr "y" "0"
          ++ " " ++ attr "font-family" (showString (Props.fontFamily p))
          ++ " " ++ attr "font-size" (showNumber (Props.fontSize p))
          ++ " " ++ attr "font-weight" (showString (Props.fontWeight p))
          ++ " " ++ attr "dominant-baseline" "central"
          ++ " " ++ common obj ++ ">"
          ++ showString (Props.content p) ++ "</text>")
  else if String.eqb type "path" then
    d <- pathData p ;;
    Some ("<path " ++ attr "d" d ++ " " ++ common obj ++ " />")
  else if String.eqb type "image" then
    Some ("<image " ++ attr "x" "0" ++ " " ++ attr "y" "0"
          ++ " " ++ attr "width" (showNumber (Props.width p))
          ++ " " ++ attr "height" (showNumber (Props.height p))
          ++ " " ++ attr "href" (showString (Props.src p))
          ++ " " ++ common obj ++ " />")
  else Some "".

(** The objects an export looks at: the visible ones of the visible
    layers, bottom layer first. *)
Definition exported (layers : list Layer.t) : list CanvasObject.t :=
  flat_map (fun layer => filter CanvasObject.visible (Layer.objects layer))
           (filter Layer.visible layers).

(** The gradient definitions; after the filter every object has its
    gradient, so the last branch is never taken. *)
Definition gradientDefs (layers : list Layer.t) : list string :=
  flat_map
    (fun layer =>
       flat_map
         (fun obj =>
            match StyleProperties.gradient (CanvasObject.style obj) with
            | Some (Some g) =>
                [generateGradientDef g ("gradient-" ++ CanvasObject.id obj)]
            | _ => []
            end)
         (filter (fun obj => CanvasObject.visible obj
                             && hasGradient (CanvasObject.style obj))
                 (Layer.objects layer)))
    (filter Layer.visible layers).

(** The template starts with a line break, which [trim] removes, and ends
    with [</svg>]. *)
Definition generateSVG (layers : list Layer.t) (canvasSize : Size.t)
    : option string :=
  svgElements <- mapM objectToSVG (exported layers) ;;
  let width := toString (Size.width canvasSize) in
  let height := toString (Size.height canvasSize) in
  Some ("<svg " ++ attr "width" width ++ " " ++ attr "height" height
        ++ " " ++ attr "xmlns" "http://www.w3.org/2000/svg"
        ++ " " ++ attr "viewBox" ("0 0 " ++ width ++ " " ++ height) ++ ">"
        ++ newline ++ "  <defs>"
        ++ newline ++ "    <style>"
        ++ newline ++ "      .smooth-edges { "
        ++ newline ++ "        shape-rendering: geometricPrecision; "
        ++ newline ++ "        text-rendering: optimizeLegibility;"
        ++ newline ++ "      }"
        ++ newline ++ "    </style>"
        ++ newline ++ "    " ++ join (newline ++ "    ") (gradientDefs layers)
        ++ newline ++ "  </defs>"
        ++ newline ++ "  " ++ join (newline ++ "  ") svgElements
        ++ newline ++ "</svg>").

End Platform.

End SvgExport.

(** ** App.tsx: how the hook and the components are wired *)

Module App.
Import UseCanvas.

Definition allObjects (state : CanvasState.t) : list CanvasObject.t :=
  flat_map Layer.objects (CanvasState.layers state).

Definition selectedObjects (state : CanvasState.t) : list CanvasObject.t :=
  filter (fun obj =>
            JS.includes (CanvasState.selectedObjectIds state)
                        (CanvasObject.id obj))
         (allObjects state).

(** The hook between two renders: the history and the [nextObjectId]
    ref. *)
Record Hook := { history : HistoryState.t; nextObjectId : nat }.

Definition initialHook : Hook :=
  {| history := initialHistory; nextObjectId := 1 |}.

(** Every callback a handler calls was made by the render it runs in, so
    all of them see that render's [state], the present of the history at
    that time; the updaters they queue run in order. *)
Definition onUpdateObject (state : CanvasState.t)
    (calls : list (string * PartialObject.t)) (h : Hook) : Hook :=
  {| history :=
       fold_left (fun hist c => updateObject state (fst c) (snd c) hist)
                 calls (history h);
     nextObjectId := nextObjectId h |}.

Definition dispatch (state : CanvasState.t) (h : Hook) (c : Canvas.Call)
    : Hook :=
  match c with
  | Canvas.ObjectSelect ids =>
      {| history := selectObjects state ids (history h);
         nextObjectId := nextObjectId h |}
  | Canvas.ObjectUpdate i u =>
      {| history := updateObject state i u (history h);
         nextObjectId := nextObjectId h |}
  | Canvas.AddObject obj =>
      let (n, f) := addObject state (nextObjectId h) obj in
      {| history := f (history h); nextObjectId := n |}
  | Canvas.PanChange p =>
      {| history := setPan state p (history h);
         nextObjectId := nextObjectId h |}
  | Canvas.ZoomChange z =>
      {| history := setZoom state z (history h);
         nextObjectId := nextObjectId h |}
  | Canvas.SetTimeout _ _ => h
  end.

(** A handler's calls, made during one render. *)
Definition handle (calls : list Canvas.Call) (h : Hook) : Hook :=
  fold_left (dispatch (HistoryState.present (history h))) calls h.

(** [updateStyle] of the properties panel on the current selection. *)
Definition updateStyle (c : PropertiesPanel.StyleChange) (h : Hook) : Hook :=
  let state := HistoryState.present (history h) in
  onUpdateObject state
    (PropertiesPanel.updateStyle (selectedObjects state) c) h.

(** The props [App] hands to [Canvas]. *)
Definition canvasProps (state : CanvasState.t) : Canvas.CanvasProps :=
  {| Canvas.objects := allObjects state;
     Canvas.selectedObjectIds := CanvasState.selectedObjectIds state;
     Canvas.tool := CanvasState.tool state;
     Canvas.zoom := CanvasState.zoom state;
     Canvas.pan := CanvasState.pan state |}.

(** [handleSetActiveLayer]: what a click on a layer row does. *)
Definition handleSetActiveLayer (state : CanvasState.t) (layerId : string)
    : updater :=
  updateLayer state (CanvasState.activeLayerId state)
    {| PartialLayer.id := Some layerId; PartialLayer.name := None;
       PartialLayer.visible := None; PartialLayer.locked := None;
       PartialLayer.objects := None |}.

(** The Delete and Backspace keys:
    [state.selectedObjectIds.forEach(id => deleteObject(id))]. *)
Definition deleteSelected (state : CanvasState.t) : updater :=
  fun h =>
    fold_left (fun hist i => deleteObject state i hist)
              (CanvasState.selectedObjectIds state) h.

(** [onLoadProject] is [loadProject], which sets the history and never
    touches the [nextObjectId] ref. *)
Definition onLoadProject (data : ProjectData) (h : Hook) : Hook :=
  {| history := loadProject data (history h);
     nextObjectId := nextObjectId h |}.

End App.

(** * The vocabulary of the properties *)

Module Sessions.
Import HistoryState CanvasState UseCanvas.

(** The histories a session can reach. *)
Inductive reachable : HistoryState.t -> Prop :=
  | reach_init : reachable initialHistory
  | reach_commit h D : reachable h -> reachable (pushToHistory D h)
  | reach_undo h : reachable h -> reachable (undo h)
  | reach_redo h : reachable h -> reachable (redo h).

(** What the code keeps: 51 snapshots in [past], 50 in [future], 51 in
    both together. *)
Definition bounded (h : HistoryState.t) : Prop :=
  List.length (past h) + List.length (future h) <= 51
  /\ List.length (future h) <= 50.

(** A session of [n] commits, each of a document told apart by its
    selection. *)
Definition numbered (i : nat) : CanvasState.t :=
  present (selectObjects createInitialState [JS.nat_to_string i]
             initialHistory).

Fixpoint commits (n : nat) (h : HistoryState.t) : HistoryState.t :=
  match n with
  | 0 => h
  | S k => pushToHistory (numbered n) (commits k h)
  end.

End Sessions.

(** ** The curve of the specification

    The path as a list of commands, the text the code gives each, and the
    Catmull-Rom rule in the specification's words: for the indices
    [i = 0 .. n-2], [p0 = point[i-1]] (or [point[i]] if [i = 0]),
    [p1 = point[i]], [p2 = point[i+1]], [p3 = point[i+2]] (or [point[i+1]]
    if out of range), and a cubic segment to [p2] with control points
    [p1 + (p2 - p0) / 6] and [p2 - (p3 - p1) / 6]. *)

Module CurveSpec.
Local Open Scope float_scope.

Inductive PathCommand :=
  | MoveTo (p : Point.t)
  | LineTo (p : Point.t)
  | CurveTo (cp1 cp2 p : Point.t).

Definition segment (points : list Point.t) (d : Point.t) (i : nat)
    : PathCommand :=
  let pt k := nth k points d in
  let p0 := if Nat.eqb i 0 then pt i else pt (i - 1)%nat in
  let p1 := pt i in
  let p2 := pt (i + 1)%nat in
  let p3 := if Nat.ltb (i + 2) (List.length points)
            then pt (i + 2)%nat else pt (i + 1)%nat in
  CurveTo
    (Point.mk (Point.x p1 + (Point.x p2 - Point.x p0) / 6)
              (Point.y p1 + (Point.y p2 - Point.y p0) / 6))
    (Point.mk (Point.x p2 - (Point.x p3 - Point.x p1) / 6)
              (Point.y p2 - (Point.y p3 - Point.y p1) / 6))
    p2.

Definition smoothCurve (points : list Point.t) : list PathCommand :=
  match points with
  | [] | [_] => []
  | [a; b] => [MoveTo a; LineTo b]
  | a :: _ =>
      MoveTo a :: map (segment points a) (seq 0 (List.length points - 1))
  end.

Section Render.

Variable toString : float -> string.

Definition renderCommand (c : PathCommand) : string :=
  match c with
  | MoveTo p => "M " ++ toString (Point.x p) ++ " " ++ toString (Point.y p)
  | LineTo p => " L " ++ toString (Point.x p) ++ " " ++ toString (Point.y p)
  | CurveTo cp1 cp2 p =>
      " C " ++ toString (Point.x cp1) ++ " " ++ toString (Point.y cp1)
      ++ ", " ++ toString (Point.x cp2) ++ " " ++ toString (Point.y cp2)
      ++ ", " ++ toString (Point.x p) ++ " " ++ toString (Point.y p)
  end%string.

Definition render (cs : list PathCommand) : string :=
  fold_left (fun path c => (path ++ renderCommand c)%string) cs ""%string.

End Render.

End CurveSpec.

(** ** The object update of the specification

    A nested merge of [style], in the specification's words: a key of the
    update wins, a key the update lacks keeps the value the object has.
    Of the keys of [StyleProperties] only [gradient] may be lacking. *)

Module ObjectModelSpec.

(** [obj] with another style and nothing else changed. *)
Definition restyled (obj : CanvasObject.t) (style : StyleProperties.t)
    : CanvasObject.t :=
  {| CanvasObject.id := CanvasObject.id obj;
     CanvasObject.type := CanvasObject.type obj;
     CanvasObject.transform := CanvasObject.transform obj;
     CanvasObject.style := style;
     CanvasObject.visible := CanvasObject.visible obj;
     CanvasObject.locked := CanvasObject.locked obj;
     CanvasObject.selected := CanvasObject.selected obj;
     CanvasObject.props := CanvasObject.props obj |}.

(** The objects of every layer, each through [f]. *)
Definition mapObjects (f : CanvasObject.t -> CanvasObject.t)
    (layers : list Layer.t) : list Layer.t :=
  map (fun layer => UseCanvas.withObjects layer (map f (Layer.objects layer)))
      layers.


End ObjectModelSpec.

(** ** Sample documents and gestures *)

Module Samples.
Local Open Scope float_scope.

Definition blueToNavy : Gradient.t :=
  {| Gradient.type := linear;
     Gradient.stops :=
       [ GradientStop.mk 0 "#3B82F6" 1; GradientStop.mk 1 "#1E40AF" 1 ];
     Gradient.angle := Some 0 |}.

Definition square (id : string) (x y : float)
    (gradient : option (option Gradient.t)) : CanvasObject.t :=
  {| CanvasObject.id := id;
     CanvasObject.type := "rect";
     CanvasObject.transform := Canvas.unit_transform x y;
     CanvasObject.style :=
       {| StyleProperties.fill := "#3B82F6";
          StyleProperties.stroke := "#1E40AF";
          StyleProperties.strokeWidth := 2;
          StyleProperties.opacity := 1;
          StyleProperties.fillOpacity := 1;
          StyleProperties.strokeOpacity := 1;
          StyleProperties.gradient := gradient |};
     CanvasObject.visible := true;
     CanvasObject.locked := false;
     CanvasObject.selected := false;
     CanvasObject.props := Props.rect 100 100 |}.

(** A document of one layer holding [objs], with [selection] selected. *)
Definition document (objs : list CanvasObject.t) (selection : list string)
    (tool : Tool.t) : CanvasState.t :=
  {| CanvasState.layers :=
       [ {| Layer.id := "layer-1"; Layer.name := "Layer 1";
            Layer.visible := true; Layer.locked := false;
            Layer.objects := objs |} ];
     CanvasState.activeLayerId := "layer-1";
     CanvasState.selectedObjectIds := selection;
     CanvasState.zoom := 1;
     CanvasState.pan := Point.mk 100 100;
     CanvasState.tool := tool;
     CanvasState.canvasSize := Size.mk 4000 4000 |}.

Definition session (D : CanvasState.t) : App.Hook :=
  {| App.history :=
       {| HistoryState.past := []; HistoryState.present := D;
          HistoryState.future := [] |};
     App.nextObjectId := 1 |}.

(** The canvas element mounted at the top-left corner of the window. *)
Definition mounted : Canvas.State :=
  Canvas.mkState (Some (Point.mk 0 0)) false None false None None false
    (Size.mk 4000 4000) None None "" (Point.mk 0 0) [] false
    (Canvas.penSettings Canvas.initialState) [] false
    (Canvas.brushSettings Canvas.initialState) [] false.

Definition mouse (clientX clientY : float) : Canvas.MouseEvent :=
  {| Canvas.clientX := clientX; Canvas.clientY := clientY;
     Canvas.shiftKey := false; Canvas.buttons := 1 |}.

(** Two squares of side 100, one far down, one far right. *)
Definition tall : CanvasObject.t := square "obj-1" 0 5000 (Some None).
Definition wide : CanvasObject.t := square "obj-2" 5000 0 (Some None).

(** The props of a canvas that shows [objs]. *)
Definition showing (objs : list CanvasObject.t) : Canvas.CanvasProps :=
  App.canvasProps (document objs [] Tool.select).

End Samples.

(** ** Ranges, sessions of the whole hook, and documents in good order *)

From Stdlib Require SpecFloat.

Module Ranges.

(** [r] is a number, and lies between [lo] and [hi]. *)
Definition between (lo hi r : float) : Prop :=
  is_nan r = false /\ JS.le lo r = true /\ JS.le r hi = true.

(** An IEEE value that is neither NaN nor an infinity. *)
Definition SFnumber (x : SpecFloat.spec_float) : Prop :=
  match x with
  | SpecFloat.S754_zero _ | SpecFloat.S754_finite _ _ _ => True
  | _ => False
  end.

(** A bound a clamp can use: finite and not a zero. *)
Definition SFbound (x : SpecFloat.spec_float) : Prop :=
  match x with
  | SpecFloat.S754_finite _ _ _ => True
  | _ => False
  end.

End Ranges.

Module Hook.
Import HistoryState CanvasState UseCanvas.

(** Every operation of the hook queues one of these updaters (or none):
    a commit, a replacement of the present, a load, an undo or a redo. *)
Inductive evolves : HistoryState.t -> Prop :=
  | evolves_init : evolves initialHistory
  | evolves_commit h D : evolves h -> evolves (pushToHistory D h)
  | evolves_replace h D : evolves h -> evolves (setPresent D h)
  | evolves_load h data : evolves h -> evolves (loadProject data h)
  | evolves_undo h : evolves h -> evolves (undo h)
  | evolves_redo h : evolves h -> evolves (redo h).

(** The snapshots of a history in time order. *)
Definition timeline (h : HistoryState.t) : list CanvasState.t :=
  past h ++ present h :: future h.

(** Some layer carries the active layer id. *)
Definition activeLayerExists (D : CanvasState.t) : Prop :=
  In (activeLayerId D) (map Layer.id (layers D)).

(** The id [addObject] gives the object numbered [n]. *)
Definition objectId (n : nat) : string := "obj-" ++ JS.nat_to_string n.

(** Every object carries an id issued before [n], and no two the same. *)
Definition idsIssuedBelow (n : nat) (D : CanvasState.t) : Prop :=
  NoDup (map CanvasObject.id (App.allObjects D))
  /\ forall o, In o (App.allObjects D) ->
       exists k, k < n /\ CanvasObject.id o = objectId k.

(** [D] without the objects of id [objectId], selection included. *)
Definition without (objectId : string) (D : CanvasState.t) : CanvasState.t :=
  present (deleteObject D objectId initialHistory).

(** The document [addObject] commits when it adds [obj] to [D] under the
    number [n]. *)
Definition withNew (n : nat) (obj : CanvasObject.t) (D : CanvasState.t)
    : CanvasState.t :=
  present (snd (addObject D n obj) initialHistory).

(** [obj] as [addObject] numbers it. *)
Definition numberedObject (n : nat) (obj : CanvasObject.t)
    : CanvasObject.t :=
  {| CanvasObject.id := objectId n;
     CanvasObject.type := CanvasObject.type obj;
     CanvasObject.transform := CanvasObject.transform obj;
     CanvasObject.style := CanvasObject.style obj;
     CanvasObject.visible := CanvasObject.visible obj;
     CanvasObject.locked := CanvasObject.locked obj;
     CanvasObject.selected := CanvasObject.selected obj;
     CanvasObject.props := CanvasObject.props obj |}.

End Hook.

(** A document of three empty layers, bottom to top, the top one active. *)
Module LayerSamples.

Definition emptyLayer (id name : string) : Layer.t :=
  {| Layer.id := id; Layer.name := name; Layer.visible := true;
     Layer.locked := false; Layer.objects := [] |}.

Definition threeLayers : CanvasState.t :=
  {| CanvasState.layers :=
       [ emptyLayer "layer-1" "Layer 1"; emptyLayer "layer-2" "Layer 2";
         emptyLayer "layer-3" "Layer 3" ];
     CanvasState.activeLayerId := "layer-3";
     CanvasState.selectedObjectIds := [];
     CanvasState.zoom := 1;
     CanvasState.pan := Point.mk 100 100;
     CanvasState.tool := Tool.select;
     CanvasState.canvasSize := Size.mk 4000 4000 |}.

End LayerSamples.

(** An object turned or scaled, everything else as it was. *)
Module Placement.

Definition turned (r : float) (obj : CanvasObject.t) : CanvasObject.t :=
  {| CanvasObject.id := CanvasObject.id obj;
     CanvasObject.type := CanvasObject.type obj;
     CanvasObject.transform :=
       {| Transform.x := Transform.x (CanvasObject.transform obj);
          Transform.y := Transform.y (CanvasObject.transform obj);
          Transform.rotation := r;
          Transform.scaleX := Transform.scaleX (CanvasObject.transform obj);
          Transform.scaleY := Transform.scaleY (CanvasObject.transform obj)
       |};
     CanvasObject.style := CanvasObject.style obj;
     CanvasObject.visible := CanvasObject.visible obj;
     CanvasObject.locked := CanvasObject.locked obj;
     CanvasObject.selected := CanvasObject.selected obj;
     CanvasObject.props := CanvasObject.props obj |}.

Definition scaled (sx sy : float) (obj : CanvasObject.t) : CanvasObject.t :=
  {| CanvasObject.id := CanvasObject.id obj;
     CanvasObject.type := CanvasObject.type obj;
     CanvasObject.transform :=
       {| Transform.x := Transform.x (CanvasObject.transform obj);
          Transform.y := Transform.y (CanvasObject.transform obj);
          Transform.rotation :=
            Transform.rotation (CanvasObject.transform obj);
          Transform.scaleX := sx;
          Transform.scaleY := sy |};
     CanvasObject.style := CanvasObject.style obj;
     CanvasObject.visible := CanvasObject.visible obj;
     CanvasObject.locked := CanvasObject.locked obj;
     CanvasObject.selected := CanvasObject.selected obj;
     CanvasObject.props := CanvasObject.props obj |}.

End Placement.

(** What of a document is on show. *)
Module Visibility.

(** The layers with everything hidden taken out: hidden layers, and the
    hidden objects of the others. *)
Definition shown (layers : list Layer.t) : list Layer.t :=
  map (fun layer =>
         UseCanvas.withObjects layer
           (filter CanvasObject.visible (Layer.objects layer)))
      (filter Layer.visible layers).

End Visibility.

(** The rubber band of the select tool. *)
Module Selection.
Local Open Scope float_scope.

(** The box spanned by the two corners of the band. *)
Definition band (start end_ : Point.t) : BoundingBox.t :=
  {| BoundingBox.x := JS.Math_min (Point.x start) (Point.x end_);
     BoundingBox.y := JS.Math_min (Point.y start) (Point.y end_);
     BoundingBox.width := JS.Math_abs (Point.x end_ - Point.x start);
     BoundingBox.height := JS.Math_abs (Point.y end_ - Point.y start) |}.

(** [bbox] lies within [box], borders included. *)
Definition within (box bbox : BoundingBox.t) : bool :=
  JS.ge (BoundingBox.x bbox) (BoundingBox.x box)
  && JS.ge (BoundingBox.y bbox) (BoundingBox.y box)
  && JS.le (BoundingBox.x bbox + BoundingBox.width bbox)
           (BoundingBox.x box + BoundingBox.width box)
  && JS.le (BoundingBox.y bbox + BoundingBox.height bbox)
           (BoundingBox.y box + BoundingBox.height box).

(** The objects of [objs] whose box lies within the band, in the order
    of [objs]. *)
Definition banded (start end_ : Point.t) (objs : list CanvasObject.t)
    : list CanvasObject.t :=
  filter (fun obj =>
            match Geometry.getBoundingBox obj with
            | Some bbox => within (band start end_) bbox
            | None => false
            end)
         objs.

(** The box of [obj] holds [point]. *)
Definition under (point : Point.t) (obj : CanvasObject.t) : option bool :=
  option_map (Geometry.pointInBoundingBox point)
             (Geometry.getBoundingBox obj).

End Selection.

(** The numbers a document holds, and the ones a project file gives back
    as they are. *)
Module Numbers.

(** Neither NaN nor infinite nor [-0]. *)
Definition exact (a : float) : bool :=
  negb (is_nan a || is_infinity a || JS.is_negzero a).

Definition opt (a : option float) : list float :=
  match a with Some x => [x] | None => [] end.

Definition ofPoint (p : Point.t) : list float := [Point.x p; Point.y p].

Definition ofPoints (l : option (list Point.t)) : list float :=
  match l with Some ps => flat_map ofPoint ps | None => [] end.

Definition ofStop (stop : GradientStop.t) : list float :=
  [GradientStop.offset stop; GradientStop.opacity stop].

Definition ofGradient (g : option (option Gradient.t)) : list float :=
  match g with
  | Some (Some g) =>
      flat_map ofStop (Gradient.stops g) ++ opt (Gradient.angle g)
  | _ => []
  end.

Definition ofTransform (t : Transform.t) : list float :=
  [Transform.x t; Transform.y t; Transform.rotation t; Transform.scaleX t;
   Transform.scaleY t].

Definition ofStyle (s : StyleProperties.t) : list float :=
  [StyleProperties.strokeWidth s; StyleProperties.opacity s;
   StyleProperties.fillOpacity s; StyleProperties.strokeOpacity s]
  ++ ofGradient (StyleProperties.gradient s).

Definition ofProps (p : Props.t) : list float :=
  opt (Props.width p) ++ opt (Props.height p) ++ opt (Props.rx p)
  ++ opt (Props.ry p) ++ opt (Props.radius p) ++ ofPoints (Props.points p)
  ++ ofPoints (Props.controlPoints p) ++ opt (Props.fontSize p)
  ++ opt (Props.x1 p) ++ opt (Props.y1 p) ++ opt (Props.x2 p)
  ++ opt (Props.y2 p) ++ opt (Props.originalWidth p)
  ++ opt (Props.originalHeight p).

Definition ofObject (obj : CanvasObject.t) : list float :=
  ofTransform (CanvasObject.transform obj)
  ++ ofStyle (CanvasObject.style obj)
  ++ ofProps (CanvasObject.props obj).

Definition ofLayer (l : Layer.t) : list float :=
  flat_map ofObject (Layer.objects l).

Definition ofSize (s : Size.t) : list float :=
  [Size.width s; Size.height s].

Definition ofDocument (D : CanvasState.t) : list float :=
  flat_map ofLayer (CanvasState.layers D)
  ++ ofSize (CanvasState.canvasSize D).

(** What a project file keeps of the layers whatever their numbers are:
    the layers with their names and flags, and in each the objects with
    their ids, types and flags. *)
Definition outline (layers : list Layer.t) :=
  map (fun l =>
         (Layer.id l, Layer.name l, Layer.visible l, Layer.locked l,
          map (fun obj =>
                 (CanvasObject.id obj, CanvasObject.type obj,
                  CanvasObject.visible obj, CanvasObject.locked obj,
                  CanvasObject.selected obj))
              (Layer.objects l)))
      layers.

End Numbers.

(** * Properties *)

Ltac conj_split := repeat match goal with |- _ /\ _ => split end.

(** ** List facts used by the history proofs *)

Section ListFacts.
Context {A : Type}.

Lemma nth_error_snoc (l : list A) (x : A) :
  nth_error (l ++ [x]) (List.length l) = Some x.
Proof.
  induction l as [|a l IH]; simpl; [reflexivity | exact IH].
Qed.

Lemma firstn_snoc (l : list A) (x : A) :
  firstn (List.length l) (l ++ [x]) = l.
Proof.
  induction l as [|a l IH]; simpl; [reflexivity | now rewrite IH].
Qed.

Lemma slice_last_length (n : nat) (l : list A) :
  List.length (JS.slice_last n l) = Nat.min n (List.length l).
Proof.
  unfold JS.slice_last. rewrite length_skipn. lia.
Qed.

Lemma slice_last_all (n : nat) (l : list A) :
  List.length l <= n -> JS.slice_last n l = l.
Proof.
  intros H. unfold JS.slice_last.
  replace (List.length l - n) with 0 by lia. reflexivity.
Qed.

End ListFacts.

(** ** The history engine: commit, undo, redo *)

Module HistoryFacts.
Import HistoryState CanvasState UseCanvas Sessions.

(** [undo] on a history whose past ends with [x]. *)
Lemma undo_snoc (l : list CanvasState.t) (x p : CanvasState.t)
    (f : list CanvasState.t) :
  undo {| past := l ++ [x]; present := p; future := f |}
  = {| past := l; present := x; future := p :: firstn 49 f |}.
Proof.
  unfold undo. simpl.
  rewrite length_app. simpl.
  replace (List.length l + 1) with (S (List.length l)) by lia.
  rewrite nth_error_snoc, firstn_snoc. reflexivity.
Qed.

Lemma undo_empty (h : HistoryState.t) : past h = [] -> undo h = h.
Proof. intros H. unfold undo. rewrite H. reflexivity. Qed.

Lemma redo_empty (h : HistoryState.t) : future h = [] -> redo h = h.
Proof. intros H. unfold redo. rewrite H. reflexivity. Qed.

Lemma undo_past_length (h : HistoryState.t) :
  List.length (past (undo h)) = List.length (past h) - 1.
Proof.
  destruct h as [pa pr fu].
  destruct pa as [|a pa'] using rev_ind.
  - reflexivity.
  - rewrite undo_snoc. simpl. rewrite length_app. simpl. lia.
Qed.

Lemma undo_future_length (h : HistoryState.t) :
  List.length (future (undo h))
  = match past h with
    | [] => List.length (future h)
    | _ => S (Nat.min 49 (List.length (future h)))
    end.
Proof.
  destruct h as [pa pr fu].
  destruct pa as [|a pa'] using rev_ind.
  - reflexivity.
  - rewrite undo_snoc. cbn [past future List.length].
    rewrite length_firstn.
    destruct (pa' ++ [a]) eqn:E; [now destruct pa' | reflexivity].
Qed.

Lemma pushToHistory_bounded (D : CanvasState.t) (h : HistoryState.t) :
  bounded (pushToHistory D h).
Proof.
  unfold bounded, pushToHistory. cbn [past future].
  rewrite length_app, slice_last_length. cbn [List.length]. lia.
Qed.

Lemma undo_bounded (h : HistoryState.t) : bounded h -> bounded (undo h).
Proof.
  unfold bounded. intros [H1 H2].
  rewrite undo_past_length, undo_future_length.
  destruct (past h) as [|a l]; cbn [List.length] in *; lia.
Qed.

Lemma redo_bounded (h : HistoryState.t) : bounded h -> bounded (redo h).
Proof.
  unfold bounded, redo. intros [H1 H2].
  destruct (future h) as [|n f] eqn:E; simpl.
  - rewrite E. simpl. lia.
  - rewrite length_app. simpl in *. lia.
Qed.

Lemma reachable_bounded (h : HistoryState.t) : reachable h -> bounded h.
Proof.
  induction 1.
  - unfold bounded. simpl. lia.
  - apply pushToHistory_bounded.
  - now apply undo_bounded.
  - now apply redo_bounded.
Qed.

(** The stacks of a reachable history hold at most 51 and 50 snapshots. *)
Lemma reachable_stack_sizes (h : HistoryState.t) :
  reachable h ->
  List.length (past h) <= 51 /\ List.length (future h) <= 50.
Proof.
  intros H. destruct (reachable_bounded h H) as [H1 H2]. lia.
Qed.

(** A commit on a past of at most 50 keeps all of it. *)
Lemma commit_below_51 (D : CanvasState.t) (h : HistoryState.t) :
  List.length (past h) <= 50 ->
  past (pushToHistory D h) = past h ++ [present h].
Proof.
  intros H. unfold pushToHistory. cbn [past].
  now rewrite slice_last_all.
Qed.

(** A commit on a past of 51 drops its oldest snapshot and no other. *)
Lemma commit_on_full_past (D : CanvasState.t) (h : HistoryState.t) :
  List.length (past h) = 51 ->
  past (pushToHistory D h) = tl (past h) ++ [present h].
Proof.
  intros H. unfold pushToHistory, JS.slice_last. simpl. rewrite H.
  destruct (past h); [discriminate | reflexivity].
Qed.

Lemma commits_reachable (n : nat) : reachable (commits n initialHistory).
Proof.
  induction n; simpl; [apply reach_init | now apply reach_commit].
Qed.

End HistoryFacts.

Module HistoryEngine.
Import HistoryState CanvasState UseCanvas Sessions HistoryFacts.

(** C1: whatever the history, committing a document [D'] on a present
    [D] and undoing gives back the present [D]; redoing after that undo
    gives the present [D'] again, and indeed the whole committed
    history. *)
Theorem commit_undo_redo (h : HistoryState.t) (D' : CanvasState.t) :
  let committed := pushToHistory D' h in
  present (undo committed) = present h
  /\ present (redo (undo committed)) = D'
  /\ redo (undo committed) = committed.
Proof.
  cbn zeta. unfold pushToHistory.
  rewrite undo_snoc. cbn [present].
  conj_split; reflexivity.
Qed.

(** C2: 51 commits from the initial history leave 51 snapshots in the
    past stack: the commit made on a past of 50 drops nothing, the
    oldest snapshot (the initial document) is still there. *)
Theorem past_holds_51_after_51_commits :
  let h50 := commits 50 initialHistory in
  let h51 := commits 51 initialHistory in
  reachable h51
  /\ List.length (past h50) = 50
  /\ List.length (past h51) = 51
  /\ past h51 = past h50 ++ [present h50]
  /\ hd_error (past h51) = Some createInitialState.
Proof.
  cbn zeta. split; [apply commits_reachable|].
  conj_split; vm_compute; reflexivity.
Qed.

(** C5: [setTool], [selectObjects], [setZoom] and [setPan] replace the
    present and leave both stacks as they were; the new present is the
    captured state with the one change ([setTool] also empties the
    selection, [setZoom] clamps). *)
Theorem non_committing_operations_keep_stacks
    (state : CanvasState.t) (h : HistoryState.t)
    (t : Tool.t) (ids : list string) (z : float) (p : Point.t) :
  (past (setTool state t h) = past h
   /\ future (setTool state t h) = future h
   /\ tool (present (setTool state t h)) = t
   /\ layers (present (setTool state t h)) = layers state)
  /\ (past (selectObjects state ids h) = past h
      /\ future (selectObjects state ids h) = future h
      /\ selectedObjectIds (present (selectObjects state ids h)) = ids
      /\ layers (present (selectObjects state ids h)) = layers state)
  /\ (past (setZoom state z h) = past h
      /\ future (setZoom state z h) = future h
      /\ zoom (present (setZoom state z h))
         = JS.Math_max 0.1 (JS.Math_min 5 z)
      /\ layers (present (setZoom state z h)) = layers state)
  /\ (past (setPan state p h) = past h
      /\ future (setPan state p h) = future h
      /\ pan (present (setPan state p h)) = p
      /\ layers (present (setPan state p h)) = layers state).
Proof.
  conj_split; reflexivity.
Qed.

End HistoryEngine.

(** ** Layers *)

Module LayerFacts.
Import HistoryState CanvasState UseCanvas HistoryFacts.

Lemma findIndex_none {A} (p : A -> bool) (l : list A) :
  (forall a, In a l -> p a = false) -> JS.findIndex p l = None.
Proof.
  induction l as [|a l IH]; intros H; simpl; [reflexivity|].
  rewrite (H a (or_introl eq_refl)).
  rewrite IH; [reflexivity|]. intros b Hb. apply H. now right.
Qed.

(** Filtering one id out of layers with distinct ids removes at most one
    layer. *)
Lemma filter_id_length (layerId : string) (l : list Layer.t) :
  NoDup (map Layer.id l) ->
  List.length l
  <= S (List.length
          (filter (fun layer => negb (String.eqb (Layer.id layer) layerId))
                  l)).
Proof.
  induction l as [|a l IH]; intros ND; simpl; [lia|].
  inversion ND as [|x xs Hnotin ND']; subst.
  destruct (String.eqb (Layer.id a) layerId) eqn:E; simpl.
  - apply String.eqb_eq in E. subst layerId.
    assert (Hall : filter (fun layer =>
                             negb (String.eqb (Layer.id layer) (Layer.id a)))
                          l = l).
    { apply forallb_filter_id. apply forallb_forall. intros b Hb.
      apply negb_true_iff. apply String.eqb_neq. intros Heq.
      apply Hnotin. rewrite <- Heq. now apply in_map. }
    rewrite Hall. lia.
  - specialize (IH ND'). lia.
Qed.

(** With distinct layer ids, [deleteLayer] on the present never leaves
    the document without a layer, and never throws. *)
Lemma deleteLayer_leaves_a_layer (h : HistoryState.t) (layerId : string) :
  NoDup (map Layer.id (layers (present h))) ->
  1 <= List.length (layers (present h)) ->
  exists f, deleteLayer (present h) layerId = Some f
            /\ 1 <= List.length (layers (present (f h))).
Proof.
  intros ND Hlen. unfold deleteLayer.
  destruct (Nat.leb (List.length (layers (present h))) 1) eqn:E.
  - eexists; split; [reflexivity | exact Hlen].
  - apply Nat.leb_gt in E.
    pose proof (filter_id_length layerId _ ND) as Hf.
    set (newLayers := filter _ _) in *.
    destruct newLayers as [|l0 rest] eqn:En; [simpl in Hf; lia|].
    destruct (String.eqb layerId (activeLayerId (present h)));
      simpl; eexists; (split; [reflexivity | simpl; lia]).
Qed.

(** C4: deleting the last remaining layer, moving a layer whose id is
    not there or whose target position is out of range (up from index 0,
    down from the last index), undo on an empty past and redo on an
    empty future each leave the whole history (document and stacks) as
    it was, so the layer count of the present is what it was. *)
Theorem rejected_operations_are_noops
    (state : CanvasState.t) (h : HistoryState.t)
    (layerId : string) (dir : direction) :
  (List.length (layers state) <= 1 ->
     option_map (fun f => f h) (deleteLayer state layerId) = Some h)
  /\ ((forall l, In l (layers state) -> Layer.id l <> layerId) ->
        moveLayer state layerId dir h = h)
  /\ (forall i,
        JS.findIndex (fun l => String.eqb (Layer.id l) layerId)
                     (layers state) = Some i ->
        match dir with
        | up => i = 0
        | down => List.length (layers state) <= i + 1
        end ->
        moveLayer state layerId dir h = h)
  /\ (past h = [] -> undo h = h)
  /\ (future h = [] -> redo h = h)
  /\ (List.length (layers (present h)) = 1 ->
        forall f, deleteLayer (present h) layerId = Some f ->
                  List.length (layers (present (f h))) = 1).
Proof.
  conj_split.
  - intros H. unfold deleteLayer.
    apply Nat.leb_le in H. rewrite H. reflexivity.
  - intros H. unfold moveLayer. rewrite findIndex_none; [reflexivity|].
    intros a Ha. apply String.eqb_neq. now apply H.
  - intros i Hi Hrange. unfold moveLayer. rewrite Hi.
    destruct dir.
    + subst i. reflexivity.
    + replace ((Z.of_nat i + 1 <? 0)%Z) with false by (symmetry; lia).
      replace ((Z.of_nat (List.length (layers state))
                <=? Z.of_nat i + 1)%Z) with true by (symmetry; lia).
      reflexivity.
  - apply undo_empty.
  - apply redo_empty.
  - intros H f. unfold deleteLayer. rewrite H. simpl.
    intros [= <-]. exact H.
Qed.

Lemma rejected_operations_are_noops_witness :
  option_map (fun f => f initialHistory)
             (deleteLayer createInitialState "layer-1")
  = Some initialHistory
  /\ moveLayer createInitialState "layer-2" up initialHistory
     = initialHistory
  /\ moveLayer createInitialState "layer-1" up initialHistory
     = initialHistory
  /\ moveLayer createInitialState "layer-1" down initialHistory
     = initialHistory
  /\ undo initialHistory = initialHistory
  /\ redo initialHistory = initialHistory.
Proof.
  destruct (rejected_operations_are_noops createInitialState initialHistory
              "layer-1" up) as (Hdel & _ & Hup & Hundo & Hredo & _).
  destruct (rejected_operations_are_noops createInitialState initialHistory
              "layer-1" down) as (_ & _ & Hdown & _).
  destruct (rejected_operations_are_noops createInitialState initialHistory
              "layer-2" up) as (_ & Habsent & _).
  conj_split.
  - apply Hdel. simpl. lia.
  - apply Habsent. intros l [<-|[]]. simpl. discriminate.
  - apply (Hup 0); reflexivity.
  - apply (Hdown 0); [reflexivity | simpl; lia].
  - apply Hundo. reflexivity.
  - apply Hredo. reflexivity.
Defined.

End LayerFacts.

(** ** Projects: save and load *)

Module ProjectFacts.
Import HistoryState CanvasState UseCanvas Sessions HistoryFacts.

(** C10, as the code has it: after [loadProject] on any data but [null]
    and [undefined], both stacks are empty, [canUndo] and [canRedo] are
    false, and undo and redo change nothing: the document that was
    present before is out of reach.  On [null] and [undefined] the
    history, whatever it is, stays as it was: both stacks and the
    present. *)
Theorem loadProject_clears_history
    (l : option (list Layer.t)) (a : option string) (c : option Size.t)
    (h : HistoryState.t) :
  let h' := loadProject (Data l a c) h in
  let kept := loadProject Nullish h in
  (past h' = [] /\ future h' = []
   /\ canUndo h' = false /\ canRedo h' = false
   /\ undo h' = h' /\ redo h' = h')
  /\ (kept = h
      /\ past kept = past h /\ present kept = present h
      /\ future kept = future h
      /\ canUndo kept = canUndo h /\ canRedo kept = canRedo h).
Proof.
  cbn zeta. conj_split; reflexivity.
Qed.

(** C10 fails on [null]: the property read throws, the [catch] logs, and
    the history stays as it was, undo included. *)
Lemma loadProject_null_keeps_history :
  let h := pushToHistory (numbered 1) initialHistory in
  let h' := loadProject Nullish h in
  h' = h
  /\ past h' = [createInitialState]
  /\ canUndo h' = true
  /\ present (undo h') = createInitialState.
Proof.
  cbn zeta. conj_split; reflexivity.
Qed.

(** C9 fails on a document that holds [-0] or an infinite number, both of
    which the SVG import's [Number(value)] can give: the horizontal place
    [-0] of a square comes back as [0], so the layers that are loaded are
    not the layers that were saved, and with an infinite width the file
    holds [null] for it, which is no number. *)
Lemma save_load_changes_numbers :
  let h := initialHistory in
  let low := Samples.document [Samples.square "obj-1" neg_zero 0 None]
               [] Tool.select in
  let vast :=
    Samples.document
      [ {| CanvasObject.id := "obj-1";
           CanvasObject.type := "rect";
           CanvasObject.transform := Canvas.unit_transform 0 0;
           CanvasObject.style := Canvas.baseStyle;
           CanvasObject.visible := true;
           CanvasObject.locked := false;
           CanvasObject.selected := false;
           CanvasObject.props := Props.rect infinity 100 |} ]
      [] Tool.select in
  (exists file,
     MenuBar.parsed (MenuBar.handleSave (layers low) (canvasSize low)
                       "2024-01-01T00:00:00.000Z" 1704067200000)
     = Some file
     /\ layers (present (loadProject file h)) <> layers low
     /\ map (fun obj => Transform.x (CanvasObject.transform obj))
            (App.allObjects (present (loadProject file h)))
        = [0%float])
  /\ MenuBar.parsed (MenuBar.handleSave (layers vast) (canvasSize vast)
                       "2024-01-01T00:00:00.000Z" 1704067200000)
     = None.
Proof.
  cbn zeta. split; [|vm_compute; reflexivity].
  eexists. split; [vm_compute; reflexivity|]. split.
  - intros H.
    apply (f_equal
             (map (fun l =>
                     map (fun obj =>
                            classify
                              (Transform.x (CanvasObject.transform obj)))
                         (Layer.objects l)))) in H.
    vm_compute in H. discriminate H.
  - vm_compute. reflexivity.
Qed.

Lemma number_exact (a : float) :
  Numbers.exact a = true -> JSON.number a = Some a.
Proof.
  unfold Numbers.exact, JSON.number.
  destruct (is_nan a), (is_infinity a), (JS.is_negzero a);
    cbn; intros H; try discriminate H; reflexivity.
Qed.

Lemma optional_number_exact (a : option float) :
  forallb Numbers.exact (Numbers.opt a) = true ->
  JSON.optional JSON.number a = Some a.
Proof.
  destruct a as [x|]; cbn; [|reflexivity].
  rewrite andb_true_r. intros H. now rewrite (number_exact x H).
Qed.

(** An array whose elements come back as they are comes back as it is. *)
Lemma array_exact {A} (value : A -> option A) (numbers : A -> list float)
    (items : list A) :
  (forall a, forallb Numbers.exact (numbers a) = true ->
             value a = Some a) ->
  forallb Numbers.exact (flat_map numbers items) = true ->
  JSON.array value items = Some items.
Proof.
  intros Hvalue. induction items as [|a rest IH]; cbn; [reflexivity|].
  rewrite forallb_app. intros H. apply andb_true_iff in H.
  destruct H as [Ha Hrest]. now rewrite (Hvalue a Ha), (IH Hrest).
Qed.

Ltac split_exact :=
  repeat match goal with
  | H : forallb _ (_ ++ _) = true |- _ =>
      rewrite forallb_app in H; apply andb_true_iff in H; destruct H
  | H : forallb _ (_ :: _) = true |- _ => cbn [forallb] in H
  | H : _ && _ = true |- _ => apply andb_true_iff in H; destruct H
  | H : true = true |- _ => clear H
  | H : Numbers.exact ?a = true |- _ =>
      rewrite (number_exact a H); clear H
  | H : forallb Numbers.exact (Numbers.opt ?a) = true |- _ =>
      rewrite (optional_number_exact a H); clear H
  end.

Lemma point_exact (p : Point.t) :
  forallb Numbers.exact (Numbers.ofPoint p) = true -> JSON.point p = Some p.
Proof.
  unfold Numbers.ofPoint, JSON.point. intros H. split_exact.
  cbn [Throwing.bind]. now destruct p.
Qed.

Lemma points_exact (l : option (list Point.t)) :
  forallb Numbers.exact (Numbers.ofPoints l) = true ->
  JSON.optional (JSON.array JSON.point) l = Some l.
Proof.
  destruct l as [ps|]; cbn; [|reflexivity]. intros H.
  now rewrite (array_exact _ _ ps point_exact H).
Qed.

Lemma stop_exact (stop : GradientStop.t) :
  forallb Numbers.exact (Numbers.ofStop stop) = true ->
  JSON.gradientStop stop = Some stop.
Proof.
  unfold Numbers.ofStop, JSON.gradientStop. intros H. split_exact.
  cbn [Throwing.bind]. now destruct stop.
Qed.

Lemma gradient_exact (g : option (option Gradient.t)) :
  forallb Numbers.exact (Numbers.ofGradient g) = true ->
  JSON.optional (JSON.optional JSON.gradient) g = Some g.
Proof.
  destruct g as [[g|]|]; cbn; try reflexivity. intros H.
  unfold JSON.gradient. split_exact.
  match goal with
  | Hs : forallb _ (flat_map _ _) = true |- _ =>
      rewrite (array_exact _ _ _ stop_exact Hs)
  end.
  cbn [Throwing.bind]. now destruct g.
Qed.

Lemma transform_exact (t : Transform.t) :
  forallb Numbers.exact (Numbers.ofTransform t) = true ->
  JSON.transform t = Some t.
Proof.
  unfold Numbers.ofTransform, JSON.transform. intros H. split_exact.
  cbn [Throwing.bind]. now destruct t.
Qed.

Lemma style_exact (s : StyleProperties.t) :
  forallb Numbers.exact (Numbers.ofStyle s) = true ->
  JSON.style s = Some s.
Proof.
  unfold Numbers.ofStyle, JSON.style. intros H. split_exact.
  match goal with
  | Hg : forallb _ (Numbers.ofGradient _) = true |- _ =>
      rewrite (gradient_exact _ Hg)
  end.
  cbn [Throwing.bind]. now destruct s.
Qed.

Lemma props_exact (p : Props.t) :
  forallb Numbers.exact (Numbers.ofProps p) = true ->
  JSON.props p = Some p.
Proof.
  unfold Numbers.ofProps, JSON.props. intros H. split_exact.
  repeat match goal with
  | Hp : forallb _ (Numbers.ofPoints ?l) = true |- _ =>
      rewrite (points_exact l Hp); clear Hp
  end.
  cbn [Throwing.bind]. now destruct p.
Qed.

Lemma object_exact (obj : CanvasObject.t) :
  forallb Numbers.exact (Numbers.ofObject obj) = true ->
  JSON.object obj = Some obj.
Proof.
  unfold Numbers.ofObject, JSON.object. intros H.
  rewrite !forallb_app in H. apply andb_true_iff in H.
  destruct H as [Ht H]. apply andb_true_iff in H. destruct H as [Hs Hp].
  rewrite (transform_exact _ Ht), (style_exact _ Hs), (props_exact _ Hp).
  cbn [Throwing.bind]. now destruct obj.
Qed.

Lemma layer_exact (l : Layer.t) :
  forallb Numbers.exact (Numbers.ofLayer l) = true ->
  JSON.layer l = Some l.
Proof.
  unfold Numbers.ofLayer, JSON.layer. intros H.
  rewrite (array_exact _ _ _ object_exact H). cbn [Throwing.bind].
  now destruct l.
Qed.

Lemma size_exact (s : Size.t) :
  forallb Numbers.exact (Numbers.ofSize s) = true -> JSON.size s = Some s.
Proof.
  unfold Numbers.ofSize, JSON.size. intros H. split_exact.
  cbn [Throwing.bind]. now destruct s.
Qed.

(** What an array keeps when each element keeps it. *)
Lemma array_keeps {A B} (value : A -> option A) (kept : A -> B)
    (items back : list A) :
  (forall a b, value a = Some b -> kept b = kept a) ->
  JSON.array value items = Some back ->
  map kept back = map kept items.
Proof.
  intros Hvalue. revert back.
  induction items as [|a rest IH]; cbn; intros back.
  - now intros [= <-].
  - destruct (value a) as [b|] eqn:Ea; cbn; [|discriminate].
    destruct (JSON.array value rest) as [others|]; cbn; [|discriminate].
    intros [= <-]. cbn. now rewrite (Hvalue a b Ea), (IH others eq_refl).
Qed.

Lemma layers_keep_outline (layers back : list Layer.t) :
  JSON.array JSON.layer layers = Some back ->
  Numbers.outline back = Numbers.outline layers.
Proof.
  apply array_keeps. intros l l'. unfold JSON.layer.
  destruct (JSON.array JSON.object (Layer.objects l)) as [objs|] eqn:E;
    cbn; [|discriminate].
  intros [= <-]. cbn. f_equal.
  revert E. apply array_keeps. intros obj obj'. unfold JSON.object.
  destruct (JSON.transform _), (JSON.style _), (JSON.props _); cbn;
    try discriminate.
  now intros [= <-].
Qed.

(** C9, as the code has it: for a document whose numbers are all finite
    and none of them [-0], the data [handleSave] writes, read back and
    handed to [loadProject], gives a history without undo and redo steps
    and a present with the same layers (so the same objects, with their
    ids, types and field values, in the same layers) and the same canvas
    size, while the selection is empty, the zoom 1, the tool [select] and
    the pan (100, 100), whatever they were.  For any document, whenever
    the file gives back layers and a canvas size of the declared types,
    the loaded layers have the names, flags and objects' ids, types and
    flags that were saved, and the same defaults are set. *)
Theorem save_load_roundtrip
    (D : CanvasState.t) (h : HistoryState.t)
    (created : string) (timestamp : float) :
  let data :=
    MenuBar.handleSave (layers D) (canvasSize D) created timestamp in
  (forallb Numbers.exact (Numbers.ofDocument D) = true ->
   exists file,
     MenuBar.parsed data = Some file
     /\ let h' := loadProject file h in
        let D' := present h' in
        past h' = [] /\ future h' = []
        /\ layers D' = layers D
        /\ App.allObjects D' = App.allObjects D
        /\ canvasSize D' = canvasSize D
        /\ selectedObjectIds D' = []
        /\ zoom D' = 1%float
        /\ tool D' = Tool.select
        /\ pan D' = Point.mk 100 100)
  /\ (forall file,
        MenuBar.parsed data = Some file ->
        let D' := present (loadProject file h) in
        Numbers.outline (layers D') = Numbers.outline (layers D)
        /\ selectedObjectIds D' = []
        /\ zoom D' = 1%float
        /\ tool D' = Tool.select
        /\ pan D' = Point.mk 100 100).
Proof.
  cbn zeta. unfold MenuBar.parsed, MenuBar.handleSave.
  cbn [MenuBar.layers MenuBar.canvasSize]. split.
  - unfold Numbers.ofDocument. rewrite forallb_app. intros H.
    apply andb_true_iff in H. destruct H as [Hl Hs].
    rewrite (array_exact _ _ _ layer_exact Hl), (size_exact _ Hs).
    eexists. split; [reflexivity|]. conj_split; reflexivity.
  - intros file.
    destruct (JSON.array JSON.layer (layers D)) as [back|] eqn:El;
      [|discriminate].
    destruct (JSON.size (canvasSize D)); [|discriminate].
    intros [= <-]. conj_split; try reflexivity.
    cbn. now apply layers_keep_outline.
Qed.

Lemma save_load_roundtrip_witness :
  let D := {| layers :=
                [ {| Layer.id := "layer-1"; Layer.name := "Layer 1";
                     Layer.visible := true; Layer.locked := true;
                     Layer.objects :=
                       [Samples.square "obj-1" 10 20
                          (Some (Some Samples.blueToNavy))] |};
                  {| Layer.id := "layer-2"; Layer.name := "Layer 2";
                     Layer.visible := false; Layer.locked := false;
                     Layer.objects := [Samples.wide] |} ];
              activeLayerId := "layer-2";
              selectedObjectIds := ["obj-2"];
              zoom := 2;
              pan := Point.mk 0 0;
              tool := Tool.rect;
              canvasSize := Size.mk 6200 5100 |} in
  let h := pushToHistory D initialHistory in
  exists file,
    MenuBar.parsed (MenuBar.handleSave (layers D) (canvasSize D)
                      "2024-01-01T00:00:00.000Z" 1704067200000)
    = Some file
    /\ past (loadProject file h) = []
    /\ layers (present (loadProject file h)) = layers D
    /\ activeLayerId (present (loadProject file h)) = "layer-1"
    /\ selectedObjectIds (present (loadProject file h)) = []
    /\ zoom (present (loadProject file h)) = 1%float
    /\ tool (present (loadProject file h)) = Tool.select.
Proof.
  cbn zeta.
  set (D := {| layers := _; activeLayerId := "layer-2";
               selectedObjectIds := _; zoom := _; pan := _; tool := _;
               canvasSize := _ |}).
  destruct (save_load_roundtrip D (pushToHistory D initialHistory)
              "2024-01-01T00:00:00.000Z" 1704067200000) as [H _].
  destruct (H eq_refl)
    as (file & Hfile & Hpast & _ & Hlayers & _ & _ & Hsel & Hzoom & Htool
        & _).
  exists file. conj_split; try assumption.
  vm_compute in Hfile. injection Hfile as <-. vm_compute. reflexivity.
Defined.

End ProjectFacts.

(** ** The curve generator *)

Module CurveFacts.
Import Throwing CurveSpec.

Lemma string_app_assoc (a b c : string) :
  ((a ++ b) ++ c = a ++ (b ++ c))%string.
Proof.
  induction a as [|ch a IH]; simpl; [reflexivity | now rewrite IH].
Qed.

Lemma get_inside {A} (l : list A) (d : A) (i : nat) :
  i < List.length l -> JS.get l (Z.of_nat i) = Some (nth i l d).
Proof.
  intros H. unfold JS.get.
  replace (Z.of_nat i <? 0)%Z with false by (symmetry; lia).
  rewrite Nat2Z.id. now apply nth_error_nth'.
Qed.

Lemma get_outside {A} (l : list A) (i : nat) :
  List.length l <= i -> JS.get l (Z.of_nat i) = None.
Proof.
  intros H. unfold JS.get.
  replace (Z.of_nat i <? 0)%Z with false by (symmetry; lia).
  rewrite Nat2Z.id. now apply nth_error_None.
Qed.

Section Generator.

Variable toString : float -> string.

(** One turn of the loop appends the text of the segment the rule gives
    for that index. *)
Lemma curveSegment_spec (points : list Point.t) (d : Point.t)
    (path : string) (i : nat) :
  i + 1 < List.length points ->
  Canvas.curveSegment toString points path i
  = Some (path ++ renderCommand toString (segment points d i))%string.
Proof.
  intros Hi. unfold Canvas.curveSegment, segment.
  replace (Z.of_nat i + 1)%Z with (Z.of_nat (i + 1)) by lia.
  replace (Z.of_nat i + 2)%Z with (Z.of_nat (i + 2)) by lia.
  rewrite (get_inside points d i) by lia.
  rewrite (get_inside points d (i + 1)) by lia.
  assert (H0 : JS.or_else (JS.get points (Z.of_nat i - 1))
                          (Some (nth i points d))
               = Some (if Nat.eqb i 0 then nth i points d
                       else nth (i - 1) points d)).
  { destruct i as [|j].
    - reflexivity.
    - replace (Z.of_nat (S j) - 1)%Z with (Z.of_nat j) by lia.
      rewrite (get_inside points d j) by lia. simpl.
      now rewrite Nat.sub_0_r. }
  rewrite H0.
  assert (H3 : JS.or_else (JS.get points (Z.of_nat (i + 2)))
                          (Some (nth (i + 1) points d))
               = Some (if Nat.ltb (i + 2) (List.length points)
                       then nth (i + 2) points d
                       else nth (i + 1) points d)).
  { destruct (Nat.ltb (i + 2) (List.length points)) eqn:E.
    - apply Nat.ltb_lt in E. now rewrite (get_inside points d (i + 2)).
    - apply Nat.ltb_ge in E. now rewrite get_outside. }
  rewrite H3. reflexivity.
Qed.

Lemma loop_spec (points : list Point.t) (d : Point.t) (k a : nat)
    (path : string) :
  a + k + 1 <= List.length points ->
  foldM (Canvas.curveSegment toString points) (seq a k) path
  = Some (fold_left (fun acc c => (acc ++ renderCommand toString c)%string)
                    (map (segment points d) (seq a k)) path).
Proof.
  revert a path. induction k as [|k IH]; intros a path H; simpl.
  - reflexivity.
  - rewrite (curveSegment_spec points d) by lia. simpl.
    apply IH. lia.
Qed.

End Generator.

(** C7: whatever the engine prints for a number, [generateSmoothCurve]
    returns (it never throws) the text of the path the rule describes:
    nothing for fewer than 2 points, a move to the first point and a line
    to the second for 2 points, and for [n >= 3] points a move to the
    first point and, for [i = 0 .. n-2], the cubic segment of index [i]. *)
Theorem generateSmoothCurve_spec (toString : float -> string)
    (points : list Point.t) :
  Canvas.generateSmoothCurve toString points
  = Some (render toString (smoothCurve points))
  /\ (List.length points < 2 ->
      Canvas.generateSmoothCurve toString points = Some ""%string)
  /\ (forall a b, points = [a; b] ->
      smoothCurve points = [MoveTo a; LineTo b])
  /\ (forall a, 3 <= List.length points -> hd_error points = Some a ->
      smoothCurve points
      = MoveTo a :: map (segment points a)
                        (seq 0 (List.length points - 1))).
Proof.
  conj_split.
  - destruct points as [|a [|b [|c rest]]]; try reflexivity.
    + unfold Canvas.generateSmoothCurve, render. simpl.
      now rewrite !string_app_assoc.
    + unfold Canvas.generateSmoothCurve.
      set (pts := a :: b :: c :: rest).
      replace (Nat.ltb (List.length pts) 2) with false by reflexivity.
      replace (Nat.eqb (List.length pts) 2) with false by reflexivity.
      replace (JS.get pts 0) with (Some a) by reflexivity.
      cbn [bind].
      rewrite (loop_spec toString pts a) by (subst pts; simpl; lia).
      reflexivity.
  - intros H. destruct points as [|a [|b rest]]; try reflexivity.
    simpl in H. lia.
  - intros a b ->. reflexivity.
  - intros a Hlen Hhd.
    destruct points as [|a' [|b [|c rest]]]; simpl in Hlen; try lia.
    injection Hhd as <-. reflexivity.
Qed.

Lemma generateSmoothCurve_spec_witness :
  let toString := fun _ : float => "n"%string in
  let pts := [Point.mk 0 0; Point.mk 6 0; Point.mk 6 6]%float in
  Canvas.generateSmoothCurve toString [] = Some ""%string
  /\ smoothCurve (firstn 2 pts) = [MoveTo (Point.mk 0 0); LineTo (Point.mk 6 0)]
  /\ smoothCurve pts
     = [ MoveTo (Point.mk 0 0);
         CurveTo (Point.mk 1 0) (Point.mk 5 (-1)) (Point.mk 6 0);
         CurveTo (Point.mk 7 1) (Point.mk 6 5) (Point.mk 6 6) ]%float.
Proof.
  cbn zeta.
  destruct (generateSmoothCurve_spec (fun _ => "n"%string) [])
    as (_ & Hlt & _).
  destruct (generateSmoothCurve_spec (fun _ => "n"%string)
              [Point.mk 0 0; Point.mk 6 0]%float) as (_ & _ & H2 & _).
  destruct (generateSmoothCurve_spec (fun _ => "n"%string)
              [Point.mk 0 0; Point.mk 6 0; Point.mk 6 6]%float)
    as (_ & _ & _ & H3).
  conj_split.
  - apply Hlt. simpl. lia.
  - apply (H2 _ _ eq_refl).
  - rewrite (H3 (Point.mk 0 0)); [reflexivity | simpl; lia | reflexivity].
Defined.

End CurveFacts.

(** ** The canvas: growth and shape gestures *)

Module CanvasFacts.
Import Throwing Samples.

(** A call of [updateCanvasSize] keeps the size or sets one of which the
    width or the height is above the old one. *)
Lemma updateCanvasSize_keeps_or_grows (props : Canvas.CanvasProps)
    (s : Canvas.State) (newPoint : option Point.t)
    (additionalObjects : list CanvasObject.t) (size : Size.t) :
  Canvas.updateCanvasSize props s newPoint additionalObjects = Some size ->
  size = Canvas.canvasSize s
  \/ JS.gt (Size.width size) (Size.width (Canvas.canvasSize s))
     || JS.gt (Size.height size) (Size.height (Canvas.canvasSize s)) = true.
Proof.
  unfold Canvas.updateCanvasSize.
  destruct (foldM Canvas.growByObject _ _) as [b1|]; [|discriminate].
  cbn [bind].
  match goal with
  | |- (if ?c then _ else _) = _ -> _ => destruct c eqn:E
  end; intros [= <-]; [right; exact E | left; reflexivity].
Qed.

(** C8: the canvas starts at 4000 x 4000; showing no object makes it
    5000 x 5000, showing a square far down 5100 x 6200, and showing then
    a square far right instead 6200 x 5100: the width has grown and the
    height has shrunk from 6200 to 5100. *)
Theorem canvas_height_shrinks_when_width_grows :
  exists s1 s2 s3,
    Canvas.objectsEffect (showing []) Canvas.initialState = Some s1
    /\ Canvas.objectsEffect (showing [tall]) s1 = Some s2
    /\ Canvas.objectsEffect (showing [wide]) s2 = Some s3
    /\ Canvas.canvasSize s1 = Size.mk 5000 5000
    /\ Canvas.canvasSize s2 = Size.mk 5100 6200
    /\ Canvas.canvasSize s3 = Size.mk 6200 5100
    /\ JS.gt (Size.height (Canvas.canvasSize s2))
             (Size.height (Canvas.canvasSize s3)) = true.
Proof.
  do 3 eexists. conj_split; vm_compute; reflexivity.
Qed.

Lemma shape_tool_is_not_brush_or_select (t : Tool.t) :
  Canvas.isShapeTool t = true ->
  Canvas.isTool t Tool.brush = false /\ Canvas.isTool t Tool.select = false.
Proof.
  destruct t; simpl; intros H; try discriminate H; split; reflexivity.
Qed.

(** On mouse-up of a shape gesture the handler calls what [drawnShape]
    gives and nothing else. *)
Lemma handleMouseUp_shape (Math_cos Math_sin : float -> float)
    (props : Canvas.CanvasProps) (s : Canvas.State) (e : Canvas.MouseEvent)
    (start : Point.t) :
  Canvas.editing s = false ->
  Canvas.isShapeTool (Canvas.tool props) = true ->
  Canvas.isDrawing s = true ->
  Canvas.drawingStart s = Some start ->
  exists s',
    Canvas.handleMouseUp Math_cos Math_sin props s e
    = Some (Canvas.drawnShape Math_cos Math_sin (Canvas.tool props) start
              (Canvas.getCanvasPoint props s (Canvas.clientX e)
                                     (Canvas.clientY e)),
            s').
Proof.
  intros Hed Htool Hdraw Hstart.
  destruct (shape_tool_is_not_brush_or_select _ Htool) as [Hb Hs].
  unfold Canvas.handleMouseUp.
  rewrite Hed, Hb, Hs, Hstart, Hdraw, Htool. cbn [andb].
  destruct (Canvas.selectionBox s); cbn [bind app]; eexists; reflexivity.
Qed.

End CanvasFacts.

(** ** Object updates *)

Module ObjectFacts.
Import HistoryState CanvasState UseCanvas ObjectModelSpec Samples.
Import PropertiesPanel.

Lemma spread_none (p : Props.t) : Props.spread p Props.none = p.
Proof. destruct p. reflexivity. Qed.

(** An update that carries a style and nothing else replaces the style. *)
Lemma spreadObject_of_style (obj : CanvasObject.t) (s : StyleProperties.t) :
  spreadObject obj (PartialObject.of_style s) = restyled obj s.
Proof.
  unfold spreadObject, restyled. cbn. now rewrite spread_none.
Qed.

(** The updaters of [updateObject] never touch the stacks. *)
Lemma updates_keep_stacks (state : CanvasState.t)
    (calls : list (string * PartialObject.t)) (h : HistoryState.t) :
  let h' :=
    fold_left (fun hist c => updateObject state (fst c) (snd c) hist)
              calls h in
  past h' = past h /\ future h' = future h.
Proof.
  cbn zeta. revert h. induction calls as [|c calls IH]; intros h; simpl.
  - split; reflexivity.
  - destruct (IH (updateObject state (fst c) (snd c) h)) as [Hp Hf].
    rewrite Hp, Hf. split; reflexivity.
Qed.

(** Calls of [updateObject] made in one handler all start from the state
    that handler captured: the present the last one sets is the captured
    state with the last update alone. *)
Lemma last_update_wins (state : CanvasState.t)
    (calls : list (string * PartialObject.t)) (c : string * PartialObject.t)
    (h : App.Hook) :
  App.history (App.onUpdateObject state (calls ++ [c]) h)
  = updateObject state (fst c) (snd c) (App.history h).
Proof.
  unfold App.onUpdateObject. cbn [App.history].
  rewrite fold_left_app. cbn [fold_left].
  destruct (updates_keep_stacks state calls (App.history h)) as [Hp Hf].
  set (h' := fold_left _ calls (App.history h)) in *.
  unfold updateObject, setPresent. now rewrite Hp, Hf.
Qed.

End ObjectFacts.

(** ** Numbers: comparisons and clamping *)

From Stdlib Require Import SpecFloat FloatOps FloatAxioms.

Module NumberFacts.

Lemma SFcompare_antisym (a b : spec_float) :
  SFcompare b a = option_map CompOpp (SFcompare a b).
Proof.
  destruct a as [sa|sa| |sa ma ea], b as [sb|sb| |sb mb eb]; simpl;
    try reflexivity;
    try (destruct sa; reflexivity); try (destruct sb; reflexivity);
    try (destruct sa, sb; reflexivity).
  destruct sa, sb; try reflexivity;
    rewrite (Z.compare_antisym eb ea);
    destruct (Z.compare eb ea); simpl; try reflexivity;
    change (Pos.compare_cont Eq mb ma) with (Pos.compare mb ma);
    change (Pos.compare_cont Eq ma mb) with (Pos.compare ma mb);
    rewrite (Pos.compare_antisym ma mb); try reflexivity.
Qed.

Lemma SFcompare_refl (a : spec_float) :
  a <> S754_nan -> SFcompare a a = Some Eq.
Proof.
  destruct a as [s|s| |s m e]; simpl; intros H.
  - reflexivity.
  - now destruct s.
  - now elim H.
  - destruct s; rewrite Z.compare_refl;
      change (Pos.compare_cont Eq m m) with (Pos.compare m m);
      now rewrite Pos.compare_refl.
Qed.

Lemma SFcompare_defined (a b : spec_float) :
  a <> S754_nan -> b <> S754_nan -> SFcompare a b <> None.
Proof.
  destruct a as [sa|sa| |sa ma ea], b as [sb|sb| |sb mb eb]; simpl;
    intros Ha Hb; try discriminate; try (now elim Ha); now elim Hb.
Qed.

Lemma is_nan_spec (a : float) :
  is_nan a = false <-> Prim2SF a <> S754_nan.
Proof.
  assert (E : is_nan a = negb (SFeqb (Prim2SF a) (Prim2SF a)))
    by (unfold is_nan; f_equal; apply FloatAxioms.eqb_spec).
  rewrite E. clear E. unfold SFeqb. split.
  - intros H Hn. rewrite Hn in H. discriminate H.
  - intros H. now rewrite (SFcompare_refl _ H).
Qed.

Lemma ltb_leb (a b : float) :
  (a <? b)%float = true -> (a <=? b)%float = true.
Proof.
  rewrite FloatAxioms.ltb_spec, FloatAxioms.leb_spec. unfold SFltb, SFleb.
  destruct (SFcompare _ _) as [[]|]; try discriminate; reflexivity.
Qed.

Lemma not_ltb_leb (a b : float) :
  is_nan a = false -> is_nan b = false ->
  (a <? b)%float = false -> (b <=? a)%float = true.
Proof.
  intros Ha Hb. apply is_nan_spec in Ha, Hb.
  rewrite FloatAxioms.ltb_spec, FloatAxioms.leb_spec. unfold SFltb, SFleb.
  rewrite (SFcompare_antisym (Prim2SF a) (Prim2SF b)).
  pose proof (SFcompare_defined _ _ Ha Hb) as Hd.
  destruct (SFcompare (Prim2SF a) (Prim2SF b)) as [[]|];
    simpl; try discriminate; try reflexivity.
  now elim Hd.
Qed.

Lemma leb_refl (a : float) : is_nan a = false -> (a <=? a)%float = true.
Proof.
  intros Ha. apply is_nan_spec in Ha.
  rewrite FloatAxioms.leb_spec. unfold SFleb.
  now rewrite (SFcompare_refl _ Ha).
Qed.

Lemma leb_not_nan (a b : float) :
  (a <=? b)%float = true -> is_nan a = false /\ is_nan b = false.
Proof.
  rewrite FloatAxioms.leb_spec. unfold SFleb. intros H.
  split; apply is_nan_spec; intros Hn; rewrite Hn in H; simpl in H;
    try discriminate H.
  destruct (Prim2SF a); discriminate H.
Qed.

(** [Math.min(hi, x)] on numbers: one of the two, and not above [hi]. *)
Lemma Math_min_cases (hi x : float) :
  is_nan hi = false -> is_nan x = false ->
  (JS.Math_min hi x = hi \/ JS.Math_min hi x = x)
  /\ JS.le (JS.Math_min hi x) hi = true.
Proof.
  intros Hh Hx. unfold JS.Math_min, JS.le. rewrite Hh, Hx. cbn [orb].
  destruct (hi <? x)%float eqn:E1.
  - split; [now left | now apply leb_refl].
  - destruct (x <? hi)%float eqn:E2.
    + split; [now right | now apply ltb_leb].
    + destruct (JS.is_negzero hi).
      * split; [now left | now apply leb_refl].
      * split; [now right | now apply not_ltb_leb].
Qed.

(** [Math.max(lo, m)] on numbers: one of the two, and not below [lo]. *)
Lemma Math_max_cases (lo m : float) :
  is_nan lo = false -> is_nan m = false ->
  (JS.Math_max lo m = lo \/ JS.Math_max lo m = m)
  /\ JS.le lo (JS.Math_max lo m) = true.
Proof.
  intros Hl Hm. unfold JS.Math_max, JS.le. rewrite Hl, Hm. cbn [orb].
  destruct (lo <? m)%float eqn:E1.
  - split; [now right | now apply ltb_leb].
  - destruct (m <? lo)%float eqn:E2.
    + split; [now left | now apply leb_refl].
    + destruct (JS.is_negzero lo).
      * split; [now right | now apply not_ltb_leb].
      * split; [now left | now apply leb_refl].
Qed.

(** [Math.max(lo, Math.min(hi, x))] for [lo <= hi]: NaN exactly on NaN,
    and otherwise a number between [lo] and [hi]. *)
Lemma clamp_range (lo hi x : float) :
  JS.le lo hi = true ->
  let r := JS.Math_max lo (JS.Math_min hi x) in
  (is_nan x = true -> is_nan r = true)
  /\ (is_nan x = false ->
      is_nan r = false /\ JS.le lo r = true /\ JS.le r hi = true).
Proof.
  intros Hlh. cbn zeta.
  destruct (leb_not_nan _ _ Hlh) as [Hl Hh]. split.
  - intros Hx. unfold JS.Math_min. rewrite Hx, orb_true_r.
    unfold JS.Math_max. rewrite orb_true_r. reflexivity.
  - intros Hx.
    destruct (Math_min_cases hi x Hh Hx) as [Hm Hmh].
    assert (Hmn : is_nan (JS.Math_min hi x) = false)
      by (destruct Hm as [-> | ->]; assumption).
    destruct (Math_max_cases lo _ Hl Hmn) as [Hr Hlr].
    destruct Hr as [Hr | Hr]; rewrite Hr in *; conj_split; assumption.
Qed.

End NumberFacts.

(** ** Undo and redo over whole sessions *)

Module UndoRedoFacts.
Import HistoryState CanvasState UseCanvas Sessions Hook HistoryFacts.

Lemma firstn_all_le {A} (n : nat) (l : list A) :
  List.length l <= n -> firstn n l = l.
Proof.
  revert n. induction l as [|a l IH]; intros n H.
  - now destruct n.
  - destruct n as [|n]; simpl in *; [lia|]. rewrite IH; [reflexivity | lia].
Qed.

(** X1: Redo undoes an undo as long as the redo stack had room (at most 49
    entries), and undo undoes a redo as long as the redo stack held at
    most 50; beyond that, [undo] has cut the oldest redo entry off. *)
Theorem undo_redo_inverse (h : HistoryState.t) :
  (past h <> [] -> List.length (future h) <= 49 -> redo (undo h) = h)
  /\ (future h <> [] -> List.length (future h) <= 50 -> undo (redo h) = h)
  /\ (past h <> [] -> 50 <= List.length (future h) ->
      List.length (future (redo (undo h))) = 49).
Proof.
  destruct h as [pa pr fu]. cbn [past future]. conj_split.
  - intros Hp Hf. destruct pa as [|a pa'] using rev_ind; [now elim Hp|].
    rewrite undo_snoc. unfold redo. cbn [future past present].
    now rewrite (firstn_all_le 49 fu Hf).
  - intros Hf Hlen. destruct fu as [|n fu']; [now elim Hf|].
    unfold redo. cbn [future past present]. rewrite undo_snoc.
    rewrite firstn_all_le; [reflexivity | simpl in Hlen; lia].
  - intros Hp Hf. destruct pa as [|a pa'] using rev_ind; [now elim Hp|].
    rewrite undo_snoc. unfold redo. cbn [future past present].
    rewrite length_firstn. lia.
Qed.

Lemma undo_redo_inverse_witness :
  let h := undo (commits 3 initialHistory) in
  redo (undo h) = h /\ undo (redo h) = h.
Proof.
  cbn zeta.
  destruct (undo_redo_inverse (undo (commits 3 initialHistory)))
    as (H1 & H2 & _).
  split; [apply H1 | apply H2]; simpl; try discriminate; lia.
Defined.

Lemma setPresent_bounded (D : CanvasState.t) (h : HistoryState.t) :
  bounded h -> bounded (setPresent D h).
Proof. intros H. exact H. Qed.

Lemma loadProject_bounded (data : ProjectData) (h : HistoryState.t) :
  bounded h -> bounded (loadProject data h).
Proof.
  intros H. unfold loadProject.
  destruct (loadedState data); [|exact H].
  unfold bounded. simpl. lia.
Qed.

(** X2: Whatever the operations of the hook a session runs, the undo stack
    never holds more than 51 documents, the redo stack never more than
    50, and the two together never more than 51. *)
Theorem history_bounds (h : HistoryState.t) :
  evolves h ->
  List.length (past h) <= 51
  /\ List.length (future h) <= 50
  /\ List.length (past h) + List.length (future h) <= 51.
Proof.
  intros H.
  assert (Hb : bounded h).
  { induction H.
    - unfold bounded. simpl. lia.
    - apply pushToHistory_bounded.
    - now apply setPresent_bounded.
    - now apply loadProject_bounded.
    - now apply undo_bounded.
    - now apply redo_bounded. }
  destruct Hb as [H1 H2]. lia.
Qed.

Lemma history_bounds_witness :
  let h := undo (setPresent (numbered 9) (commits 60 initialHistory)) in
  List.length (past h) <= 51
  /\ List.length (future h) <= 50
  /\ List.length (past h) + List.length (future h) <= 51.
Proof.
  cbn zeta. apply history_bounds.
  apply evolves_undo, evolves_replace.
  generalize 60. intros n.
  induction n; simpl; [apply evolves_init | now apply evolves_commit].
Defined.

(** X3: Redo never reorders or loses a snapshot: the documents of the history
    in time order are the same before and after; undo keeps their order
    too and loses only the redo entries beyond the 49th. *)
Theorem undo_redo_keep_timeline (h : HistoryState.t) :
  timeline (redo h) = timeline h
  /\ timeline (undo h)
     = match past h with
       | [] => timeline h
       | _ => past h ++ present h :: firstn 49 (future h)
       end.
Proof.
  destruct h as [pa pr fu]. split.
  - unfold redo, timeline. destruct fu as [|n fu']; cbn [past present future].
    + reflexivity.
    + now rewrite <- app_assoc.
  - destruct pa as [|a pa'] using rev_ind.
    + reflexivity.
    + rewrite undo_snoc. unfold timeline. cbn [past present future].
      destruct (pa' ++ [a]) eqn:E; [now destruct pa'|].
      rewrite <- E. now rewrite <- app_assoc.
Qed.

(** X4: A commit empties the redo stack and makes undo available.  A change
    that is not a commit (here [updateObject] and [setTool]) made after
    it is no undo step of its own: undo goes back to the document before
    the commit, and redo brings back the changed document, not the
    committed one. *)
Theorem edits_ride_on_the_last_commit
    (h : HistoryState.t) (D : CanvasState.t) :
  let committed := pushToHistory D h in
  (future committed = [] /\ canRedo committed = false
   /\ canUndo committed = true /\ redo committed = committed)
  /\ (forall (objectId : string) (updates : PartialObject.t),
        let edited := updateObject D objectId updates committed in
        present (undo edited) = present h
        /\ present (redo (undo edited)) = present edited
        /\ redo (undo edited) = edited)
  /\ (forall t : Tool.t,
        let switched := setTool D t committed in
        present (undo switched) = present h
        /\ redo (undo switched) = switched).
Proof.
  cbn zeta. conj_split.
  - reflexivity.
  - reflexivity.
  - unfold canUndo, pushToHistory. cbn [past]. rewrite length_app.
    simpl. apply Nat.ltb_lt. lia.
  - reflexivity.
  - intros objectId updates. cbn zeta.
    unfold updateObject, setPresent, pushToHistory. cbn [past present future].
    rewrite undo_snoc. conj_split; reflexivity.
  - intros t. cbn zeta.
    unfold setTool, setPresent, pushToHistory. cbn [past present future].
    rewrite undo_snoc. conj_split; reflexivity.
Qed.

End UndoRedoFacts.

(** ** Objects: adding, numbering and deleting *)

From Stdlib Require Import Permutation.
From Stdlib Require DecimalNat.

Module DocumentFacts.
Import HistoryState CanvasState UseCanvas Sessions Hook HistoryFacts.

Lemma nat_to_string_inj (n m : nat) :
  JS.nat_to_string n = JS.nat_to_string m -> n = m.
Proof.
  unfold JS.nat_to_string. intros H.
  apply (f_equal NilEmpty.uint_of_string) in H.
  rewrite !NilEmpty.usu in H. injection H as H.
  apply (f_equal Nat.of_uint) in H.
  now rewrite !DecimalNat.Unsigned.of_to in H.
Qed.

Lemma objectId_inj (n m : nat) : objectId n = objectId m -> n = m.
Proof.
  unfold objectId. simpl. intros H. injection H as H.
  now apply nat_to_string_inj.
Qed.

Lemma withObjects_same (layer : Layer.t) :
  withObjects layer (Layer.objects layer) = layer.
Proof. now destruct layer. Qed.

(** Layers none of which carries [active] are left alone by the map of
    [addObject]. *)
Lemma append_elsewhere (active : string) (new : CanvasObject.t)
    (l : list Layer.t) :
  ~ In active (map Layer.id l) ->
  map (fun layer =>
         if String.eqb (Layer.id layer) active
         then withObjects layer (Layer.objects layer ++ [new])
         else layer) l = l.
Proof.
  induction l as [|a l IH]; intros H; simpl; [reflexivity|].
  destruct (String.eqb (Layer.id a) active) eqn:E.
  - apply String.eqb_eq in E. elim H. now left.
  - rewrite IH; [reflexivity|]. intros Hin. apply H. now right.
Qed.

Lemma find_active (active : string) (l : list Layer.t) :
  In active (map Layer.id l) <->
  find (fun layer => String.eqb (Layer.id layer) active) l <> None.
Proof.
  induction l as [|a l IH]; simpl.
  - split; [intros [] | intros H; now elim H].
  - destruct (String.eqb (Layer.id a) active) eqn:E.
    + apply String.eqb_eq in E. split; [discriminate | now left].
    + apply String.eqb_neq in E. rewrite <- IH. split.
      * intros [H|H]; [now elim E | exact H].
      * now right.
Qed.

(** The object [addObject] makes of [obj] with the number [n]. *)
Lemma addObject_result (state : CanvasState.t) (n : nat)
    (obj : CanvasObject.t) :
  fst (addObject state n obj) = S n.
Proof.
  unfold addObject. now destruct (find _ _).
Qed.

(** X5: [addObject] always advances the counter.  Without a layer of the
    active id it leaves the history alone.  With distinct layer ids and
    an active layer, the history it leaves has the old present as the last
    undo step, no redo step, and a present in which that one layer has
    the new object as its last (topmost) object, every other layer is as
    it was, and the new object alone is selected; the object is [obj] with
    the id [obj-n]. *)
Theorem addObject_appends_to_active_layer
    (state : CanvasState.t) (n : nat) (obj : CanvasObject.t)
    (h : HistoryState.t) :
  let newObject :=
    {| CanvasObject.id := objectId n;
       CanvasObject.type := CanvasObject.type obj;
       CanvasObject.transform := CanvasObject.transform obj;
       CanvasObject.style := CanvasObject.style obj;
       CanvasObject.visible := CanvasObject.visible obj;
       CanvasObject.locked := CanvasObject.locked obj;
       CanvasObject.selected := CanvasObject.selected obj;
       CanvasObject.props := CanvasObject.props obj |} in
  let h' := snd (addObject state n obj) h in
  fst (addObject state n obj) = S n
  /\ (~ activeLayerExists state -> h' = h)
  /\ (activeLayerExists state ->
      NoDup (map Layer.id (layers state)) ->
      past h' = JS.slice_last 50 (past h) ++ [present h]
      /\ future h' = []
      /\ selectedObjectIds (present h') = [objectId n]
      /\ activeLayerId (present h') = activeLayerId state
      /\ zoom (present h') = zoom state /\ pan (present h') = pan state
      /\ tool (present h') = tool state
      /\ canvasSize (present h') = canvasSize state
      /\ exists l1 a l2,
           layers state = l1 ++ a :: l2
           /\ Layer.id a = activeLayerId state
           /\ layers (present h')
              = l1 ++ withObjects a (Layer.objects a ++ [newObject]) :: l2
           /\ App.allObjects (present h')
              = flat_map Layer.objects l1
                ++ (Layer.objects a ++ [newObject])
                ++ flat_map Layer.objects l2).
Proof.
  cbn zeta. conj_split.
  - apply addObject_result.
  - intros H. unfold addObject.
    destruct (find _ _) eqn:E; [|reflexivity].
    elim H. apply find_active. unfold layers in *. now rewrite E.
  - intros Hact ND. unfold activeLayerExists in Hact.
    pose proof Hact as Hfind. apply find_active in Hfind.
    apply in_map_iff in Hact. destruct Hact as (a & Ha & Hin).
    apply in_split in Hin. destruct Hin as (l1 & l2 & Hl).
    rewrite Hl in ND. rewrite map_app in ND. simpl in ND.
    assert (H1 : ~ In (activeLayerId state) (map Layer.id l1)).
    { intros Hin. apply NoDup_remove_2 in ND. apply ND.
      apply in_or_app. left. now rewrite Ha. }
    assert (H2 : ~ In (activeLayerId state) (map Layer.id l2)).
    { intros Hin. apply NoDup_remove_2 in ND. apply ND.
      apply in_or_app. right. now rewrite Ha. }
    unfold addObject.
    destruct (find _ (layers state)) eqn:E; [|now elim Hfind].
    cbn [snd]. unfold pushToHistory.
    cbn [past present future selectedObjectIds activeLayerId zoom pan
         tool canvasSize CanvasObject.id].
    conj_split; try reflexivity.
    exists l1, a, l2. split; [exact Hl|]. split; [exact Ha|].
    assert (Hlayers :
      map (fun layer =>
             if String.eqb (Layer.id layer) (activeLayerId state)
             then withObjects layer
                    (Layer.objects layer
                     ++ [{| CanvasObject.id := "obj-" ++ JS.nat_to_string n;
                            CanvasObject.type := CanvasObject.type obj;
                            CanvasObject.transform :=
                              CanvasObject.transform obj;
                            CanvasObject.style := CanvasObject.style obj;
                            CanvasObject.visible := CanvasObject.visible obj;
                            CanvasObject.locked := CanvasObject.locked obj;
                            CanvasObject.selected :=
                              CanvasObject.selected obj;
                            CanvasObject.props := CanvasObject.props obj |}])
             else layer) (layers state)
      = l1 ++ withObjects a
                (Layer.objects a
                 ++ [{| CanvasObject.id := objectId n;
                        CanvasObject.type := CanvasObject.type obj;
                        CanvasObject.transform := CanvasObject.transform obj;
                        CanvasObject.style := CanvasObject.style obj;
                        CanvasObject.visible := CanvasObject.visible obj;
                        CanvasObject.locked := CanvasObject.locked obj;
                        CanvasObject.selected := CanvasObject.selected obj;
                        CanvasObject.props := CanvasObject.props obj |}])
              :: l2).
    { rewrite Hl, map_app. cbn [map].
      rewrite (append_elsewhere _ _ l1 H1), (append_elsewhere _ _ l2 H2).
      rewrite Ha, String.eqb_refl. reflexivity. }
    unfold App.allObjects. cbn [layers]. rewrite Hlayers.
    split; [reflexivity|].
    rewrite flat_map_app. cbn [flat_map Layer.objects withObjects].
    now rewrite <- !app_assoc.
Qed.

Lemma addObject_appends_to_active_layer_witness :
  let D := Samples.document [Samples.tall] [] Tool.rect in
  let h := App.history (Samples.session D) in
  let h' := snd (addObject D 2 Samples.wide) h in
  App.allObjects (present h') = [Samples.tall; Samples.wide]
  /\ past h' = [D] /\ selectedObjectIds (present h') = ["obj-2"].
Proof.
  cbn zeta.
  destruct (addObject_appends_to_active_layer
              (Samples.document [Samples.tall] [] Tool.rect) 2 Samples.wide
              (App.history (Samples.session
                              (Samples.document [Samples.tall] [] Tool.rect))))
    as (_ & _ & H).
  destruct H as (Hp & _ & Hs & _ & _ & _ & _ & _ & l1 & a & l2 & Hl & _ & _
                 & Hall).
  - simpl. now left.
  - simpl. constructor; [intros [] | constructor].
  - conj_split; [| exact Hp | exact Hs].
    destruct l1 as [|b l1].
    + injection Hl as <- <-. exact Hall.
    + injection Hl as _ Hl. now destruct l1.
Defined.

(** The objects of a document after the map of [addObject], when layer ids
    are distinct: one more, the new one. *)
Lemma allObjects_after_add (active : string) (new : CanvasObject.t)
    (l : list Layer.t) :
  NoDup (map Layer.id l) ->
  In active (map Layer.id l) ->
  Permutation
    (flat_map Layer.objects
       (map (fun layer =>
               if String.eqb (Layer.id layer) active
               then withObjects layer (Layer.objects layer ++ [new])
               else layer) l))
    (new :: flat_map Layer.objects l).
Proof.
  induction l as [|a l IH]; intros ND Hin; [now elim Hin|].
  simpl in ND. inversion ND as [|x xs Hnot ND']; subst.
  cbn [map flat_map].
  destruct (String.eqb (Layer.id a) active) eqn:E.
  - apply String.eqb_eq in E. subst active.
    rewrite (append_elsewhere _ _ l Hnot). cbn [Layer.objects withObjects].
    rewrite <- app_assoc. simpl.
    apply Permutation_sym, Permutation_middle.
  - apply String.eqb_neq in E.
    destruct Hin as [Hin|Hin]; [now elim E|].
    specialize (IH ND' Hin).
    eapply Permutation_trans; [apply Permutation_app_head, IH|].
    apply Permutation_sym, Permutation_middle.
Qed.

Lemma idsIssuedBelow_mono (n m : nat) (D : CanvasState.t) :
  n <= m -> idsIssuedBelow n D -> idsIssuedBelow m D.
Proof.
  intros Hnm [ND Hall]. split; [exact ND|].
  intros o Ho. destruct (Hall o Ho) as (k & Hk & Hid).
  exists k. split; [lia | exact Hid].
Qed.

Lemma filter_flat_map {A B} (f : A -> list B) (p : B -> bool) (l : list A) :
  filter p (flat_map f l) = flat_map (fun a => filter p (f a)) l.
Proof.
  induction l as [|a l IH]; simpl; [reflexivity|].
  now rewrite filter_app, IH.
Qed.

Lemma allObjects_after_delete (objectId : string) (D : CanvasState.t) :
  App.allObjects (without objectId D)
  = filter (fun obj => negb (String.eqb (CanvasObject.id obj) objectId))
           (App.allObjects D).
Proof.
  unfold App.allObjects, without, deleteObject, pushToHistory.
  cbn [present layers]. rewrite filter_flat_map.
  generalize (layers D). intros l.
  induction l as [|a l IH]; [reflexivity|].
  cbn [map flat_map Layer.objects withObjects]. now rewrite IH.
Qed.

(** Keys that are distinct stay distinct when elements are filtered out. *)
Lemma kept_keys_distinct {Obj Key : Type} (key : Obj -> Key)
    (keep : Obj -> bool) (objs : list Obj)
    (distinct : NoDup (map key objs)) :
  NoDup (map key (filter keep objs)).
Proof.
  induction objs as [|o objs IH]; cbn [filter map]; [constructor|].
  cbn [map] in distinct. apply NoDup_cons_iff in distinct.
  destruct distinct as [Hfresh Hrest].
  destruct (keep o); cbn [map]; [|now apply IH].
  apply NoDup_cons; [|now apply IH].
  rewrite in_map_iff. intros (o' & Hkey & Hkept).
  apply filter_In in Hkept. apply Hfresh.
  rewrite <- Hkey. apply in_map. tauto.
Qed.

(** X6: Objects get their ids from [addObject] alone, and it hands out each
    number once: if the layer ids of the present are distinct and every
    object in it carries an id issued below the counter, no two the same,
    that is still so after [addObject] (with the counter it returns) and
    after [deleteObject]. *)
Theorem object_ids_stay_distinct
    (h : HistoryState.t) (n : nat) (obj : CanvasObject.t)
    (objectId : string) :
  NoDup (map Layer.id (layers (present h))) ->
  idsIssuedBelow n (present h) ->
  idsIssuedBelow (fst (addObject (present h) n obj))
                 (present (snd (addObject (present h) n obj) h))
  /\ idsIssuedBelow n (present (deleteObject (present h) objectId h))
  /\ ~ In (Hook.objectId n)
          (map CanvasObject.id (App.allObjects (present h))).
Proof.
  intros ND Hids. conj_split.
  - rewrite addObject_result.
    unfold addObject.
    destruct (find _ (layers (present h))) eqn:E; cbn [snd].
    + assert (Hact : In (activeLayerId (present h))
                        (map Layer.id (layers (present h))))
        by (apply find_active; now rewrite E).
      cbn [pushToHistory present].
      pose proof (allObjects_after_add (activeLayerId (present h))
                    {| CanvasObject.id := "obj-" ++ JS.nat_to_string n;
                       CanvasObject.type := CanvasObject.type obj;
                       CanvasObject.transform := CanvasObject.transform obj;
                       CanvasObject.style := CanvasObject.style obj;
                       CanvasObject.visible := CanvasObject.visible obj;
                       CanvasObject.locked := CanvasObject.locked obj;
                       CanvasObject.selected := CanvasObject.selected obj;
                       CanvasObject.props := CanvasObject.props obj |}
                    _ ND Hact) as Hperm.
      destruct Hids as [NDo Hall]. split.
      * unfold App.allObjects. cbn [layers].
        eapply Permutation_NoDup;
          [apply Permutation_sym, Permutation_map, Hperm|].
        cbn [map CanvasObject.id]. constructor; [|exact NDo].
        intros Hin. apply in_map_iff in Hin.
        destruct Hin as (o & Ho & Hin).
        destruct (Hall o Hin) as (k & Hk & Hid).
        rewrite Hid in Ho. apply objectId_inj in Ho. lia.
      * intros o Ho. unfold App.allObjects in Ho. cbn [layers] in Ho.
        apply (Permutation_in _ Hperm) in Ho. destruct Ho as [<-|Ho].
        -- exists n. split; [lia | reflexivity].
        -- destruct (Hall o Ho) as (k & Hk & Hid).
           exists k. split; [lia | exact Hid].
    + apply (idsIssuedBelow_mono n); [lia | exact Hids].
  - destruct Hids as [NDo Hall].
    change (present (deleteObject (present h) objectId h))
      with (without objectId (present h)).
    unfold idsIssuedBelow. rewrite allObjects_after_delete. split.
    + now apply kept_keys_distinct.
    + intros o Ho. apply filter_In in Ho. now apply Hall.
  - intros Hin. destruct Hids as [NDo Hall].
    apply in_map_iff in Hin. destruct Hin as (o & Ho & Hin).
    destruct (Hall o Hin) as (j & Hj & Hid).
    rewrite Hid in Ho. apply objectId_inj in Ho. lia.
Qed.

Lemma object_ids_stay_distinct_witness :
  let h := App.history (Samples.session
                          (Samples.document [Samples.tall] [] Tool.rect)) in
  idsIssuedBelow 3 (present (snd (addObject (present h) 2 Samples.wide) h)).
Proof.
  cbn zeta.
  apply (object_ids_stay_distinct
           (App.history (Samples.session
                           (Samples.document [Samples.tall] [] Tool.rect)))
           2 Samples.wide "obj-1").
  - simpl. constructor; [intros [] | constructor].
  - split.
    + simpl. constructor; [intros [] | constructor].
    + intros o [<-|[]]. exists 1. split; [lia | reflexivity].
Defined.

(** X7: [deleteObject] always commits: the old present becomes the last
    undo step and the redo stack is emptied, also when no object has the
    id.  In the new present every object of the given id is gone from
    every layer and the id from the selection; all other objects and
    selected ids are kept, in their order and as often as they occurred;
    the layers keep their ids, names and flags, and nothing else of the
    document changes.  When no object has the id, the layers are what
    they were. *)
Theorem deleteObject_removes_everywhere
    (state : CanvasState.t) (objectId : string) (h : HistoryState.t) :
  let h' := deleteObject state objectId h in
  let D := present h' in
  let others := fun obj =>
    negb (String.eqb (CanvasObject.id obj) objectId) in
  past h' = JS.slice_last 50 (past h) ++ [present h]
  /\ future h' = []
  /\ selectedObjectIds D
     = filter (fun i => negb (String.eqb i objectId))
              (selectedObjectIds state)
  /\ App.allObjects D = filter others (App.allObjects state)
  /\ map Layer.objects (layers D)
     = map (fun layer => filter others (Layer.objects layer)) (layers state)
  /\ map Layer.id (layers D) = map Layer.id (layers state)
  /\ map Layer.name (layers D) = map Layer.name (layers state)
  /\ map Layer.visible (layers D) = map Layer.visible (layers state)
  /\ map Layer.locked (layers D) = map Layer.locked (layers state)
  /\ activeLayerId D = activeLayerId state
  /\ zoom D = zoom state /\ pan D = pan state /\ tool D = tool state
  /\ canvasSize D = canvasSize state
  /\ ~ In objectId (map CanvasObject.id (App.allObjects D))
  /\ ~ In objectId (selectedObjectIds D)
  /\ (~ In objectId (map CanvasObject.id (App.allObjects state)) ->
      layers D = layers state).
Proof.
  cbn zeta.
  change (present (deleteObject state objectId h))
    with (without objectId state).
  conj_split; try reflexivity.
  - apply allObjects_after_delete.
  - unfold without, deleteObject, pushToHistory. cbn [present layers].
    rewrite map_map. reflexivity.
  - unfold without, deleteObject, pushToHistory. cbn [present layers].
    rewrite map_map. reflexivity.
  - unfold without, deleteObject, pushToHistory. cbn [present layers].
    rewrite map_map. reflexivity.
  - unfold without, deleteObject, pushToHistory. cbn [present layers].
    rewrite map_map. reflexivity.
  - unfold without, deleteObject, pushToHistory. cbn [present layers].
    rewrite map_map. reflexivity.
  - rewrite allObjects_after_delete. intros Hin.
    apply in_map_iff in Hin. destruct Hin as (o & Ho & Hin).
    apply filter_In in Hin. destruct Hin as [_ Hne].
    apply negb_true_iff, String.eqb_neq in Hne. now elim Hne.
  - unfold without, deleteObject, pushToHistory.
    cbn [present selectedObjectIds].
    intros Hin. apply filter_In in Hin. destruct Hin as [_ Hne].
    apply negb_true_iff, String.eqb_neq in Hne. now elim Hne.
  - intros Hnot.
    unfold without, deleteObject, pushToHistory. cbn [present layers].
    unfold App.allObjects in Hnot.
    induction (layers state) as [|a l IH]; [reflexivity|].
    cbn [map]. cbn [flat_map] in Hnot. rewrite map_app in Hnot.
    rewrite IH by (intros Hin; apply Hnot, in_or_app; now right).
    f_equal.
    rewrite forallb_filter_id; [apply withObjects_same|].
    apply forallb_forall. intros o Ho.
    apply negb_true_iff, String.eqb_neq. intros Heq. apply Hnot.
    apply in_or_app. left. apply in_map_iff. now exists o.
Qed.

Lemma deleteObject_removes_everywhere_witness :
  let D := Samples.document [Samples.tall; Samples.wide]
             ["obj-2"; "obj-1"; "obj-2"] Tool.select in
  let h := App.history (Samples.session D) in
  App.allObjects (present (deleteObject D "obj-1" h)) = [Samples.wide]
  /\ selectedObjectIds (present (deleteObject D "obj-1" h))
     = ["obj-2"; "obj-2"]
  /\ past (deleteObject D "obj-9" h) = [D]
  /\ layers (present (deleteObject D "obj-9" h)) = layers D.
Proof.
  cbn zeta.
  destruct (deleteObject_removes_everywhere
              (Samples.document [Samples.tall; Samples.wide]
                 ["obj-2"; "obj-1"; "obj-2"] Tool.select) "obj-1"
              (App.history
                 (Samples.session
                    (Samples.document [Samples.tall; Samples.wide]
                       ["obj-2"; "obj-1"; "obj-2"] Tool.select))))
    as (_ & _ & Hsel & Hobjs & _).
  destruct (deleteObject_removes_everywhere
              (Samples.document [Samples.tall; Samples.wide]
                 ["obj-2"; "obj-1"; "obj-2"] Tool.select) "obj-9"
              (App.history
                 (Samples.session
                    (Samples.document [Samples.tall; Samples.wide]
                       ["obj-2"; "obj-1"; "obj-2"] Tool.select))))
    as (Hpast & H).
  conj_split.
  - rewrite Hobjs. reflexivity.
  - rewrite Hsel. reflexivity.
  - rewrite Hpast. reflexivity.
  - apply H. simpl. intros [E|[E|[]]]; discriminate E.
Defined.

(** X8: The Delete key calls [deleteObject] once per selected id, all with
    the state of the same render: each call commits that state less ITS
    object.  So the present ends as the state without the last selected
    object only, every other selected object is still there, and one
    undo shows the state without the last but one. *)
Theorem delete_key_removes_only_the_last
    (state : CanvasState.t) (ids : list string) (i last : string)
    (h : HistoryState.t) :
  (selectedObjectIds state = ids ++ [last] ->
   present (App.deleteSelected state h) = without last state
   /\ future (App.deleteSelected state h) = []
   /\ App.allObjects (present (App.deleteSelected state h))
      = filter (fun obj => negb (String.eqb (CanvasObject.id obj) last))
               (App.allObjects state))
  /\ (selectedObjectIds state = ids ++ [i; last] ->
      present (undo (App.deleteSelected state h)) = without i state).
Proof.
  split.
  - intros Hsel. unfold App.deleteSelected. rewrite Hsel, fold_left_app.
    cbn [fold_left]. conj_split; try reflexivity.
    cbn [deleteObject pushToHistory present].
    apply allObjects_after_delete.
  - intros Hsel. unfold App.deleteSelected.
    replace (ids ++ [i; last]) with ((ids ++ [i]) ++ [last]) in Hsel
      by now rewrite <- app_assoc.
    rewrite Hsel, !fold_left_app. cbn [fold_left].
    set (h0 := fold_left _ ids h).
    unfold deleteObject at 1. unfold pushToHistory at 1.
    rewrite undo_snoc. reflexivity.
Qed.

Lemma delete_key_removes_only_the_last_witness :
  let D := Samples.document [Samples.tall; Samples.wide] ["obj-1"; "obj-2"]
             Tool.select in
  let h := App.history (Samples.session D) in
  App.allObjects (present (App.deleteSelected D h)) = [Samples.tall]
  /\ App.allObjects (present (undo (App.deleteSelected D h)))
     = [Samples.wide].
Proof.
  cbn zeta.
  destruct (delete_key_removes_only_the_last
              (Samples.document [Samples.tall; Samples.wide]
                 ["obj-1"; "obj-2"] Tool.select)
              ["obj-1"] "obj-1" "obj-2"
              (App.history
                 (Samples.session
                    (Samples.document [Samples.tall; Samples.wide]
                       ["obj-1"; "obj-2"] Tool.select))))
    as [H1 _].
  destruct (delete_key_removes_only_the_last
              (Samples.document [Samples.tall; Samples.wide]
                 ["obj-1"; "obj-2"] Tool.select)
              [] "obj-1" "obj-2"
              (App.history
                 (Samples.session
                    (Samples.document [Samples.tall; Samples.wide]
                       ["obj-1"; "obj-2"] Tool.select))))
    as [_ H2].
  destruct (H1 eq_refl) as (_ & _ & Hall).
  split.
  - rewrite Hall. reflexivity.
  - rewrite (H2 eq_refl). reflexivity.
Defined.

End DocumentFacts.

(** ** Layers: moving, deleting, activating *)

Module LayerOrderFacts.
Import HistoryState CanvasState UseCanvas Sessions Hook HistoryFacts.
Import LayerSamples.

Lemma findIndex_split {A} (p : A -> bool) (l : list A) (i : nat) :
  JS.findIndex p l = Some i ->
  exists l1 b l2,
    l = l1 ++ b :: l2 /\ List.length l1 = i /\ p b = true
    /\ Forall (fun a => p a = false) l1.
Proof.
  revert i. induction l as [|a l IH]; intros i; simpl; [discriminate|].
  destruct (p a) eqn:E.
  - intros [= <-]. exists [], a, l. now repeat split.
  - destruct (JS.findIndex p l) as [j|]; simpl; [|discriminate].
    intros [= <-]. destruct (IH j eq_refl) as (l1 & b & l2 & -> & <- & Hb & Hl).
    exists (a :: l1), b, l2. repeat split; auto.
Qed.

Lemma findIndex_first {A} (p : A -> bool) (l1 : list A) (b : A)
    (l2 : list A) :
  Forall (fun a => p a = false) l1 -> p b = true ->
  JS.findIndex p (l1 ++ b :: l2) = Some (List.length l1).
Proof.
  induction 1 as [|a l1 Ha Hl IH]; intros Hb; simpl.
  - now rewrite Hb.
  - rewrite Ha, (IH Hb). reflexivity.
Qed.

Lemma remove_at_middle {A} (l1 : list A) (b : A) (l2 : list A) :
  JS.remove_at (List.length l1) (l1 ++ b :: l2) = l1 ++ l2.
Proof.
  induction l1 as [|a l1 IH]; [reflexivity|].
  unfold JS.remove_at in *. cbn [List.length app firstn skipn].
  cbn [app]. f_equal. exact IH.
Qed.

Lemma insert_at_middle {A} (l1 : list A) (x : A) (l2 : list A) :
  JS.insert_at (List.length l1) x (l1 ++ l2) = l1 ++ x :: l2.
Proof.
  induction l1 as [|a l1 IH]; [reflexivity|].
  unfold JS.insert_at in *. cbn [List.length app firstn skipn].
  cbn [app]. f_equal. exact IH.
Qed.

Lemma nth_error_middle {A} (l1 : list A) (b : A) (l2 : list A) :
  nth_error (l1 ++ b :: l2) (List.length l1) = Some b.
Proof.
  induction l1 as [|a l1 IH]; simpl; [reflexivity | exact IH].
Qed.

(** What [moveLayer] commits when the layer found has a neighbour on the
    side asked for. *)
Lemma moveLayer_up_swaps (state : CanvasState.t) (layerId : string)
    (h : HistoryState.t) (l1 : list Layer.t) (a b : Layer.t)
    (l2 : list Layer.t) :
  layers state = l1 ++ a :: b :: l2 ->
  Layer.id b = layerId ->
  Forall (fun x => String.eqb (Layer.id x) layerId = false) (l1 ++ [a]) ->
  moveLayer state layerId up h
  = pushToHistory (withLayers state (l1 ++ b :: a :: l2)) h.
Proof.
  intros Hl Hb Hbefore. unfold moveLayer.
  assert (Hl' : layers state = (l1 ++ [a]) ++ b :: l2)
    by (now rewrite <- app_assoc).
  rewrite Hl'.
  rewrite (findIndex_first _ (l1 ++ [a]) b l2 Hbefore)
    by (now rewrite Hb, String.eqb_refl).
  rewrite nth_error_middle, remove_at_middle.
  rewrite !length_app. cbn [List.length].
  rewrite (proj2 (Z.ltb_ge _ _)) by lia.
  rewrite (proj2 (Z.leb_gt _ _)) by lia.
  cbn [orb].
  replace (Z.to_nat (Z.of_nat (List.length l1 + 1) - 1))
    with (List.length l1) by lia.
  rewrite <- app_assoc. cbn [app].
  now rewrite (insert_at_middle l1 b (a :: l2)).
Qed.

Lemma moveLayer_down_swaps (state : CanvasState.t) (layerId : string)
    (h : HistoryState.t) (l1 : list Layer.t) (b c : Layer.t)
    (l2 : list Layer.t) :
  layers state = l1 ++ b :: c :: l2 ->
  Layer.id b = layerId ->
  Forall (fun x => String.eqb (Layer.id x) layerId = false) l1 ->
  moveLayer state layerId down h
  = pushToHistory (withLayers state (l1 ++ c :: b :: l2)) h.
Proof.
  intros Hl Hb Hbefore. unfold moveLayer. rewrite Hl.
  rewrite (findIndex_first _ l1 b (c :: l2) Hbefore)
    by (now rewrite Hb, String.eqb_refl).
  rewrite nth_error_middle, remove_at_middle.
  rewrite !length_app. cbn [List.length].
  rewrite (proj2 (Z.ltb_ge _ _)) by lia.
  rewrite (proj2 (Z.leb_gt _ _)) by lia.
  cbn [orb].
  replace (Z.to_nat (Z.of_nat (List.length l1) + 1))
    with (List.length (l1 ++ [c])) by (rewrite length_app; simpl; lia).
  replace (l1 ++ c :: l2) with ((l1 ++ [c]) ++ l2)
    by (now rewrite <- app_assoc).
  rewrite (insert_at_middle (l1 ++ [c]) b l2).
  now rewrite <- app_assoc.
Qed.

(** X9: An accepted [moveLayer] commits the document in which the layer (the
    first one of that id) has changed places with its neighbour below
    ([up]) or above ([down]) and nothing else has moved; moving a layer up
    and then down again gives back the order there was. *)
Theorem moveLayer_swaps_neighbours
    (state : CanvasState.t) (layerId : string) (h : HistoryState.t) :
  (forall l1 a b l2,
     layers state = l1 ++ a :: b :: l2 ->
     Layer.id b = layerId ->
     (forall x, In x (l1 ++ [a]) -> Layer.id x <> layerId) ->
     let h1 := moveLayer state layerId up h in
     h1 = pushToHistory (withLayers state (l1 ++ b :: a :: l2)) h
     /\ layers (present (moveLayer (present h1) layerId down h1))
        = layers state)
  /\ (forall l1 b c l2,
        layers state = l1 ++ b :: c :: l2 ->
        Layer.id b = layerId ->
        (forall x, In x l1 -> Layer.id x <> layerId) ->
        moveLayer state layerId down h
        = pushToHistory (withLayers state (l1 ++ c :: b :: l2)) h).
Proof.
  split.
  - intros l1 a b l2 Hl Hb Hbefore. cbn zeta.
    assert (HF : Forall (fun x => String.eqb (Layer.id x) layerId = false)
                        (l1 ++ [a])).
    { apply Forall_forall. intros x Hx. apply String.eqb_neq.
      now apply Hbefore. }
    rewrite (moveLayer_up_swaps state layerId h l1 a b l2 Hl Hb HF).
    split; [reflexivity|].
    rewrite (moveLayer_down_swaps _ layerId _ l1 b a l2); try reflexivity.
    + cbn [pushToHistory present withLayers layers]. now rewrite Hl.
    + exact Hb.
    + apply Forall_forall. intros x Hx.
      apply (proj1 (Forall_forall _ _) HF). apply in_or_app. now left.
  - intros l1 b c l2 Hl Hb Hbefore.
    apply moveLayer_down_swaps; auto.
    apply Forall_forall. intros x Hx. apply String.eqb_neq.
    now apply Hbefore.
Qed.

Lemma moveLayer_swaps_neighbours_witness :
  let h := {| past := []; present := threeLayers; future := [] |} in
  map Layer.id (layers (present (moveLayer threeLayers "layer-2" up h)))
  = ["layer-2"; "layer-1"; "layer-3"]
  /\ map Layer.id (layers (present (moveLayer threeLayers "layer-2" down h)))
     = ["layer-1"; "layer-3"; "layer-2"].
Proof.
  cbn zeta.
  destruct (moveLayer_swaps_neighbours threeLayers "layer-2"
              {| past := []; present := threeLayers; future := [] |})
    as [Hup Hdown].
  split.
  - destruct (Hup [] (emptyLayer "layer-1" "Layer 1")
                  (emptyLayer "layer-2" "Layer 2")
                  [emptyLayer "layer-3" "Layer 3"] eq_refl eq_refl)
      as [-> _]; [|reflexivity].
    intros x [<-|[]]. discriminate.
  - rewrite (Hdown [emptyLayer "layer-1" "Layer 1"]
                   (emptyLayer "layer-2" "Layer 2")
                   (emptyLayer "layer-3" "Layer 3") [] eq_refl eq_refl);
      [reflexivity|].
    intros x [<-|[]]. discriminate.
Defined.

Lemma findIndex_absent {A} (p : A -> bool) (l : list A) :
  JS.findIndex p l = None -> Forall (fun a => p a = false) l.
Proof.
  induction l as [|a l IH]; simpl; intros H; [constructor|].
  destruct (p a) eqn:E; [discriminate|].
  destruct (JS.findIndex p l); [discriminate|]. constructor; auto.
Qed.



(** X11: [deleteLayer] throws only when the active layer is deleted and
    every layer carries its id.  When it returns, a document that had its
    active layer still has one: deleting the active layer makes the first
    remaining layer active.  With distinct layer ids and two layers or
    more, it commits (the old present becomes the last undo step, the
    redo stack is emptied) a present that holds the other layers as they
    were, in their order, and differs in nothing else but the active
    layer. *)
Theorem deleteLayer_keeps_an_active_layer
    (h : HistoryState.t) (layerId : string) :
  let state := present h in
  (deleteLayer state layerId = None <->
   2 <= List.length (layers state)
   /\ layerId = activeLayerId state
   /\ forall l, In l (layers state) -> Layer.id l = layerId)
  /\ (forall f, deleteLayer state layerId = Some f ->
        activeLayerExists state -> activeLayerExists (present (f h)))
  /\ (NoDup (map Layer.id (layers state)) ->
      2 <= List.length (layers state) ->
      forall l1 a l2,
        layers state = l1 ++ a :: l2 -> Layer.id a = layerId ->
        exists f,
          deleteLayer state layerId = Some f
          /\ past (f h) = JS.slice_last 50 (past h) ++ [state]
          /\ future (f h) = []
          /\ layers (present (f h)) = l1 ++ l2
          /\ activeLayerId (present (f h))
             = (if String.eqb layerId (activeLayerId state)
                then match l1 ++ l2 with
                     | first :: _ => Layer.id first
                     | [] => activeLayerId state
                     end
                else activeLayerId state)
          /\ selectedObjectIds (present (f h)) = selectedObjectIds state
          /\ zoom (present (f h)) = zoom state
          /\ pan (present (f h)) = pan state
          /\ tool (present (f h)) = tool state
          /\ canvasSize (present (f h)) = canvasSize state).
Proof.
  cbn zeta. set (state := present h).
  set (keep := fun layer : Layer.t =>
                 negb (String.eqb (Layer.id layer) layerId)).
  conj_split.
  - unfold deleteLayer. fold keep.
    destruct (Nat.leb (List.length (layers state)) 1) eqn:E.
    + apply Nat.leb_le in E. split; [discriminate | intros [H _]; lia].
    + apply Nat.leb_gt in E.
      destruct (String.eqb layerId (activeLayerId state)) eqn:Ea.
      * apply String.eqb_eq in Ea.
        destruct (filter keep (layers state)) as [|l0 rest] eqn:Ef;
          cbn [nth_error option_map].
        -- split; [intros _ | reflexivity].
           split; [lia|]. split; [exact Ea|].
           intros l Hl. destruct (String.eqb (Layer.id l) layerId) eqn:El;
             [now apply String.eqb_eq|].
           assert (Hin : In l (filter keep (layers state)))
             by (apply filter_In; unfold keep; now rewrite El).
           rewrite Ef in Hin. now elim Hin.
        -- split; [discriminate|]. intros (_ & _ & Hall).
           assert (Hin : In l0 (filter keep (layers state)))
             by (rewrite Ef; now left).
           apply filter_In in Hin. destruct Hin as [Hin Hk].
           unfold keep in Hk. rewrite (Hall l0 Hin), String.eqb_refl in Hk.
           discriminate Hk.
      * apply String.eqb_neq in Ea.
        split; [discriminate | intros (_ & Heq & _); now elim Ea].
  - intros f Hf Hact. unfold deleteLayer in Hf. fold keep in Hf.
    destruct (Nat.leb (List.length (layers state)) 1).
    + injection Hf as <-. exact Hact.
    + destruct (String.eqb layerId (activeLayerId state)) eqn:Ea.
      * destruct (filter keep (layers state)) as [|l0 rest] eqn:Ef;
          cbn [nth_error option_map] in Hf; [discriminate|].
        injection Hf as <-. unfold activeLayerExists, pushToHistory.
        cbn [present activeLayerId layers]. now left.
      * injection Hf as <-. unfold activeLayerExists, pushToHistory.
        cbn [present activeLayerId layers].
        unfold activeLayerExists in Hact. apply in_map_iff in Hact.
        destruct Hact as (l & Hl & Hin). apply in_map_iff.
        exists l. split; [exact Hl|]. apply filter_In. split; [exact Hin|].
        unfold keep. rewrite Hl, String.eqb_sym, Ea. reflexivity.
  - intros ND Hlen l1 a l2 Hl Ha.
    assert (Hf : filter keep (layers state) = l1 ++ l2).
    { rewrite Hl in ND |- *. rewrite map_app in ND. cbn [map] in ND.
      pose proof (NoDup_remove_2 _ _ _ ND) as Hnot.
      rewrite filter_app. cbn [filter]. unfold keep at 2.
      rewrite Ha, String.eqb_refl. cbn [negb].
      rewrite !forallb_filter_id; [reflexivity | |];
        apply forallb_forall; intros x Hx; unfold keep;
        apply negb_true_iff, String.eqb_neq; intros Heq;
        apply Hnot; rewrite Ha, <- Heq; apply in_or_app;
        [right | left]; now apply in_map. }
    unfold deleteLayer. fold keep.
    rewrite (proj2 (Nat.leb_gt _ _)) by lia. rewrite Hf.
    destruct (String.eqb layerId (activeLayerId state)) eqn:Ea.
    + destruct (l1 ++ l2) as [|first rest] eqn:E12.
      * exfalso. rewrite Hl, length_app in Hlen. cbn [List.length] in Hlen.
        apply (f_equal (@List.length _)) in E12.
        rewrite length_app in E12. simpl in E12. lia.
      * cbn [nth_error option_map]. eexists.
        split; [reflexivity|]. conj_split; reflexivity.
    + eexists. split; [reflexivity|]. conj_split; reflexivity.
Qed.

Lemma deleteLayer_keeps_an_active_layer_witness :
  let h := {| past := []; present := threeLayers; future := [] |} in
  exists f,
    deleteLayer threeLayers "layer-3" = Some f
    /\ past (f h) = [threeLayers]
    /\ map Layer.id (layers (present (f h))) = ["layer-1"; "layer-2"]
    /\ activeLayerId (present (f h)) = "layer-1"
    /\ activeLayerExists (present (f h)).
Proof.
  cbn zeta.
  destruct (deleteLayer_keeps_an_active_layer
              {| past := []; present := threeLayers; future := [] |}
              "layer-3") as (_ & Hact & Hdel).
  destruct (Hdel
              ltac:(simpl; repeat constructor; simpl; intuition discriminate)
              ltac:(simpl; lia)
              [emptyLayer "layer-1" "Layer 1"; emptyLayer "layer-2" "Layer 2"]
              (emptyLayer "layer-3" "Layer 3") [] eq_refl eq_refl)
    as (f & Hf & Hp & _ & Hl & Ha & _).
  exists f. conj_split.
  - exact Hf.
  - exact Hp.
  - rewrite Hl. reflexivity.
  - rewrite Ha. reflexivity.
  - apply (Hact f Hf). simpl. right. right. now left.
Defined.

(** X12: A click on a layer row calls [updateLayer(state.activeLayerId,
    { id: layerId })]: it does not activate the clicked layer, it gives
    the active layer the clicked id.  For a click on another layer, the
    active layer id stays what it was and no layer carries it any more,
    so [addObject] drops whatever is drawn next; the stacks are not
    touched. *)
Theorem clicking_a_layer_renames_the_active_one
    (state : CanvasState.t) (layerId : string) (h : HistoryState.t)
    (n : nat) (obj : CanvasObject.t) :
  layerId <> activeLayerId state ->
  let h1 := App.handleSetActiveLayer state layerId h in
  past h1 = past h /\ future h1 = future h
  /\ activeLayerId (present h1) = activeLayerId state
  /\ ~ activeLayerExists (present h1)
  /\ snd (addObject (present h1) n obj) h1 = h1
  /\ (activeLayerExists state ->
      In layerId (map Layer.id (layers (present h1))))
  /\ List.length (layers (present h1)) = List.length (layers state).
Proof.
  intros Hne. cbn zeta.
  assert (Hnot : ~ activeLayerExists
                     (present (App.handleSetActiveLayer state layerId h))).
  { unfold activeLayerExists, App.handleSetActiveLayer, updateLayer,
      setPresent, withLayers.
    cbn [present activeLayerId layers]. rewrite map_map.
    intros Hin. apply in_map_iff in Hin. destruct Hin as (l & Hl & _).
    destruct (String.eqb (Layer.id l) (activeLayerId state)) eqn:E.
    - cbn in Hl. now elim Hne.
    - apply String.eqb_neq in E. now elim E. }
  conj_split; try reflexivity.
  - exact Hnot.
  - unfold addObject.
    destruct (find _ _) eqn:E; [|reflexivity].
    elim Hnot. apply DocumentFacts.find_active. now rewrite E.
  - intros Hact. unfold activeLayerExists in Hact.
    unfold App.handleSetActiveLayer, updateLayer, setPresent, withLayers.
    cbn [present layers]. rewrite map_map.
    apply in_map_iff in Hact. destruct Hact as (l & Hl & Hin).
    apply in_map_iff. exists l. split; [|exact Hin].
    rewrite Hl, String.eqb_refl. reflexivity.
  - unfold App.handleSetActiveLayer, updateLayer, setPresent, withLayers.
    cbn [present layers]. apply length_map.
Qed.

Lemma clicking_a_layer_renames_the_active_one_witness :
  let h := {| past := []; present := threeLayers; future := [] |} in
  let h1 := App.handleSetActiveLayer threeLayers "layer-1" h in
  map Layer.id (layers (present h1)) = ["layer-1"; "layer-2"; "layer-1"]
  /\ activeLayerId (present h1) = "layer-3"
  /\ snd (addObject (present h1) 1 Samples.tall) h1 = h1.
Proof.
  cbn zeta.
  destruct (clicking_a_layer_renames_the_active_one threeLayers "layer-1"
              {| past := []; present := threeLayers; future := [] |}
              1 Samples.tall ltac:(discriminate))
    as (_ & _ & Ha & _ & Hadd & _).
  conj_split; [reflexivity | exact Ha | exact Hadd].
Defined.

End LayerOrderFacts.

(** ** Zoom, and what the wheel adjusts *)

Module ArithmeticFacts.
Import Ranges NumberFacts.

Lemma shr_1_nonneg mrs : (0 <= shr_m mrs)%Z -> (0 <= shr_m (shr_1 mrs))%Z.
Proof.
  destruct mrs as [m r s]. cbn [shr_m]. unfold shr_1.
  destruct m as [|[p|p|]|p]; cbn [shr_m]; lia.
Qed.

Lemma iter_shr_1_nonneg p mrs :
  (0 <= shr_m mrs)%Z -> (0 <= shr_m (iter_pos shr_1 p mrs))%Z.
Proof.
  revert mrs. induction p as [p IH|p IH|]; intros mrs H; cbn [iter_pos].
  - apply IH, IH, shr_1_nonneg, H.
  - apply IH, IH, H.
  - apply shr_1_nonneg, H.
Qed.

Lemma shr_fexp_nonneg prec emax m e l :
  (0 <= m)%Z -> (0 <= shr_m (fst (shr_fexp prec emax m e l)))%Z.
Proof.
  intros H. unfold shr_fexp, shr.
  assert (H0 : (0 <= shr_m (shr_record_of_loc m l))%Z)
    by (destruct l as [|[]]; exact H).
  destruct (_ - e)%Z; cbn [fst]; try exact H0.
  now apply iter_shr_1_nonneg.
Qed.

Lemma round_nearest_even_nonneg m l :
  (0 <= m)%Z -> (0 <= round_nearest_even m l)%Z.
Proof.
  intros H. unfold round_nearest_even.
  destruct l as [|[]]; try destruct (Z.even m); lia.
Qed.

Lemma binary_round_aux_number prec emax sx mx ex lx :
  (0 <= mx)%Z -> binary_round_aux prec emax sx mx ex lx <> S754_nan.
Proof.
  intros H. unfold binary_round_aux.
  pose proof (shr_fexp_nonneg prec emax mx ex lx H) as H1.
  destruct (shr_fexp prec emax mx ex lx) as [mrs' e']. cbn [fst] in H1.
  pose proof (shr_fexp_nonneg prec emax _ e' loc_Exact
                (round_nearest_even_nonneg _ (loc_of_shr_record mrs') H1))
    as H2.
  destruct (shr_fexp prec emax _ e' loc_Exact) as [mrs'' e''].
  cbn [fst] in H2.
  destruct (shr_m mrs'') as [|m|m]; [discriminate | | lia].
  destruct (Z.leb e'' _); discriminate.
Qed.

Lemma SFmul_number prec emax x y :
  SFnumber x -> SFnumber y -> SFmul prec emax x y <> S754_nan.
Proof.
  destruct x as [sx|sx| |sx mx ex], y as [sy|sy| |sy my ey];
    cbn [SFnumber]; intros Hx Hy; try contradiction; cbn [SFmul];
    try discriminate.
  apply binary_round_aux_number. lia.
Qed.

Lemma SFadd_number prec emax x y :
  SFnumber x -> SFnumber y -> SFadd prec emax x y <> S754_nan.
Proof.
  destruct x as [sx|sx| |sx mx ex], y as [sy|sy| |sy my ey];
    cbn [SFnumber]; intros Hx Hy; try contradiction; cbn [SFadd];
    try discriminate.
  - destruct sx, sy; discriminate.
  - unfold binary_normalize.
    destruct (_ + _)%Z; [discriminate | |]; unfold binary_round;
      destruct (shl_align _ _ _); apply binary_round_aux_number; lia.
Qed.

(** The product and the sum of two finite numbers are numbers (possibly
    infinite), never NaN. *)
Lemma mul_number (a b : float) :
  SFnumber (Prim2SF a) -> SFnumber (Prim2SF b) -> is_nan (a * b) = false.
Proof.
  intros Ha Hb. apply is_nan_spec. rewrite mul_spec.
  now apply SFmul_number.
Qed.

Lemma add_number (a b : float) :
  SFnumber (Prim2SF a) -> SFnumber (Prim2SF b) -> is_nan (a + b) = false.
Proof.
  intros Ha Hb. apply is_nan_spec. rewrite add_spec.
  now apply SFadd_number.
Qed.

Lemma SFbound_number x : SFbound x -> SFnumber x.
Proof. now destruct x. Qed.

(** A value between two finite bounds is finite. *)
Lemma between_number (lo hi r : float) :
  SFnumber (Prim2SF lo) -> SFnumber (Prim2SF hi) ->
  between lo hi r -> SFnumber (Prim2SF r).
Proof.
  intros Hlo Hhi (_ & H1 & H2). unfold JS.le in H1, H2.
  rewrite FloatAxioms.leb_spec in H1, H2. unfold SFleb in H1, H2.
  destruct (Prim2SF r) as [s|s| |s m e]; cbn [SFnumber]; trivial.
  - destruct s.
    + destruct (Prim2SF lo) as [?|?| |[] ? ?]; cbn in Hlo, H1;
        try contradiction; discriminate H1.
    + destruct (Prim2SF hi) as [?|?| |[] ? ?]; cbn in Hhi, H2;
        try contradiction; discriminate H2.
  - destruct (Prim2SF lo); discriminate H1.
Qed.

Lemma leb_not_ltb (a b : float) :
  (a <=? b)%float = true -> (b <? a)%float = false.
Proof.
  rewrite FloatAxioms.ltb_spec, FloatAxioms.leb_spec. unfold SFltb, SFleb.
  rewrite (SFcompare_antisym (Prim2SF a) (Prim2SF b)).
  destruct (SFcompare (Prim2SF a) (Prim2SF b)) as [[]|];
    simpl; try discriminate; reflexivity.
Qed.

Lemma SFcompare_Eq_bound (x y : spec_float) :
  SFbound x -> SFcompare x y = Some Eq -> y = x.
Proof.
  destruct x as [sx|sx| |sx mx ex]; cbn [SFbound]; try contradiction.
  intros _.
  destruct y as [sy|sy| |sy my ey]; simpl;
    try (destruct sx; discriminate); try (destruct sx, sy; discriminate).
  destruct sx, sy; try discriminate;
    destruct (Z.compare ex ey) eqn:Ee; try discriminate;
    apply Z.compare_eq in Ee; subst ey;
    change (Pos.compare_cont Eq mx my) with (Pos.compare mx my);
    destruct (Pos.compare mx my) eqn:Em; try discriminate;
    apply Pos.compare_eq in Em; subst my; reflexivity.
Qed.

(** Between two bounds the clamp [Math.max(lo, Math.min(hi, x))] gives
    [x] back. *)
Lemma clamp_fixes (lo hi x : float) :
  SFbound (Prim2SF lo) -> JS.is_negzero lo = false ->
  JS.is_negzero hi = false ->
  between lo hi x -> JS.Math_max lo (JS.Math_min hi x) = x.
Proof.
  intros Hlo Hzl Hzh (Hx & H1 & H2). unfold JS.le in H1, H2.
  destruct (leb_not_nan _ _ H1) as [Hnl _].
  destruct (leb_not_nan _ _ H2) as [_ Hnh].
  assert (Hmin : JS.Math_min hi x = x).
  { unfold JS.Math_min. rewrite Hnh, Hx. cbn [orb].
    rewrite (leb_not_ltb _ _ H2), Hzh. now destruct (x <? hi)%float. }
  rewrite Hmin. unfold JS.Math_max. rewrite Hnl, Hx. cbn [orb].
  destruct (lo <? x)%float eqn:E; [reflexivity|].
  rewrite (leb_not_ltb _ _ H1), Hzl.
  apply Prim2SF_inj. symmetry. apply SFcompare_Eq_bound; [exact Hlo|].
  rewrite FloatAxioms.ltb_spec in E. rewrite FloatAxioms.leb_spec in H1.
  unfold SFltb in E. unfold SFleb in H1.
  destruct (SFcompare (Prim2SF lo) (Prim2SF x)) as [[]|];
    try discriminate; reflexivity.
Qed.

End ArithmeticFacts.

Module ZoomFacts.
Import HistoryState CanvasState UseCanvas Ranges NumberFacts ArithmeticFacts.

Lemma clamp_sum (lo hi x d : float) :
  SFnumber (Prim2SF lo) -> SFnumber (Prim2SF hi) -> JS.le lo hi = true ->
  SFnumber (Prim2SF d) -> between lo hi x ->
  between lo hi (JS.Math_max lo (JS.Math_min hi (x + d))).
Proof.
  intros Hlo Hhi Hle Hd Hx.
  apply (clamp_range lo hi (x + d) Hle).
  apply add_number; [now apply (between_number lo hi) | exact Hd].
Qed.

Lemma clamp_product (lo hi x d : float) :
  SFnumber (Prim2SF lo) -> SFnumber (Prim2SF hi) -> JS.le lo hi = true ->
  SFnumber (Prim2SF d) -> between lo hi x ->
  between lo hi (JS.Math_max lo (JS.Math_min hi (x * d))).
Proof.
  intros Hlo Hhi Hle Hd Hx.
  apply (clamp_range lo hi (x * d) Hle).
  apply mul_number; [now apply (between_number lo hi) | exact Hd].
Qed.

Ltac number := vm_compute; exact I.

Lemma findIndex_lt {A} (p : A -> bool) (l : list A) (i : nat) :
  JS.findIndex p l = Some i -> i < List.length l.
Proof.
  intros E.
  destruct (LayerOrderFacts.findIndex_split _ _ _ E)
    as (l1 & b & l2 & Hl & Hlen & _).
  rewrite Hl, length_app. cbn [List.length]. lia.
Qed.

Lemma level_between (z : float) :
  In z MenuBar.zoomLevels -> between 0.1 5 z.
Proof.
  intros H. cbn in H.
  repeat (destruct H as [<- | H];
          [unfold between; conj_split; vm_compute; reflexivity|]).
  contradiction.
Qed.

Lemma setZoom_zoom (state : CanvasState.t) (z : float) (h : HistoryState.t) :
  zoom (present (setZoom state z h)) = JS.Math_max 0.1 (JS.Math_min 5 z).
Proof. reflexivity. Qed.

Lemma setZoom_keeps (state : CanvasState.t) (z : float)
    (h : HistoryState.t) :
  between 0.1 5 z -> zoom (present (setZoom state z h)) = z.
Proof.
  intros Hz. rewrite setZoom_zoom.
  apply clamp_fixes; [number | reflexivity | reflexivity | exact Hz].
Qed.

Lemma setZoom_bounds (state : CanvasState.t) (z : float)
    (h : HistoryState.t) :
  is_nan z = false -> between 0.1 5 (zoom (present (setZoom state z h))).
Proof.
  intros Hz. rewrite setZoom_zoom.
  now apply (clamp_range 0.1 5 z).
Qed.

(** X13: [setZoom] stores the requested zoom clamped to [0.1, 5]: a request in
    that range is stored as it is, any other number ends on a bound, and
    NaN is stored as NaN.  Nothing else of the document changes. *)
Theorem setZoom_clamps
    (state : CanvasState.t) (z : float) (h : HistoryState.t) :
  let D := present (setZoom state z h) in
  (between 0.1 5 z -> zoom D = z)
  /\ (is_nan z = false -> between 0.1 5 (zoom D))
  /\ (is_nan z = true -> is_nan (zoom D) = true)
  /\ layers D = layers state
  /\ activeLayerId D = activeLayerId state
  /\ selectedObjectIds D = selectedObjectIds state
  /\ pan D = pan state /\ tool D = tool state
  /\ canvasSize D = canvasSize state.
Proof.
  cbn zeta. conj_split; try reflexivity.
  - apply setZoom_keeps.
  - apply setZoom_bounds.
  - rewrite setZoom_zoom. apply (clamp_range 0.1 5 z). reflexivity.
Qed.

Lemma setZoom_clamps_witness :
  zoom (present (setZoom createInitialState 2.5 initialHistory)) = 2.5%float
  /\ zoom (present (setZoom createInitialState 40 initialHistory)) = 5%float
  /\ is_nan (zoom (present (setZoom createInitialState nan initialHistory)))
     = true.
Proof.
  conj_split.
  - apply (setZoom_clamps createInitialState 2.5 initialHistory).
    unfold between. conj_split; reflexivity.
  - reflexivity.
  - apply (setZoom_clamps createInitialState nan initialHistory).
    reflexivity.
Defined.

(** X14: The zoom of the document stays a number between 0.1 and 5 under every
    zoom gesture: Ctrl or Cmd with the wheel and the menu bar's buttons
    ask for a zoom in that range, which [setZoom] stores as asked; what
    the [+] and [-] buttons over the canvas ask for is stored within the
    range. *)
Theorem zoom_stays_in_range
    (state : CanvasState.t) (s : Canvas.State) (e : Canvas.WheelEvent)
    (h : HistoryState.t) (z : float) :
  between 0.1 5 (zoom state) ->
  let props := App.canvasProps state in
  (In (Canvas.ZoomChange z) (fst (Canvas.handleWheel props s e))
   \/ z = MenuBar.zoomInClick (zoom state)
   \/ z = MenuBar.zoomOutClick (zoom state) ->
   between 0.1 5 z /\ zoom (present (setZoom state z h)) = z)
  /\ (In (Canvas.ZoomChange z)
         (Canvas.zoomInButton props ++ Canvas.zoomOutButton props) ->
      between 0.1 5 (zoom (present (setZoom state z h)))).
Proof.
  intros Hz. cbn zeta.
  assert (Hn : SFnumber (Prim2SF (zoom state)))
    by (apply (between_number 0.1 5); [number | number | exact Hz]).
  split.
  - intros H.
    assert (Hb : between 0.1 5 z).
    { destruct H as [H | [H | H]].
      - unfold Canvas.handleWheel in H.
        cbn [App.canvasProps Canvas.zoom Canvas.tool Canvas.pan] in H.
        destruct (Canvas.wheelCtrlKey e || Canvas.wheelMetaKey e).
        + cbn [fst In] in H. destruct H as [H | []].
          injection H as <-.
          apply clamp_product; try number; try reflexivity; try exact Hz.
          destruct (JS.gt _ _); number.
        + destruct (Canvas.isTool _ Tool.brush);
            [now elim H|].
          destruct (Canvas.isTool _ Tool.pen); [now elim H|].
          destruct (Canvas.wheelShiftKey e); cbn [fst In] in H;
            destruct H as [H | []]; discriminate H.
      - apply level_between. subst z.
        unfold MenuBar.zoomInClick, MenuBar.currentZoomIndex.
        destruct (JS.findIndex _ _) as [i|] eqn:E;
          [|vm_compute; tauto].
        apply findIndex_lt in E. cbn [List.length MenuBar.zoomLevels] in E.
        do 9 (destruct i as [|i]; [vm_compute; tauto|]). lia.
      - apply level_between. subst z.
        unfold MenuBar.zoomOutClick, MenuBar.currentZoomIndex.
        destruct (JS.findIndex _ _) as [i|] eqn:E;
          [|vm_compute; tauto].
        apply findIndex_lt in E. cbn [List.length MenuBar.zoomLevels] in E.
        do 9 (destruct i as [|i]; [vm_compute; tauto|]). lia. }
    split; [exact Hb|]. now apply setZoom_keeps.
  - intros H. apply setZoom_bounds.
    cbn [Canvas.zoomInButton Canvas.zoomOutButton app In] in H.
    cbn [App.canvasProps Canvas.zoom] in H.
    destruct H as [H | [H | []]]; injection H as <-.
    + assert (Hm : is_nan (zoom state * 1.2) = false)
        by (apply mul_number; [exact Hn | number]).
      destruct (Math_min_cases 5 (zoom state * 1.2) eq_refl Hm)
        as [[-> | ->] _]; [reflexivity | exact Hm].
    + assert (Hm : is_nan (zoom state * 0.8) = false)
        by (apply mul_number; [exact Hn | number]).
      destruct (Math_max_cases 0.1 (zoom state * 0.8) eq_refl Hm)
        as [[-> | ->] _]; [reflexivity | exact Hm].
Qed.

Lemma zoom_stays_in_range_witness :
  let state := createInitialState in
  let e := {| Canvas.deltaY := -100; Canvas.wheelCtrlKey := true;
              Canvas.wheelMetaKey := false;
              Canvas.wheelShiftKey := false |} in
  fst (Canvas.handleWheel (App.canvasProps state) Canvas.initialState e)
  = [Canvas.ZoomChange (1 * 1.1)]
  /\ between 0.1 5 (1 * 1.1)
  /\ zoom (present (setZoom state (1 * 1.1) initialHistory))
     = (1 * 1.1)%float
  /\ between 0.1 5
       (zoom (present (setZoom state (JS.Math_min 5 (1 * 1.2))
                               initialHistory))).
Proof.
  cbn zeta.
  assert (Hz : between 0.1 5 (zoom createInitialState))
    by (unfold between; conj_split; reflexivity).
  destruct (zoom_stays_in_range createInitialState Canvas.initialState
              {| Canvas.deltaY := -100; Canvas.wheelCtrlKey := true;
                 Canvas.wheelMetaKey := false;
                 Canvas.wheelShiftKey := false |}
              initialHistory (1 * 1.1) Hz) as [H1 _].
  destruct (zoom_stays_in_range createInitialState Canvas.initialState
              {| Canvas.deltaY := -100; Canvas.wheelCtrlKey := true;
                 Canvas.wheelMetaKey := false;
                 Canvas.wheelShiftKey := false |}
              initialHistory (JS.Math_min 5 (1 * 1.2)) Hz) as [_ H2].
  conj_split.
  - reflexivity.
  - apply H1. left. simpl. left. reflexivity.
  - apply H1. left. simpl. left. reflexivity.
  - apply H2. simpl. left. reflexivity.
Defined.

(** X15: The menu bar's zoom buttons only ever ask for one of the nine zoom
    levels.  At a zoom within 0.01 of level [i] they step to the next and
    the previous level, and are disabled at the ends.  At any other zoom
    (as the wheel and the canvas buttons produce) zoom-out is disabled and
    zoom-in asks for the lowest level, 25%. *)
Theorem menu_zoom_steps_through_levels (z : float) :
  In (MenuBar.zoomInClick z) MenuBar.zoomLevels
  /\ In (MenuBar.zoomOutClick z) MenuBar.zoomLevels
  /\ (MenuBar.currentZoomIndex z = (-1)%Z ->
      Forall (fun level => (JS.Math_abs (level - z) <? 0.01)%float = false)
             MenuBar.zoomLevels
      /\ MenuBar.zoomInClick z = 0.25%float
      /\ MenuBar.zoomInDisabled z = false
      /\ MenuBar.zoomOutDisabled z = true)
  /\ (forall i, MenuBar.currentZoomIndex z = Z.of_nat i ->
      (exists level, nth_error MenuBar.zoomLevels i = Some level
                     /\ (JS.Math_abs (level - z) <? 0.01)%float = true)
      /\ MenuBar.zoomInDisabled z = Nat.leb 8 i
      /\ MenuBar.zoomOutDisabled z = Nat.eqb i 0
      /\ (MenuBar.zoomInDisabled z = false ->
          nth_error MenuBar.zoomLevels (S i) = Some (MenuBar.zoomInClick z))
      /\ (MenuBar.zoomOutDisabled z = false ->
          nth_error MenuBar.zoomLevels (Nat.pred i)
          = Some (MenuBar.zoomOutClick z))).
Proof.
  unfold MenuBar.zoomInClick, MenuBar.zoomOutClick, MenuBar.zoomInDisabled,
    MenuBar.zoomOutDisabled, MenuBar.currentZoomIndex.
  destruct (JS.findIndex _ MenuBar.zoomLevels) as [i|] eqn:E.
  - pose proof (findIndex_lt _ _ _ E) as Hlt.
    cbn [List.length MenuBar.zoomLevels] in Hlt.
    destruct (LayerOrderFacts.findIndex_split _ _ _ E)
      as (l1 & b & l2 & Hl & Hlen & Hb & _).
    assert (Hnth : nth_error MenuBar.zoomLevels i = Some b)
      by (rewrite Hl, <- Hlen; apply LayerOrderFacts.nth_error_middle).
    conj_split.
    + do 9 (destruct i as [|i]; [vm_compute; tauto|]). lia.
    + do 9 (destruct i as [|i]; [vm_compute; tauto|]). lia.
    + intros H. lia.
    + intros j Hj. apply Nat2Z.inj in Hj. subst j. conj_split.
      * exists b. split; [exact Hnth | exact Hb].
      * do 9 (destruct i as [|i]; [reflexivity|]). lia.
      * do 9 (destruct i as [|i]; [reflexivity|]). lia.
      * do 9 (destruct i as [|i];
              [vm_compute; intros H; (reflexivity || discriminate H)|]).
        lia.
      * do 9 (destruct i as [|i];
              [vm_compute; intros H; (reflexivity || discriminate H)|]).
        lia.
  - conj_split.
    + vm_compute. tauto.
    + vm_compute. tauto.
    + intros _. conj_split; try reflexivity.
      now apply LayerOrderFacts.findIndex_absent.
    + intros j Hj. lia.
Qed.

Lemma menu_zoom_steps_through_levels_witness :
  MenuBar.zoomInClick (1 * 1.1) = 0.25%float
  /\ MenuBar.zoomOutDisabled (1 * 1.1) = true
  /\ MenuBar.zoomInClick 1 = 1.25%float
  /\ MenuBar.zoomOutClick 1 = 0.75%float.
Proof.
  destruct (menu_zoom_steps_through_levels (1 * 1.1))
    as (_ & _ & Hoff & _).
  destruct (Hoff eq_refl) as (_ & Hin & _ & Hout).
  destruct (menu_zoom_steps_through_levels 1) as (_ & _ & _ & Hon).
  destruct (Hon 3 eq_refl) as (_ & _ & _ & Hnext & Hprev).
  conj_split.
  - exact Hin.
  - exact Hout.
  - specialize (Hnext eq_refl).
    change (Some 1.25%float = Some (MenuBar.zoomInClick 1)) in Hnext.
    congruence.
  - specialize (Hprev eq_refl).
    change (Some 0.75%float = Some (MenuBar.zoomOutClick 1)) in Hprev.
    congruence.
Defined.

(** X16: The wheel over the canvas does one thing at a time: with Ctrl or Cmd
    it asks for a zoom, with the brush or the pen it changes only the
    brush size or the pen width and calls nothing, otherwise it asks for
    one pan along one axis.  The brush size stays between 1 and 100 and
    the pen width between 0.5 and 20. *)
Theorem wheel_keeps_settings_in_range
    (props : Canvas.CanvasProps) (s : Canvas.State) (e : Canvas.WheelEvent) :
  between 1 100 (Canvas.brush_size (Canvas.brushSettings s)) ->
  between 0.5 20 (Canvas.pen_width (Canvas.penSettings s)) ->
  let r := Canvas.handleWheel props s e in
  between 1 100 (Canvas.brush_size (Canvas.brushSettings (snd r)))
  /\ between 0.5 20 (Canvas.pen_width (Canvas.penSettings (snd r)))
  /\ Canvas.brush_opacity (Canvas.brushSettings (snd r))
     = Canvas.brush_opacity (Canvas.brushSettings s)
  /\ Canvas.brush_color (Canvas.brushSettings (snd r))
     = Canvas.brush_color (Canvas.brushSettings s)
  /\ Canvas.pen_color (Canvas.penSettings (snd r))
     = Canvas.pen_color (Canvas.penSettings s)
  /\ (fst r <> [] -> snd r = s)
  /\ (Canvas.wheelCtrlKey e || Canvas.wheelMetaKey e = true ->
      exists z, fst r = [Canvas.ZoomChange z])
  /\ (Canvas.wheelCtrlKey e || Canvas.wheelMetaKey e = false ->
      (Canvas.isTool (Canvas.tool props) Tool.brush
       || Canvas.isTool (Canvas.tool props) Tool.pen = true ->
       fst r = [])
      /\ (Canvas.isTool (Canvas.tool props) Tool.brush
          || Canvas.isTool (Canvas.tool props) Tool.pen = false ->
          exists p, fst r = [Canvas.PanChange p]
            /\ (if Canvas.wheelShiftKey e
                then Point.y p = Point.y (Canvas.pan props)
                else Point.x p = Point.x (Canvas.pan props)))).
Proof.
  intros Hb Hp. cbn zeta. unfold Canvas.handleWheel.
  destruct (Canvas.wheelCtrlKey e || Canvas.wheelMetaKey e).
  - cbn [fst snd]. conj_split; try assumption; try reflexivity.
    + intros _. eexists. reflexivity.
    + intros H. discriminate H.
  - destruct (Canvas.isTool (Canvas.tool props) Tool.brush).
    + cbn [fst snd orb]. conj_split; try assumption; try reflexivity.
      * cbn [Canvas.setBrushSettings Canvas.brushSettings
               Canvas.brush_size].
        apply clamp_sum; try number; try reflexivity; try exact Hb.
        destruct (JS.gt _ _); number.
      * intros H. now elim H.
      * intros H. discriminate H.
      * intros _. split; [reflexivity | intros H; discriminate H].
    + destruct (Canvas.isTool (Canvas.tool props) Tool.pen).
      * cbn [fst snd orb]. conj_split; try assumption; try reflexivity.
        -- cbn [Canvas.setPenSettings Canvas.penSettings Canvas.pen_width].
           apply clamp_sum; try number; try reflexivity; try exact Hp.
           destruct (JS.gt _ _); number.
        -- intros H. now elim H.
        -- intros H. discriminate H.
        -- intros _. split; [reflexivity | intros H; discriminate H].
      * cbn [orb].
        destruct (Canvas.wheelShiftKey e); cbn [fst snd];
          conj_split; try assumption; try reflexivity;
          try (intros H; discriminate H);
          intros _; (split; [intros H; discriminate H|]);
          intros _; eexists; split; reflexivity.
Qed.

Lemma wheel_keeps_settings_in_range_witness :
  let props := App.canvasProps (setTool createInitialState Tool.brush
                                  initialHistory).(present) in
  let e := {| Canvas.deltaY := 100; Canvas.wheelCtrlKey := false;
              Canvas.wheelMetaKey := false;
              Canvas.wheelShiftKey := false |} in
  let r := Canvas.handleWheel props Canvas.initialState e in
  fst r = []
  /\ Canvas.brush_size (Canvas.brushSettings (snd r)) = (10 + -2)%float
  /\ between 1 100 (Canvas.brush_size (Canvas.brushSettings (snd r))).
Proof.
  cbn zeta.
  destruct (wheel_keeps_settings_in_range
              (App.canvasProps
                 (setTool createInitialState Tool.brush
                    initialHistory).(present))
              Canvas.initialState
              {| Canvas.deltaY := 100; Canvas.wheelCtrlKey := false;
                 Canvas.wheelMetaKey := false;
                 Canvas.wheelShiftKey := false |})
    as (Hb & _ & _ & _ & _ & _ & _ & Hcalls).
  - unfold between. conj_split; reflexivity.
  - unfold between. conj_split; reflexivity.
  - conj_split.
    + apply (Hcalls eq_refl). reflexivity.
    + reflexivity.
    + exact Hb.
Defined.

End ZoomFacts.

(** ** Gestures on the canvas: shapes, the eraser, switching tools *)

Module GestureFacts.
Import HistoryState CanvasState UseCanvas Throwing.

Lemma filterM_filter {A} (p : A -> option bool) (l r : list A) :
  filterM p l = Some r ->
  r = filter (fun a => match p a with Some true => true | _ => false end) l
  /\ forall a, In a l -> p a <> None.
Proof.
  revert r. induction l as [|a l IH]; intros r; cbn [filterM filter].
  - intros [= <-]. split; [reflexivity | intros a []].
  - destruct (p a) as [b|] eqn:Ea; cbn [bind]; [|discriminate].
    destruct (filterM p l) as [r'|]; cbn [bind]; [|discriminate].
    intros [= <-]. destruct (IH r' eq_refl) as [-> Hdef].
    split.
    + now destruct b.
    + intros x [<- | Hx]; [now rewrite Ea | now apply Hdef].
Qed.

Lemma allObjects_map (f : CanvasObject.t -> CanvasObject.t)
    (state : CanvasState.t) :
  App.allObjects
    (withLayers state
       (map (fun layer => withObjects layer (map f (Layer.objects layer)))
            (layers state)))
  = map f (App.allObjects state).
Proof.
  unfold App.allObjects. cbn [withLayers layers].
  induction (layers state) as [|l ls IH]; cbn [map flat_map];
    [reflexivity|].
  rewrite map_app, IH. reflexivity.
Qed.

(** A handler that only calls [onObjectUpdate]. *)
Lemma handle_updates (us : list (string * PartialObject.t)) (hk : App.Hook) :
  App.handle (map (fun u => Canvas.ObjectUpdate (fst u) (snd u)) us) hk
  = App.onUpdateObject (present (App.history hk)) us hk.
Proof.
  unfold App.handle, App.onUpdateObject.
  set (state := present (App.history hk)). clearbody state.
  revert hk. induction us as [|u us IH]; intros hk; cbn [map fold_left].
  - now destruct hk.
  - rewrite IH. reflexivity.
Qed.

(** X17: The eraser calls [onObjectUpdate(id, { visible: false })] for each
    unlocked object whose box holds the point, hidden ones included, and
    for nothing else.  All these calls start from the same render: the
    stacks stay as they are (erasing is no undo step), no object leaves
    the document, and only the objects of the last id called end up
    hidden. *)
Theorem eraser_hides_only_the_last_object
    (hk : App.Hook) (point : Point.t) (calls : list Canvas.Call) :
  let D := present (App.history hk) in
  Canvas.handleEraserTool (App.canvasProps D) point = Some calls ->
  let hk' := App.handle calls hk in
  (forall c, In c calls <->
     exists obj bbox,
       In obj (App.allObjects D)
       /\ Geometry.getBoundingBox obj = Some bbox
       /\ Geometry.pointInBoundingBox point bbox = true
       /\ CanvasObject.locked obj = false
       /\ c = Canvas.ObjectUpdate (CanvasObject.id obj)
                (PartialObject.of_visible false))
  /\ past (App.history hk') = past (App.history hk)
  /\ future (App.history hk') = future (App.history hk)
  /\ App.nextObjectId hk' = App.nextObjectId hk
  /\ (calls = [] -> hk' = hk)
  /\ (forall cs i u,
        calls = cs ++ [Canvas.ObjectUpdate i u] ->
        u = PartialObject.of_visible false
        /\ App.allObjects (present (App.history hk'))
           = map (fun obj =>
                    if String.eqb (CanvasObject.id obj) i
                    then spreadObject obj (PartialObject.of_visible false)
                    else obj)
                 (App.allObjects D)).
Proof.
  cbn zeta. set (D := present (App.history hk)).
  unfold Canvas.handleEraserTool. cbn [App.canvasProps Canvas.objects].
  destruct (filterM _ (App.allObjects D)) as [objs|] eqn:E;
    cbn [bind]; [|discriminate].
  intros [= <-].
  destruct (filterM_filter _ _ _ E) as [Hobjs Hdef].
  set (us := map (fun obj => (CanvasObject.id obj,
                              PartialObject.of_visible false)) objs).
  assert (Hcalls :
    map (fun obj => Canvas.ObjectUpdate (CanvasObject.id obj)
                      (PartialObject.of_visible false)) objs
    = map (fun u => Canvas.ObjectUpdate (fst u) (snd u)) us)
    by (unfold us; rewrite map_map; reflexivity).
  rewrite Hcalls, handle_updates. fold D.
  destruct (ObjectFacts.updates_keep_stacks D us (App.history hk))
    as [Hp Hf].
  conj_split.
  - intros c. rewrite <- Hcalls. split.
    + intros Hin. apply in_map_iff in Hin. destruct Hin as (obj & <- & Hin).
      rewrite Hobjs in Hin. apply filter_In in Hin.
      destruct Hin as [Hin Hhit].
      destruct (Geometry.getBoundingBox obj) as [bbox|] eqn:Eb;
        cbn [bind] in Hhit; [|discriminate].
      destruct (Geometry.pointInBoundingBox point bbox) eqn:Ehit;
        cbn [andb] in Hhit; [|discriminate].
      destruct (CanvasObject.locked obj) eqn:El; cbn [negb] in Hhit;
        [discriminate|].
      exists obj, bbox. conj_split; auto.
    + intros (obj & bbox & Hin & Hb & Hhit & Hl & ->).
      apply in_map_iff. exists obj. split; [reflexivity|].
      rewrite Hobjs. apply filter_In. split; [exact Hin|].
      rewrite Hb. cbn [bind]. rewrite Hhit, Hl. reflexivity.
  - exact Hp.
  - exact Hf.
  - reflexivity.
  - intros Hnil. rewrite <- Hcalls in Hnil.
    destruct objs; [|discriminate Hnil]. now destruct hk.
  - intros cs i u Hlast. rewrite <- Hcalls in Hlast.
    destruct objs as [|o objs'] using rev_ind;
      [now destruct cs|]. clear IHobjs'.
    rewrite map_app in Hlast. cbn [map] in Hlast.
    apply app_inj_tail in Hlast. destruct Hlast as [_ Hlast].
    injection Hlast as <- <-. split; [reflexivity|].
    unfold us. rewrite map_app. cbn [map].
    rewrite ObjectFacts.last_update_wins. cbn [fst snd].
    unfold updateObject, setPresent. cbn [present].
    apply allObjects_map.
Qed.

Lemma eraser_hides_only_the_last_object_witness :
  let D := Samples.document
             [Samples.square "obj-1" 0 0 None;
              Samples.square "obj-2" 5 5 None] [] Tool.eraser in
  let hk := Samples.session D in
  let hk' :=
    App.handle
      [Canvas.ObjectUpdate "obj-1" (PartialObject.of_visible false);
       Canvas.ObjectUpdate "obj-2" (PartialObject.of_visible false)] hk in
  Canvas.handleEraserTool (App.canvasProps D) (Point.mk 7 7)
  = Some [Canvas.ObjectUpdate "obj-1" (PartialObject.of_visible false);
          Canvas.ObjectUpdate "obj-2" (PartialObject.of_visible false)]
  /\ map CanvasObject.visible (App.allObjects (present (App.history hk')))
     = [true; false]
  /\ past (App.history hk') = past (App.history hk).
Proof.
  cbn zeta.
  set (D := Samples.document
              [Samples.square "obj-1" 0 0 None;
               Samples.square "obj-2" 5 5 None] [] Tool.eraser).
  assert (Hcalls :
    Canvas.handleEraserTool
      (App.canvasProps (present (App.history (Samples.session D))))
      (Point.mk 7 7)
    = Some [Canvas.ObjectUpdate "obj-1" (PartialObject.of_visible false);
            Canvas.ObjectUpdate "obj-2" (PartialObject.of_visible false)])
    by (vm_compute; reflexivity).
  destruct (eraser_hides_only_the_last_object (Samples.session D)
              (Point.mk 7 7) _ Hcalls) as (_ & Hp & _ & _ & _ & Hlast).
  destruct (Hlast
              [Canvas.ObjectUpdate "obj-1" (PartialObject.of_visible false)]
              "obj-2" (PartialObject.of_visible false) eq_refl)
    as [_ Hobjs].
  conj_split.
  - exact Hcalls.
  - rewrite Hobjs. vm_compute. reflexivity.
  - exact Hp.
Defined.

(** X18: Above the threshold of 5 units, what ends a shape gesture depends on
    the tool: the polygon tool adds nothing; the circle and the ellipse
    tool both add a circle, of radius half the smaller side, in the middle
    of the dragged box; the line tool adds an unfilled line between the
    two points; the triangle and the star tool add closed paths of 3 and
    10 points.  Whatever is added is visible, unlocked, unrotated and
    unscaled, and the gesture is over afterwards. *)
Theorem shape_tools_and_what_they_add
    (Math_cos Math_sin : float -> float)
    (props : Canvas.CanvasProps) (s : Canvas.State) (e : Canvas.MouseEvent)
    (start : Point.t) :
  Canvas.editing s = false ->
  Canvas.isShapeTool (Canvas.tool props) = true ->
  Canvas.isDrawing s = true ->
  Canvas.drawingStart s = Some start ->
  let point :=
    Canvas.getCanvasPoint props s (Canvas.clientX e) (Canvas.clientY e) in
  let width := JS.Math_abs (Point.x point - Point.x start) in
  let height := JS.Math_abs (Point.y point - Point.y start) in
  let x := JS.Math_min (Point.x point) (Point.x start) in
  let y := JS.Math_min (Point.y point) (Point.y start) in
  JS.gt width 5 || JS.gt height 5 = true ->
  exists calls s',
    Canvas.handleMouseUp Math_cos Math_sin props s e = Some (calls, s')
    /\ (Canvas.tool props = Tool.polygon -> calls = [])
    /\ (Canvas.tool props = Tool.circle
        \/ Canvas.tool props = Tool.ellipse ->
        exists obj,
          calls = [Canvas.AddObject obj]
          /\ CanvasObject.type obj = "circle"
          /\ CanvasObject.props obj
             = Props.circle (JS.Math_min width height / 2)
          /\ Transform.x (CanvasObject.transform obj) = (x + width / 2)%float
          /\ Transform.y (CanvasObject.transform obj)
             = (y + height / 2)%float)
    /\ (Canvas.tool props = Tool.line ->
        exists obj,
          calls = [Canvas.AddObject obj]
          /\ CanvasObject.type obj = "line"
          /\ CanvasObject.props obj
             = Props.line (Point.x start) (Point.y start)
                          (Point.x point) (Point.y point)
          /\ StyleProperties.fill (CanvasObject.style obj) = "none"
          /\ Transform.x (CanvasObject.transform obj) = 0%float
          /\ Transform.y (CanvasObject.transform obj) = 0%float)
    /\ (Canvas.tool props = Tool.triangle \/ Canvas.tool props = Tool.star ->
        exists obj points,
          calls = [Canvas.AddObject obj]
          /\ CanvasObject.type obj = "path"
          /\ CanvasObject.props obj = Props.path points true
          /\ List.length points
             = match Canvas.tool props with Tool.star => 10 | _ => 3 end)
    /\ (forall obj, In (Canvas.AddObject obj) calls ->
          CanvasObject.id obj = ""
          /\ CanvasObject.visible obj = true
          /\ CanvasObject.locked obj = false
          /\ Transform.rotation (CanvasObject.transform obj) = 0%float
          /\ Transform.scaleX (CanvasObject.transform obj) = 1%float
          /\ Transform.scaleY (CanvasObject.transform obj) = 1%float
          /\ StyleProperties.gradient (CanvasObject.style obj) = Some None)
    /\ Canvas.isDrawing s' = false /\ Canvas.drawingStart s' = None
    /\ Canvas.previewObject s' = None /\ Canvas.selectionBox s' = None
    /\ Canvas.penPath s' = Canvas.penPath s
    /\ Canvas.canvasSize s' = Canvas.canvasSize s.
Proof.
  intros Hed Htool Hdraw Hstart. cbn zeta. intros Habove.
  destruct (CanvasFacts.shape_tool_is_not_brush_or_select _ Htool)
    as [Hb Hs].
  unfold Canvas.handleMouseUp.
  rewrite Hed, Hb, Hs, Hstart, Hdraw, Htool. cbn [andb].
  assert (Hsel : match Canvas.selectionBox s with
                 | Some _ => Some [] | None => Some []
                 end = Some (@nil Canvas.Call))
    by (now destruct (Canvas.selectionBox s)).
  rewrite Hsel. cbn [bind app].
  do 2 eexists. split; [reflexivity|].
  unfold Canvas.drawnShape. rewrite Habove.
  destruct (Canvas.tool props); try discriminate Htool;
    conj_split; try reflexivity;
    try (intros H; discriminate H);
    try (intros [H | H]; discriminate H);
    try (intros _; eexists; conj_split; reflexivity);
    try (intros _; do 2 eexists; conj_split; reflexivity);
    try (intros obj [H | []]; injection H as <-; conj_split; reflexivity);
    try (intros obj []).
Qed.

Lemma shape_tools_and_what_they_add_witness :
  let ellipseProps := App.canvasProps (Samples.document [] [] Tool.ellipse) in
  let polygonProps := App.canvasProps (Samples.document [] [] Tool.polygon) in
  let s :=
    Canvas.setDrawingStart (Some (Point.mk 0 0))
      (Canvas.setIsDrawing true Samples.mounted) in
  (exists obj s',
     Canvas.handleMouseUp (fun a => a) (fun a => a) ellipseProps s
       (Samples.mouse 140 120)
     = Some ([Canvas.AddObject obj], s')
     /\ CanvasObject.type obj = "circle"
     /\ CanvasObject.props obj = Props.circle 10)
  /\ (exists s',
        Canvas.handleMouseUp (fun a => a) (fun a => a) polygonProps s
          (Samples.mouse 140 120)
        = Some ([], s')).
Proof.
  cbn zeta.
  set (s := Canvas.setDrawingStart (Some (Point.mk 0 0))
              (Canvas.setIsDrawing true Samples.mounted)).
  split.
  - destruct (shape_tools_and_what_they_add (fun a => a) (fun a => a)
                (App.canvasProps (Samples.document [] [] Tool.ellipse))
                s (Samples.mouse 140 120) (Point.mk 0 0)
                eq_refl eq_refl eq_refl eq_refl eq_refl)
      as (calls & s' & Hup & _ & Hcircle & _).
    destruct (Hcircle (or_intror eq_refl))
      as (obj & -> & Hty & Hprops & _).
    exists obj, s'. conj_split; [exact Hup | exact Hty |].
    rewrite Hprops. vm_compute. reflexivity.
  - destruct (shape_tools_and_what_they_add (fun a => a) (fun a => a)
                (App.canvasProps (Samples.document [] [] Tool.polygon))
                s (Samples.mouse 140 120) (Point.mk 0 0)
                eq_refl eq_refl eq_refl eq_refl eq_refl)
      as (calls & s' & Hup & Hpoly & _).
    rewrite (Hpoly eq_refl) in Hup. exists s'. exact Hup.
Defined.

(** X19: Leaving the pen, the brush or the curve tool with two points or more
    pending adds them as one open path (a curve for the curve tool) and
    clears them; with fewer points pending nothing is added and nothing
    is cleared, so a single pending point is still there, and the tool
    still counts as drawing, when the tool is picked again. *)
Theorem tool_switch_finishes_a_pending_drawing
    (trim : string -> string) (prevTool : Tool.t)
    (props : Canvas.CanvasProps) (s : Canvas.State) :
  Canvas.isTool prevTool (Canvas.tool props) = false ->
  let pending :=
    match prevTool with
    | Tool.pen => Some (Canvas.penPath s)
    | Tool.brush => Some (Canvas.brushStrokes s)
    | Tool.curve => Some (Canvas.curvePoints s)
    | _ => None
    end in
  forall points, pending = Some points ->
  let r := Canvas.toolChangeEffect trim prevTool props s in
  snd r = Canvas.tool props
  /\ (List.length points < 2 -> fst r = ([], s))
  /\ (2 <= List.length points ->
      exists obj,
        fst (fst r) = [Canvas.AddObject obj]
        /\ CanvasObject.type obj
           = match prevTool with Tool.curve => "curve" | _ => "path" end
        /\ Props.points (CanvasObject.props obj) = Some points
        /\ Props.closed (CanvasObject.props obj) = Some false
        /\ StyleProperties.fill (CanvasObject.style obj) = "none"
        /\ CanvasObject.transform obj = Canvas.unit_transform 0 0
        /\ match prevTool with
           | Tool.pen =>
               Canvas.penPath (snd (fst r)) = []
               /\ Canvas.isDrawingPath (snd (fst r)) = false
               /\ StyleProperties.stroke (CanvasObject.style obj)
                  = Canvas.pen_color (Canvas.penSettings s)
               /\ StyleProperties.strokeWidth (CanvasObject.style obj)
                  = Canvas.pen_width (Canvas.penSettings s)
           | Tool.brush =>
               Canvas.brushStrokes (snd (fst r)) = []
               /\ Canvas.isBrushing (snd (fst r)) = false
               /\ StyleProperties.stroke (CanvasObject.style obj)
                  = Canvas.brush_color (Canvas.brushSettings s)
               /\ StyleProperties.strokeWidth (CanvasObject.style obj)
                  = Canvas.brush_size (Canvas.brushSettings s)
           | _ =>
               Canvas.curvePoints (snd (fst r)) = []
               /\ Canvas.isDrawingCurve (snd (fst r)) = false
               /\ StyleProperties.stroke (CanvasObject.style obj) = "#3B82F6"
               /\ StyleProperties.strokeWidth (CanvasObject.style obj)
                  = 2%float
           end).
Proof.
  intros Hchange. cbn zeta. intros points Hpending.
  unfold Canvas.toolChangeEffect. rewrite Hchange. cbn [negb].
  destruct prevTool; try discriminate Hpending;
    injection Hpending as <-; cbn [Canvas.isTool andb].
  - (* pen *)
    destruct (Nat.ltb 1 (List.length (Canvas.penPath s))) eqn:E.
    + apply Nat.ltb_lt in E. unfold Canvas.finishPenPath.
      rewrite (proj2 (Nat.ltb_lt _ _) E). cbn [fst snd app].
      conj_split; [reflexivity | intros H; lia |].
      intros _. eexists. conj_split; reflexivity.
    + apply Nat.ltb_ge in E. cbn [fst snd app].
      conj_split; [reflexivity | reflexivity | intros H; lia].
  - (* curve *)
    destruct (Nat.ltb 1 (List.length (Canvas.curvePoints s))) eqn:E.
    + apply Nat.ltb_lt in E. unfold Canvas.finishCurve.
      rewrite (proj2 (Nat.ltb_lt _ _) E). cbn [fst snd app].
      conj_split; [reflexivity | intros H; lia |].
      intros _. eexists. conj_split; reflexivity.
    + apply Nat.ltb_ge in E. cbn [fst snd app].
      conj_split; [reflexivity | reflexivity | intros H; lia].
  - (* brush *)
    destruct (Nat.ltb 1 (List.length (Canvas.brushStrokes s))) eqn:E.
    + apply Nat.ltb_lt in E. unfold Canvas.finishBrushStroke.
      rewrite (proj2 (Nat.ltb_lt _ _) E). cbn [fst snd app].
      conj_split; [reflexivity | intros H; lia |].
      intros _. eexists. conj_split; reflexivity.
    + apply Nat.ltb_ge in E. cbn [fst snd app].
      conj_split; [reflexivity | reflexivity | intros H; lia].
Qed.

Lemma tool_switch_finishes_a_pending_drawing_witness :
  let props := App.canvasProps (Samples.document [] [] Tool.select) in
  let one := Canvas.setIsDrawingPath true
               (Canvas.setPenPath [Point.mk 1 1] Samples.mounted) in
  let two := Canvas.setIsDrawingPath true
               (Canvas.setPenPath [Point.mk 1 1; Point.mk 9 9]
                                  Samples.mounted) in
  fst (Canvas.toolChangeEffect (fun t => t) Tool.pen props one) = ([], one)
  /\ exists obj,
       fst (fst (Canvas.toolChangeEffect (fun t => t) Tool.pen props two))
       = [Canvas.AddObject obj]
       /\ Props.points (CanvasObject.props obj)
          = Some [Point.mk 1 1; Point.mk 9 9].
Proof.
  cbn zeta. split.
  - apply (tool_switch_finishes_a_pending_drawing (fun t => t) Tool.pen
             (App.canvasProps (Samples.document [] [] Tool.select))
             (Canvas.setIsDrawingPath true
                (Canvas.setPenPath [Point.mk 1 1] Samples.mounted))
             eq_refl [Point.mk 1 1] eq_refl).
    simpl. lia.
  - destruct (tool_switch_finishes_a_pending_drawing (fun t => t) Tool.pen
                (App.canvasProps (Samples.document [] [] Tool.select))
                (Canvas.setIsDrawingPath true
                   (Canvas.setPenPath [Point.mk 1 1; Point.mk 9 9]
                                      Samples.mounted))
                eq_refl [Point.mk 1 1; Point.mk 9 9] eq_refl)
      as (_ & _ & Hadd).
    destruct (Hadd ltac:(simpl; lia)) as (obj & Hcalls & _ & Hpts & _).
    exists obj. split; [exact Hcalls | exact Hpts].
Defined.

End GestureFacts.

(** ** Style changes from the properties panel *)

Module StyleFacts.
Import HistoryState CanvasState UseCanvas ObjectModelSpec Samples.
Import PropertiesPanel.

(** C3 on the code.  [updateStyle] calls [onUpdateObject] once for each
    selected object, each time with that object's style in which the one
    field is replaced, so every other style field is kept.  But all these
    calls start from the state the render captured, and each present they
    set replaces the one before: when the selection ends with [last], the
    stacks are as they were and the present is the captured one in which
    the objects of [last]'s id alone have the new style; an object
    selected before [last] under another id is still in the document as
    it was.  With the squares [obj-1] and [obj-2] selected and opacity
    0.5, two calls are made and only [obj-2] gets the opacity: [obj-1]
    keeps 1. *)
Theorem updateStyle_restyles_only_the_last_selected :
  (forall (h : App.Hook) (before : list CanvasObject.t)
          (last : CanvasObject.t) (c : StyleChange),
     let old := present (App.history h) in
     App.selectedObjects old = before ++ [last] ->
     let h' := App.history (App.updateStyle c h) in
     let restyle :=
       fun o => if String.eqb (CanvasObject.id o) (CanvasObject.id last)
                then restyled o (withStyle (CanvasObject.style last) c)
                else o in
     past h' = past (App.history h)
     /\ future h' = future (App.history h)
     /\ layers (present h') = mapObjects restyle (layers old)
     /\ App.allObjects (present h') = map restyle (App.allObjects old)
     /\ activeLayerId (present h') = activeLayerId old
     /\ selectedObjectIds (present h') = selectedObjectIds old
     /\ zoom (present h') = zoom old /\ pan (present h') = pan old
     /\ tool (present h') = tool old
     /\ canvasSize (present h') = canvasSize old
     /\ (forall o, In o before ->
                   CanvasObject.id o <> CanvasObject.id last ->
                   In o (App.allObjects (present h'))))
  /\ (let A := square "obj-1" 0 0 (Some (Some blueToNavy)) in
      let B := square "obj-2" 200 0 (Some None) in
      let D := document [A; B] ["obj-1"; "obj-2"] Tool.select in
      let D' :=
        present (App.history (App.updateStyle (opacity 0.5) (session D))) in
      App.selectedObjects D = [A; B]
      /\ map fst (PropertiesPanel.updateStyle [A; B] (opacity 0.5))
         = ["obj-1"; "obj-2"]
      /\ App.allObjects D'
         = [ A; restyled B (withStyle (CanvasObject.style B) (opacity 0.5)) ]
      /\ map (fun o => StyleProperties.opacity (CanvasObject.style o))
             (App.allObjects D')
         = [1; 0.5]%float).
Proof.
  split; [|cbn zeta; conj_split; vm_compute; reflexivity].
  intros h before last c old Hsel h' restyle.
  assert (Hh : h' = updateObject old (CanvasObject.id last)
                      (PartialObject.of_style
                         (withStyle (CanvasObject.style last) c))
                      (App.history h)).
  { unfold h', App.updateStyle. fold old. rewrite Hsel.
    unfold PropertiesPanel.updateStyle. rewrite map_app. cbn [map].
    now rewrite ObjectFacts.last_update_wins. }
  assert (Hlayers : layers (present h') = mapObjects restyle (layers old)).
  { rewrite Hh. unfold updateObject, setPresent, mapObjects.
    cbn [present withLayers layers].
    apply map_ext. intros layer. f_equal. apply map_ext. intros o.
    unfold restyle.
    destruct (String.eqb (CanvasObject.id o) (CanvasObject.id last));
      [apply ObjectFacts.spreadObject_of_style | reflexivity]. }
  assert (Hall : App.allObjects (present h')
                 = map restyle (App.allObjects old)).
  { rewrite <- (GestureFacts.allObjects_map restyle old).
    unfold App.allObjects. rewrite Hlayers. reflexivity. }
  conj_split; try (rewrite Hh; reflexivity); try assumption.
  intros o Hin Hid. rewrite Hall.
  assert (Hdoc : In o (App.allObjects old)).
  { assert (Hs : In o (App.selectedObjects old)).
    { rewrite Hsel. apply in_or_app. now left. }
    unfold App.selectedObjects in Hs. apply filter_In in Hs.
    now destruct Hs. }
  apply in_map_iff. exists o. split; [|exact Hdoc].
  unfold restyle. apply String.eqb_neq in Hid. now rewrite Hid.
Qed.

Lemma updateStyle_restyles_only_the_last_selected_witness :
  let A := square "obj-1" 0 0 (Some (Some blueToNavy)) in
  let B := square "obj-2" 200 0 (Some None) in
  let C := square "obj-3" 400 0 None in
  let D := document [A; B; C] ["obj-3"; "obj-1"] Tool.select in
  let D' :=
    present (App.history (App.updateStyle (fill "#FF0000") (session D))) in
  App.selectedObjects D = [A; C]
  /\ App.allObjects D'
     = [ A; B; restyled C (withStyle (CanvasObject.style C)
                                     (fill "#FF0000")) ]
  /\ In A (App.allObjects D')
  /\ selectedObjectIds D' = ["obj-3"; "obj-1"].
Proof.
  cbn zeta.
  destruct updateStyle_restyles_only_the_last_selected as [H _].
  destruct (H (session
                 (document [square "obj-1" 0 0 (Some (Some blueToNavy));
                            square "obj-2" 200 0 (Some None);
                            square "obj-3" 400 0 None]
                           ["obj-3"; "obj-1"] Tool.select))
              [square "obj-1" 0 0 (Some (Some blueToNavy))]
              (square "obj-3" 400 0 None) (fill "#FF0000") eq_refl)
    as (_ & _ & _ & Hall & _ & Hsel & _ & _ & _ & _ & Hkept).
  conj_split.
  - reflexivity.
  - rewrite Hall. reflexivity.
  - apply Hkept; [now left | discriminate].
  - exact Hsel.
Defined.

End StyleFacts.

(** ** Bounding boxes *)

Module GeometryFacts.
Import Placement.

(** X20: [getBoundingBox] does not read the rotation: an object turned to any
    angle has the box it had.  It does not read the scale of a line, a
    path, a curve or a text either.  It throws for exactly one kind of
    object, a path or curve that has no [points]; an object of a type it
    does not know gets a box of 100 by 100 at its position. *)
Theorem getBoundingBox_ignores_rotation
    (obj : CanvasObject.t) (r sx sy : float) :
  Geometry.getBoundingBox (turned r obj) = Geometry.getBoundingBox obj
  /\ (In (CanvasObject.type obj) ["line"; "path"; "curve"; "text"] ->
      Geometry.getBoundingBox (scaled sx sy obj)
      = Geometry.getBoundingBox obj)
  /\ (Geometry.getBoundingBox obj = None <->
      In (CanvasObject.type obj) ["path"; "curve"]
      /\ Props.points (CanvasObject.props obj) = None)
  /\ (~ In (CanvasObject.type obj)
           ["rect"; "circle"; "line"; "path"; "curve"; "text"; "image"] ->
      Geometry.getBoundingBox obj
      = Some {| BoundingBox.x := Transform.x (CanvasObject.transform obj);
                BoundingBox.y := Transform.y (CanvasObject.transform obj);
                BoundingBox.width := 100;
                BoundingBox.height := 100 |}).
Proof.
  conj_split.
  - reflexivity.
  - intros Hin. cbn [In] in Hin.
    destruct Hin as [H | [H | [H | [H | []]]]];
      unfold Geometry.getBoundingBox; cbn [scaled CanvasObject.type];
      rewrite <- H; reflexivity.
  - unfold Geometry.getBoundingBox. split.
    + intros H.
      destruct (String.eqb (CanvasObject.type obj) "rect");
        [discriminate H|].
      destruct (String.eqb (CanvasObject.type obj) "circle");
        [discriminate H|].
      destruct (String.eqb (CanvasObject.type obj) "line");
        [discriminate H|].
      destruct (String.eqb (CanvasObject.type obj) "path") eqn:Ep;
        [|destruct (String.eqb (CanvasObject.type obj) "curve") eqn:Ec];
        cbn [orb] in H.
      * apply String.eqb_eq in Ep. split; [left; now symmetry|].
        destruct (Props.points (CanvasObject.props obj)) as [pts|];
          [|reflexivity].
        cbn [Throwing.bind] in H. destruct (Nat.eqb _ 0); discriminate H.
      * apply String.eqb_eq in Ec. split; [right; left; now symmetry|].
        destruct (Props.points (CanvasObject.props obj)) as [pts|];
          [|reflexivity].
        cbn [Throwing.bind] in H. destruct (Nat.eqb _ 0); discriminate H.
      * destruct (String.eqb (CanvasObject.type obj) "text");
          [discriminate H|].
        destruct (String.eqb (CanvasObject.type obj) "image");
          discriminate H.
    + intros [Hin Hpts]. cbn [In] in Hin.
      destruct Hin as [H | [H | []]]; rewrite <- H, Hpts; reflexivity.
  - intros Hnot. unfold Geometry.getBoundingBox.
    repeat match goal with
    | |- context [String.eqb (CanvasObject.type obj) ?t] =>
        let E := fresh "E" in
        destruct (String.eqb (CanvasObject.type obj) t) eqn:E;
        [apply String.eqb_eq in E; exfalso; apply Hnot; rewrite E;
         cbn [In]; tauto|]
    end.
    reflexivity.
Qed.

Lemma getBoundingBox_ignores_rotation_witness :
  Geometry.getBoundingBox (scaled 3 3 (Canvas.shapeObject "line"
                             (Canvas.unit_transform 0 0) Canvas.lineStyle
                             (Props.line 0 0 10 10)))
  = Geometry.getBoundingBox (Canvas.shapeObject "line"
                               (Canvas.unit_transform 0 0) Canvas.lineStyle
                               (Props.line 0 0 10 10))
  /\ Geometry.getBoundingBox (Canvas.shapeObject "path"
                               (Canvas.unit_transform 0 0) Canvas.baseStyle
                               Props.none) = None
  /\ Geometry.getBoundingBox (Canvas.shapeObject "ellipse"
                               (Canvas.unit_transform 7 8) Canvas.baseStyle
                               Props.none)
     = Some (BoundingBox.mk 7 8 100 100).
Proof.
  conj_split.
  - apply (getBoundingBox_ignores_rotation
             (Canvas.shapeObject "line" (Canvas.unit_transform 0 0)
                Canvas.lineStyle (Props.line 0 0 10 10)) 0 3 3).
    simpl. tauto.
  - apply (getBoundingBox_ignores_rotation
             (Canvas.shapeObject "path" (Canvas.unit_transform 0 0)
                Canvas.baseStyle Props.none) 0 1 1).
    split; [simpl; tauto | reflexivity].
  - apply (getBoundingBox_ignores_rotation
             (Canvas.shapeObject "ellipse" (Canvas.unit_transform 7 8)
                Canvas.baseStyle Props.none) 0 1 1).
    simpl. intuition discriminate.
Defined.

End GeometryFacts.

(** ** The gradient editor *)

Module GradientFacts.
Import PropertiesPanel.










End GradientFacts.

(** ** Objects added in one handler, loaded documents, new layers *)

Module ImportFacts.
Import HistoryState CanvasState UseCanvas Sessions Hook HistoryFacts.

Lemma addObject_commits (state : CanvasState.t) (n : nat)
    (obj : CanvasObject.t) (h : HistoryState.t) :
  activeLayerExists state ->
  snd (addObject state n obj) h = pushToHistory (withNew n obj state) h.
Proof.
  intros Hact. apply DocumentFacts.find_active in Hact.
  unfold withNew, addObject.
  destruct (find _ (layers state)); [reflexivity | now elim Hact].
Qed.

Lemma withNew_objects (state : CanvasState.t) (n : nat)
    (obj : CanvasObject.t) :
  activeLayerExists state ->
  NoDup (map Layer.id (layers state)) ->
  Permutation (App.allObjects (withNew n obj state))
              (numberedObject n obj :: App.allObjects state).
Proof.
  intros Hact ND. pose proof Hact as Hfind.
  apply DocumentFacts.find_active in Hfind.
  unfold withNew, addObject.
  destruct (find _ (layers state)); [|now elim Hfind].
  unfold App.allObjects, pushToHistory. cbn [snd present layers].
  now apply DocumentFacts.allObjects_after_add.
Qed.

(** A handler that calls [onAddObject] for each of [objs], all with the
    callback of one render. *)
Lemma adds_count (state : CanvasState.t) (objs : list CanvasObject.t)
    (hk : App.Hook) :
  App.nextObjectId
    (fold_left (App.dispatch state) (map Canvas.AddObject objs) hk)
  = App.nextObjectId hk + List.length objs.
Proof.
  revert hk. induction objs as [|o objs IH]; intros hk;
    cbn [map fold_left List.length]; [lia|].
  rewrite IH. unfold App.dispatch.
  destruct (addObject state (App.nextObjectId hk) o) as [n f] eqn:E.
  cbn [App.nextObjectId].
  pose proof (DocumentFacts.addObject_result state (App.nextObjectId hk) o)
    as Hn.
  rewrite E in Hn. cbn [fst] in Hn. lia.
Qed.

Lemma adds_last (state : CanvasState.t) (objs : list CanvasObject.t)
    (last : CanvasObject.t) (hk : App.Hook) :
  activeLayerExists state ->
  App.history
    (fold_left (App.dispatch state) (map Canvas.AddObject (objs ++ [last]))
               hk)
  = pushToHistory
      (withNew (App.nextObjectId hk + List.length objs) last state)
      (App.history
         (fold_left (App.dispatch state) (map Canvas.AddObject objs) hk)).
Proof.
  intros Hact. rewrite map_app, fold_left_app. cbn [map fold_left].
  set (mid := fold_left _ (map Canvas.AddObject objs) hk).
  assert (Hn : App.nextObjectId mid
               = App.nextObjectId hk + List.length objs)
    by apply adds_count.
  unfold App.dispatch.
  destruct (addObject state (App.nextObjectId mid) last) as [n f] eqn:E.
  cbn [App.history].
  pose proof (addObject_commits state (App.nextObjectId mid) last
                (App.history mid) Hact) as Hc.
  rewrite E in Hc. cbn [snd] in Hc. rewrite Hc, Hn. reflexivity.
Qed.

(** X22: A handler that adds several objects at once, as the SVG import does,
    calls [addObject] with the state of one render each time: every call
    takes a new number and commits that state plus ITS object.  So the
    present ends with the last object only (one object more than before,
    not one per call), and one undo shows the state with the last but one
    alone. *)
Theorem objects_added_at_once_replace_each_other
    (hk : App.Hook) (objs : list CanvasObject.t) (last : CanvasObject.t) :
  let D := present (App.history hk) in
  let n := App.nextObjectId hk in
  activeLayerExists D ->
  let hk' := App.handle (map Canvas.AddObject (objs ++ [last])) hk in
  App.nextObjectId hk' = n + List.length objs + 1
  /\ present (App.history hk') = withNew (n + List.length objs) last D
  /\ future (App.history hk') = []
  /\ selectedObjectIds (present (App.history hk'))
     = [objectId (n + List.length objs)]
  /\ (NoDup (map Layer.id (layers D)) ->
      Permutation
        (App.allObjects (present (App.history hk')))
        (numberedObject (n + List.length objs) last :: App.allObjects D))
  /\ (forall objs' prev,
        objs = objs' ++ [prev] ->
        present (undo (App.history hk'))
        = withNew (n + List.length objs') prev D).
Proof.
  cbn zeta. intros Hact. unfold App.handle.
  set (D := present (App.history hk)) in *.
  rewrite (adds_last D objs last hk Hact).
  conj_split.
  - rewrite adds_count, length_app. cbn [List.length]. lia.
  - reflexivity.
  - reflexivity.
  - cbn [pushToHistory present]. unfold withNew, addObject.
    pose proof Hact as Hfind. apply DocumentFacts.find_active in Hfind.
    destruct (find _ (layers D)); [reflexivity | now elim Hfind].
  - intros ND. cbn [pushToHistory present]. now apply withNew_objects.
  - intros objs' prev ->.
    rewrite (adds_last D objs' prev hk Hact).
    unfold pushToHistory at 1. rewrite undo_snoc. reflexivity.
Qed.

Lemma objects_added_at_once_replace_each_other_witness :
  let D := Samples.document [] [] Tool.select in
  let hk' :=
    App.handle [Canvas.AddObject Samples.tall; Canvas.AddObject Samples.wide]
               (Samples.session D) in
  App.nextObjectId hk' = 3
  /\ App.allObjects (present (App.history hk'))
     = [numberedObject 2 Samples.wide]
  /\ App.allObjects (present (undo (App.history hk')))
     = [numberedObject 1 Samples.tall].
Proof.
  cbn zeta.
  destruct (objects_added_at_once_replace_each_other
              (Samples.session (Samples.document [] [] Tool.select))
              [Samples.tall] Samples.wide)
    as (Hn & Hp & _ & _ & _ & Hu).
  - simpl. now left.
  - conj_split.
    + exact Hn.
    + change (map Canvas.AddObject ([Samples.tall] ++ [Samples.wide]))
        with [Canvas.AddObject Samples.tall; Canvas.AddObject Samples.wide]
        in Hp.
      rewrite Hp. reflexivity.
    + change (map Canvas.AddObject ([Samples.tall] ++ [Samples.wide]))
        with [Canvas.AddObject Samples.tall; Canvas.AddObject Samples.wide]
        in Hu.
      rewrite (Hu [] Samples.tall eq_refl). reflexivity.
Defined.

Lemma handle_one_add (hk : App.Hook) (obj : CanvasObject.t) :
  activeLayerExists (present (App.history hk)) ->
  present (App.history (App.handle [Canvas.AddObject obj] hk))
  = withNew (App.nextObjectId hk) obj (present (App.history hk))
  /\ selectedObjectIds
       (present (App.history (App.handle [Canvas.AddObject obj] hk)))
     = [objectId (App.nextObjectId hk)].
Proof.
  intros Hact. unfold App.handle.
  pose proof (adds_last (present (App.history hk)) [] obj hk Hact) as H.
  cbn [app List.length map] in H. rewrite Nat.add_0_r in H.
  rewrite H. cbn [pushToHistory present]. split; [reflexivity|].
  unfold withNew, addObject.
  pose proof Hact as Hfind. apply DocumentFacts.find_active in Hfind.
  destruct (find _ (layers (present (App.history hk))));
    [reflexivity | now elim Hfind].
Qed.

(** X23: [loadProject] makes the first layer of the file the active one (the
    file holds no active layer id) and does not reset the object counter:
    when the loaded document holds an object whose id is the next id
    [addObject] issues, the object drawn next gets that same id, and two
    objects of the document share it. *)
Theorem loading_keeps_the_object_counter
    (hk : App.Hook) (file : list Layer.t) (size : option Size.t)
    (first : Layer.t) (rest : list Layer.t) (o obj : CanvasObject.t) :
  file = first :: rest ->
  Layer.id first <> "" ->
  NoDup (map Layer.id file) ->
  In o (flat_map Layer.objects file) ->
  CanvasObject.id o = objectId (App.nextObjectId hk) ->
  let hk1 := App.onLoadProject (Data (Some file) None size) hk in
  let hk2 := App.handle [Canvas.AddObject obj] hk1 in
  let D2 := present (App.history hk2) in
  App.nextObjectId hk1 = App.nextObjectId hk
  /\ layers (present (App.history hk1)) = file
  /\ activeLayerId (present (App.history hk1)) = Layer.id first
  /\ Permutation (App.allObjects D2)
       (numberedObject (App.nextObjectId hk) obj
        :: flat_map Layer.objects file)
  /\ ~ NoDup (map CanvasObject.id (App.allObjects D2))
  /\ selectedObjectIds D2 = [CanvasObject.id o].
Proof.
  intros Hfile Hid ND Hin Ho. cbn zeta.
  set (hk1 := App.onLoadProject (Data (Some file) None size) hk).
  assert (Hl : layers (present (App.history hk1)) = file) by reflexivity.
  assert (Ha : activeLayerId (present (App.history hk1)) = Layer.id first).
  { subst file. unfold hk1, App.onLoadProject, loadProject, loadedState.
    cbn [App.history present activeLayerId JS.or_string].
    unfold JS.truthy_string.
    destruct (String.eqb (Layer.id first) "") eqn:E;
      [apply String.eqb_eq in E; now elim Hid | reflexivity]. }
  assert (Hact : activeLayerExists (present (App.history hk1))).
  { unfold activeLayerExists. rewrite Ha, Hl, Hfile. now left. }
  destruct (handle_one_add hk1 obj Hact) as (Hp & Hsel).
  assert (Hperm :
    Permutation
      (App.allObjects (present (App.history
                                  (App.handle [Canvas.AddObject obj] hk1))))
      (numberedObject (App.nextObjectId hk) obj
       :: flat_map Layer.objects file)).
  { rewrite Hp.
    change (flat_map Layer.objects file)
      with (App.allObjects (present (App.history hk1))).
    apply (withNew_objects (present (App.history hk1))
             (App.nextObjectId hk) obj Hact).
    now rewrite Hl. }
  conj_split.
  - reflexivity.
  - exact Hl.
  - exact Ha.
  - exact Hperm.
  - intros NDo.
    apply (Permutation_NoDup (Permutation_map CanvasObject.id Hperm)) in NDo.
    cbn [map] in NDo. inversion NDo as [|x xs Hnot _]; subst.
    apply Hnot. cbn [numberedObject CanvasObject.id]. rewrite <- Ho.
    now apply in_map.
  - rewrite Hsel, Ho. reflexivity.
Qed.


Lemma loading_keeps_the_object_counter_witness :
  let file := layers (Samples.document [Samples.tall] [] Tool.select) in
  let hk1 := App.onLoadProject (Data (Some file) None None) App.initialHook in
  let hk2 := App.handle [Canvas.AddObject Samples.wide] hk1 in
  map CanvasObject.id (App.allObjects (present (App.history hk2)))
  = ["obj-1"; "obj-1"]
  /\ ~ NoDup (map CanvasObject.id
                (App.allObjects (present (App.history hk2)))).
Proof.
  cbn zeta. split; [reflexivity|].
  apply (loading_keeps_the_object_counter App.initialHook
           (layers (Samples.document [Samples.tall] [] Tool.select)) None
           _ [] Samples.tall Samples.wide eq_refl).
  - discriminate.
  - simpl. constructor; [intros [] | constructor].
  - simpl. now left.
  - reflexivity.
Defined.

(** X24: [addLayer] commits the document with one more layer on top: empty,
    visible, unlocked, named after the new count, and active; the objects
    and the selection stay.  When its id is new among the layers, the
    layer ids stay distinct and the object drawn next becomes the only
    object of the new layer, above all others. *)
Theorem addLayer_activates_the_new_layer
    (state : CanvasState.t) (now : string) (h : HistoryState.t)
    (n : nat) (obj : CanvasObject.t) :
  let new :=
    {| Layer.id := "layer-" ++ now;
       Layer.name :=
         "Layer " ++ JS.nat_to_string (List.length (layers state) + 1);
       Layer.visible := true; Layer.locked := false;
       Layer.objects := [] |} in
  let h1 := addLayer state now h in
  let D1 := present h1 in
  h1 = pushToHistory D1 h
  /\ layers D1 = layers state ++ [new]
  /\ activeLayerId D1 = Layer.id new
  /\ activeLayerExists D1
  /\ App.allObjects D1 = App.allObjects state
  /\ selectedObjectIds D1 = selectedObjectIds state
  /\ (~ In (Layer.id new) (map Layer.id (layers state)) ->
      (NoDup (map Layer.id (layers state)) ->
       NoDup (map Layer.id (layers D1)))
      /\ layers (withNew n obj D1)
         = layers state ++ [withObjects new [numberedObject n obj]]
      /\ App.allObjects (withNew n obj D1)
         = App.allObjects state ++ [numberedObject n obj]).
Proof.
  cbn zeta. conj_split; try reflexivity.
  - unfold activeLayerExists, addLayer, pushToHistory.
    cbn [present activeLayerId layers]. rewrite map_app.
    apply in_or_app. right. now left.
  - unfold App.allObjects, addLayer, pushToHistory. cbn [present layers].
    rewrite flat_map_app. cbn [flat_map Layer.objects].
    now rewrite !app_nil_r.
  - intros Hnew.
    assert (Hlayers :
      layers (withNew n obj (present (addLayer state now h)))
      = layers state
        ++ [withObjects
              {| Layer.id := "layer-" ++ now;
                 Layer.name :=
                   "Layer "
                   ++ JS.nat_to_string (List.length (layers state) + 1);
                 Layer.visible := true; Layer.locked := false;
                 Layer.objects := [] |} [numberedObject n obj]]).
    { unfold withNew, addObject, addLayer, pushToHistory.
      cbn [present activeLayerId layers Layer.id].
      destruct (find _ (layers state ++ _)) eqn:E.
      - cbn [snd present layers]. rewrite map_app.
        rewrite (DocumentFacts.append_elsewhere _ _ _ Hnew).
        cbn [map Layer.id]. rewrite String.eqb_refl. reflexivity.
      - exfalso. revert E. apply DocumentFacts.find_active.
        rewrite map_app. apply in_or_app. right. now left. }
    conj_split.
    + intros ND. unfold addLayer, pushToHistory. cbn [present layers].
      rewrite map_app. cbn [map Layer.id].
      apply NoDup_app; [exact ND | constructor; [intros [] | constructor] |].
      intros x Hx [<- | []]. now apply Hnew.
    + exact Hlayers.
    + unfold App.allObjects. rewrite Hlayers, flat_map_app.
      cbn [flat_map withObjects Layer.objects]. now rewrite app_nil_r.
Qed.

Lemma addLayer_activates_the_new_layer_witness :
  let D := Samples.document [Samples.tall] [] Tool.select in
  let D1 := present (addLayer D "1700000000000" initialHistory) in
  map Layer.id (layers (withNew 2 Samples.wide D1))
  = ["layer-1"; "layer-1700000000000"]
  /\ App.allObjects (withNew 2 Samples.wide D1)
     = [Samples.tall; numberedObject 2 Samples.wide].
Proof.
  cbn zeta.
  destruct (addLayer_activates_the_new_layer
              (Samples.document [Samples.tall] [] Tool.select)
              "1700000000000" initialHistory 2 Samples.wide)
    as (_ & _ & _ & _ & _ & _ & H).
  destruct H as (_ & Hl & Hobjs).
  - simpl. intros [H | []]. discriminate H.
  - split; [rewrite Hl; reflexivity | exact Hobjs].
Defined.

End ImportFacts.

(** ** Shape gestures, from the press to the commit *)

Module ShapeFacts.
Import HistoryState CanvasState UseCanvas Hook Throwing Samples.

(** One [onAddObject] call on a hook whose present has its active layer:
    the history the hook holds afterwards. *)
Lemma add_call_commits (hk : App.Hook) (obj : CanvasObject.t) :
  let D := present (App.history hk) in
  let newObject := numberedObject (App.nextObjectId hk) obj in
  let after := App.history (App.handle [Canvas.AddObject obj] hk) in
  activeLayerExists D ->
  past after = JS.slice_last 50 (past (App.history hk)) ++ [D]
  /\ future after = []
  /\ layers (present after)
     = map (fun layer =>
              if String.eqb (Layer.id layer) (activeLayerId D)
              then withObjects layer (Layer.objects layer ++ [newObject])
              else layer)
           (layers D)
  /\ selectedObjectIds (present after) = [objectId (App.nextObjectId hk)]
  /\ (NoDup (map Layer.id (layers D)) ->
      Permutation (App.allObjects (present after))
                  (newObject :: App.allObjects D)).
Proof.
  cbn zeta. intros Hact. pose proof Hact as Hfind.
  apply DocumentFacts.find_active in Hfind.
  unfold App.handle. cbn [fold_left]. unfold App.dispatch, addObject.
  destruct (find _ (layers (present (App.history hk)))); [|now elim Hfind].
  cbn [App.history]. unfold pushToHistory.
  cbn [past present future layers selectedObjectIds CanvasObject.id].
  conj_split; try reflexivity.
  intros ND. unfold App.allObjects. cbn [layers].
  now apply DocumentFacts.allObjects_after_add.
Qed.

(** C6: with the rect tool, pressing at canvas point (0,0) and releasing
    at (3,3) calls nothing, and the history is as it was: no object in the
    document, no undo step.  Releasing at (10,10) calls [onAddObject]
    once, after which the present holds exactly one object, a rect of
    width 10 and height 10 with the id [obj-1], which is selected, and the
    empty document is the one undo step.  In general a mouse-up that ends
    a shape gesture makes no call when neither [|dx| > 5] nor [|dy| > 5],
    so that every hook is left as it was; any call it makes is one
    [onAddObject] made above that threshold, after which a hook whose
    active layer exists holds the old present as its last undo step and a
    present in which the active layer ends with the new object and no
    other layer has changed; the rect tool then always adds a rect of
    width [|dx|] and height [|dy|]. *)
Theorem shape_gesture_threshold (Math_cos Math_sin : float -> float) :
  let D := document [] [] Tool.rect in
  let props := App.canvasProps D in
  let rect10 :=
    {| CanvasObject.id := "obj-1";
       CanvasObject.type := "rect";
       CanvasObject.transform := Canvas.unit_transform 0 0;
       CanvasObject.style := Canvas.baseStyle;
       CanvasObject.visible := true;
       CanvasObject.locked := false;
       CanvasObject.selected := false;
       CanvasObject.props := Props.rect 10 10 |} in
  (exists s1 s2,
     Canvas.handleMouseDown props mounted (mouse 100 100) = Some ([], s1)
     /\ Canvas.drawingStart s1 = Some (Point.mk 0 0)
     /\ Canvas.getCanvasPoint props s1 103 103 = Point.mk 3 3
     /\ Canvas.handleMouseUp Math_cos Math_sin props s1 (mouse 103 103)
        = Some ([], s2)
     /\ let after := App.history (App.handle [] (session D)) in
        past after = [] /\ present after = D /\ future after = []
        /\ App.allObjects (present after) = [])
  /\ (exists s1 s2 obj,
        Canvas.handleMouseDown props mounted (mouse 100 100) = Some ([], s1)
        /\ Canvas.getCanvasPoint props s1 110 110 = Point.mk 10 10
        /\ Canvas.handleMouseUp Math_cos Math_sin props s1 (mouse 110 110)
           = Some ([Canvas.AddObject obj], s2)
        /\ let after :=
             App.history (App.handle [Canvas.AddObject obj] (session D)) in
           past after = [D] /\ future after = []
           /\ App.allObjects (present after) = [rect10]
           /\ map Layer.objects (layers (present after)) = [[rect10]]
           /\ selectedObjectIds (present after) = ["obj-1"])
  /\ (forall (props : Canvas.CanvasProps) (s : Canvas.State)
             (e : Canvas.MouseEvent) (start : Point.t),
        Canvas.editing s = false ->
        Canvas.isShapeTool (Canvas.tool props) = true ->
        Canvas.isDrawing s = true ->
        Canvas.drawingStart s = Some start ->
        let point :=
          Canvas.getCanvasPoint props s (Canvas.clientX e)
                                (Canvas.clientY e) in
        let width := JS.Math_abs (Point.x point - Point.x start) in
        let height := JS.Math_abs (Point.y point - Point.y start) in
        let above := JS.gt width 5 || JS.gt height 5 in
        exists calls s',
          Canvas.handleMouseUp Math_cos Math_sin props s e
          = Some (calls, s')
          /\ (above = false ->
              calls = [] /\ forall hk, App.handle calls hk = hk)
          /\ (forall c, In c calls ->
                above = true /\ exists obj, calls = [Canvas.AddObject obj])
          /\ (forall obj hk,
                calls = [Canvas.AddObject obj] ->
                let state := present (App.history hk) in
                let newObject := numberedObject (App.nextObjectId hk) obj in
                let after := App.history (App.handle calls hk) in
                activeLayerExists state ->
                past after
                = JS.slice_last 50 (past (App.history hk)) ++ [state]
                /\ future after = []
                /\ layers (present after)
                   = map (fun layer =>
                            if String.eqb (Layer.id layer)
                                          (activeLayerId state)
                            then withObjects layer
                                   (Layer.objects layer ++ [newObject])
                            else layer)
                         (layers state)
                /\ selectedObjectIds (present after)
                   = [objectId (App.nextObjectId hk)]
                /\ (NoDup (map Layer.id (layers state)) ->
                    Permutation (App.allObjects (present after))
                                (newObject :: App.allObjects state)))
          /\ (Canvas.tool props = Tool.rect -> above = true ->
              exists obj,
                calls = [Canvas.AddObject obj]
                /\ CanvasObject.type obj = "rect"
                /\ Props.width (CanvasObject.props obj) = Some width
                /\ Props.height (CanvasObject.props obj) = Some height)).
Proof.
  cbn zeta. conj_split.
  - do 2 eexists. conj_split; vm_compute; reflexivity.
  - do 3 eexists. conj_split; vm_compute; reflexivity.
  - intros props s e start Hed Htool Hdraw Hstart.
    destruct (CanvasFacts.handleMouseUp_shape Math_cos Math_sin props s e
                start Hed Htool Hdraw Hstart) as [s' Hup].
    eexists; exists s'. split; [exact Hup|].
    split; [|split; [|split]].
    + unfold Canvas.drawnShape.
      destruct (JS.gt _ 5 || JS.gt _ 5); [discriminate|].
      intros _. split; reflexivity.
    + unfold Canvas.drawnShape.
      destruct (JS.gt _ 5 || JS.gt _ 5); [|intros c []].
      intros c Hin. split; [reflexivity|].
      destruct (Canvas.tool props); try (now destruct Hin);
        eexists; reflexivity.
    + intros obj hk -> Hact. now apply add_call_commits.
    + unfold Canvas.drawnShape.
      destruct (JS.gt _ 5 || JS.gt _ 5); [|discriminate].
      intros -> _. eexists. conj_split; reflexivity.
Qed.

Lemma shape_gesture_threshold_witness :
  let D := document [] [] Tool.rect in
  let props := App.canvasProps D in
  let s := Canvas.setDrawingStart (Some (Point.mk 0 0))
             (Canvas.setIsDrawing true mounted) in
  (exists calls s',
     Canvas.handleMouseUp (fun x => x) (fun x => x) props s (mouse 110 104)
     = Some (calls, s')
     /\ (exists obj,
           calls = [Canvas.AddObject obj]
           /\ CanvasObject.type obj = "rect"
           /\ Props.width (CanvasObject.props obj) = Some 10%float
           /\ Props.height (CanvasObject.props obj) = Some 4%float)
     /\ past (App.history (App.handle calls (session D))) = [D]
     /\ map Layer.objects
           (layers (present (App.history (App.handle calls (session D)))))
        = [[ {| CanvasObject.id := "obj-1";
                CanvasObject.type := "rect";
                CanvasObject.transform := Canvas.unit_transform 0 0;
                CanvasObject.style := Canvas.baseStyle;
                CanvasObject.visible := true;
                CanvasObject.locked := false;
                CanvasObject.selected := false;
                CanvasObject.props := Props.rect 10 4 |} ]])
  /\ (exists calls s',
        Canvas.handleMouseUp (fun x => x) (fun x => x) props s (mouse 105 104)
        = Some (calls, s')
        /\ calls = []
        /\ App.handle calls (session D) = session D).
Proof.
  cbn zeta.
  destruct (shape_gesture_threshold (fun x => x) (fun x => x))
    as (_ & _ & H).
  split.
  - destruct (H (App.canvasProps (document [] [] Tool.rect))
                (Canvas.setDrawingStart (Some (Point.mk 0 0))
                   (Canvas.setIsDrawing true mounted))
                (mouse 110 104) (Point.mk 0 0)
                eq_refl eq_refl eq_refl eq_refl)
      as (calls & s' & Hup & _ & _ & Hcommit & Hrect).
    exists calls, s'. split; [exact Hup|].
    destruct (Hrect eq_refl eq_refl) as (obj & Hcalls & Hobj).
    split; [exists obj; split; [exact Hcalls | exact Hobj]|].
    destruct (Hcommit obj (session (document [] [] Tool.rect)) Hcalls)
      as (Hpast & _ & Hlayers & _).
    { simpl. now left. }
    split; [exact Hpast|].
    rewrite Hlayers. vm_compute in Hup. rewrite Hcalls in Hup.
    injection Hup as <- _. vm_compute. reflexivity.
  - destruct (H (App.canvasProps (document [] [] Tool.rect))
                (Canvas.setDrawingStart (Some (Point.mk 0 0))
                   (Canvas.setIsDrawing true mounted))
                (mouse 105 104) (Point.mk 0 0)
                eq_refl eq_refl eq_refl eq_refl)
      as (calls & s' & Hup & Hbelow & _).
    exists calls, s'. split; [exact Hup|].
    destruct (Hbelow eq_refl) as [Hcalls Hsame].
    split; [exact Hcalls | apply Hsame].
Defined.

End ShapeFacts.

(** ** What an export shows *)

Module ExportFacts.
Import Throwing SvgExport Visibility Hook.

Lemma filter_twice {A} (p q : A -> bool) (l : list A) :
  (forall a, q a = true -> p a = true) ->
  filter q (filter p l) = filter q l.
Proof.
  intros Hpq. induction l as [|a l IH]; [reflexivity|].
  cbn [filter]. destruct (p a) eqn:Ep.
  - cbn [filter]. destruct (q a); now rewrite IH.
  - destruct (q a) eqn:Eq; [|exact IH].
    rewrite (Hpq a Eq) in Ep. discriminate Ep.
Qed.

Lemma exported_shown (layers : list Layer.t) :
  exported (shown layers) = exported layers.
Proof.
  unfold exported, shown.
  induction layers as [|l ls IH]; [reflexivity|].
  cbn [filter]. destruct (Layer.visible l) eqn:E; [|exact IH].
  cbn [map filter UseCanvas.withObjects Layer.visible Layer.objects].
  rewrite E. cbn [flat_map Layer.objects]. rewrite IH. f_equal.
  apply filter_twice. auto.
Qed.

Lemma gradientDefs_shown (toString : float -> string)
    (Math_cos Math_sin : float -> float) (layers : list Layer.t) :
  gradientDefs toString Math_cos Math_sin (shown layers)
  = gradientDefs toString Math_cos Math_sin layers.
Proof.
  unfold gradientDefs, shown.
  induction layers as [|l ls IH]; [reflexivity|].
  cbn [filter]. destruct (Layer.visible l) eqn:E; [|exact IH].
  cbn [map filter UseCanvas.withObjects Layer.visible Layer.objects].
  rewrite E. cbn [flat_map Layer.objects]. rewrite IH. f_equal. f_equal.
  apply filter_twice. intros a Ha. now apply andb_true_iff in Ha.
Qed.

Lemma mapM_throws {A B} (f : A -> option B) (l : list A) :
  mapM f l = None <-> exists a, In a l /\ f a = None.
Proof.
  induction l as [|a l IH]; cbn [mapM].
  - split; [discriminate | intros (a & [] & _)].
  - destruct (f a) as [b|] eqn:Ea; cbn [bind].
    + destruct (mapM f l) as [r|]; cbn [bind].
      * split; [discriminate|]. intros (x & [<- | Hin] & Hx).
        -- rewrite Hx in Ea. discriminate Ea.
        -- assert (Hr : Some r = None) by (apply IH; now exists x).
           discriminate Hr.
      * split; [|reflexivity]. intros _.
        destruct (proj1 IH eq_refl) as (x & Hin & Hx).
        exists x. split; [now right | exact Hx].
    + split; [|reflexivity]. intros _. exists a. split; [now left | exact Ea].
Qed.

Ltac known_type H :=
  cbn [String.append bind] in H; discriminate H.

(** X25: Every export format starts from [generateSVG], which draws the
    visible objects of the visible layers and nothing else, and has no
    case for curves: an object is drawn as the empty string exactly when
    its type is none of rect, circle, line, text, path and image, so
    whatever the curve tool adds is missing from every export, and a
    drawing of one curve exports as the empty drawing.  It throws exactly
    when a visible path of a visible layer has no [points]. *)
Theorem export_skips_curves_and_hidden_objects
    (toString : float -> string) (Math_cos Math_sin : float -> float)
    (layers : list Layer.t) (canvasSize : Size.t) :
  (forall obj,
     objectToSVG toString obj = Some ""%string <->
     ~ In (CanvasObject.type obj)
          ["rect"; "circle"; "line"; "text"; "path"; "image"]%string)
  /\ (forall obj,
        objectToSVG toString obj = None <->
        CanvasObject.type obj = "path"%string
        /\ Props.points (CanvasObject.props obj) = None)
  /\ generateSVG toString Math_cos Math_sin (shown layers) canvasSize
     = generateSVG toString Math_cos Math_sin layers canvasSize
  /\ (generateSVG toString Math_cos Math_sin layers canvasSize = None <->
      exists obj, In obj (exported layers)
                  /\ CanvasObject.type obj = "path"%string
                  /\ Props.points (CanvasObject.props obj) = None)
  /\ (forall (s : Canvas.State) (obj : CanvasObject.t) (n : nat),
        In (Canvas.AddObject obj) (fst (Canvas.finishCurve s)) ->
        objectToSVG toString (numberedObject n obj) = Some ""%string)
  /\ (forall (layer : Layer.t) (c : CanvasObject.t),
        CanvasObject.type c = "curve"%string ->
        hasGradient (CanvasObject.style c) = false ->
        generateSVG toString Math_cos Math_sin
          [UseCanvas.withObjects layer [c]] canvasSize
        = generateSVG toString Math_cos Math_sin
            [UseCanvas.withObjects layer []] canvasSize).
Proof.
  assert (Hempty : forall obj,
            objectToSVG toString obj = Some ""%string <->
            ~ In (CanvasObject.type obj)
                 ["rect"; "circle"; "line"; "text"; "path"; "image"]%string).
  { intros obj. unfold objectToSVG. split.
    - intros H Hin. cbn [In] in Hin.
      destruct Hin as [E | [E | [E | [E | [E | [E | []]]]]]];
        rewrite <- E in H; cbn [String.eqb Ascii.eqb Bool.eqb] in H;
        try known_type H.
      destruct (pathData toString (CanvasObject.props obj)); known_type H.
    - intros Hnot.
      repeat match goal with
      | |- context [String.eqb (CanvasObject.type obj) ?t] =>
          let E := fresh "E" in
          destruct (String.eqb (CanvasObject.type obj) t) eqn:E;
          [apply String.eqb_eq in E; exfalso; apply Hnot; rewrite E;
           cbn [In]; tauto|]
      end.
      reflexivity. }
  assert (Hthrow : forall obj,
            objectToSVG toString obj = None <->
            CanvasObject.type obj = "path"%string
            /\ Props.points (CanvasObject.props obj) = None).
  { intros obj. unfold objectToSVG. split.
    - intros H.
      repeat match type of H with
      | context [String.eqb (CanvasObject.type obj) ?t] =>
          let E := fresh "E" in
          destruct (String.eqb (CanvasObject.type obj) t) eqn:E;
          [try discriminate H|]
      end; try discriminate H.
      apply String.eqb_eq in E3. split; [exact E3|].
      unfold pathData in H.
      destruct (Props.points (CanvasObject.props obj)) as [[|p ps]|];
        [discriminate H | discriminate H | reflexivity].
    - intros [Ht Hp]. rewrite Ht. cbn [String.eqb Ascii.eqb Bool.eqb].
      unfold pathData. rewrite Hp. reflexivity. }
  conj_split.
  - exact Hempty.
  - exact Hthrow.
  - unfold generateSVG. now rewrite exported_shown, gradientDefs_shown.
  - unfold generateSVG.
    destruct (mapM (objectToSVG toString) (exported layers)) as [es|] eqn:E;
      cbn [bind].
    + split; [discriminate|]. intros (obj & Hin & Hobj).
      assert (Hn : mapM (objectToSVG toString) (exported layers) = None)
        by (apply mapM_throws; exists obj; split;
            [exact Hin | now apply Hthrow]).
      rewrite Hn in E. discriminate E.
    + split; [|reflexivity]. intros _.
      apply mapM_throws in E. destruct E as (obj & Hin & Hobj).
      exists obj. split; [exact Hin | now apply Hthrow].
  - intros s obj n Hin. apply Hempty.
    unfold Canvas.finishCurve in Hin. cbn [fst] in Hin.
    destruct (Nat.ltb 1 _); [|now elim Hin].
    destruct Hin as [Hin | []]. injection Hin as <-.
    cbn [numberedObject CanvasObject.type In].
    intuition discriminate.
  - intros layer c Hc Hg.
    unfold generateSVG, exported, gradientDefs, UseCanvas.withObjects.
    cbn [filter Layer.visible].
    destruct (Layer.visible layer); [|reflexivity].
    cbn [flat_map Layer.objects filter app].
    rewrite Hg, andb_false_r.
    destruct (CanvasObject.visible c); [|reflexivity].
    cbn [filter flat_map app mapM].
    rewrite (proj2 (Hempty c)); [reflexivity|].
    rewrite Hc. cbn [In]. intuition discriminate.
Qed.

Lemma export_skips_curves_and_hidden_objects_witness :
  let s := Canvas.setCurvePoints [Point.mk 0 0; Point.mk 10 10]
             Samples.mounted in
  let layer := LayerSamples.emptyLayer "layer-1" "Layer 1" in
  let size := Size.mk 4000 4000 in
  exists obj,
    fst (Canvas.finishCurve s) = [Canvas.AddObject obj]
    /\ objectToSVG (fun _ => "0"%string) (numberedObject 1 obj)
       = Some ""%string
    /\ generateSVG (fun _ => "0"%string) (fun a => a) (fun a => a)
         [UseCanvas.withObjects layer [numberedObject 1 obj]] size
       = generateSVG (fun _ => "0"%string) (fun a => a) (fun a => a)
           [UseCanvas.withObjects layer []] size.
Proof.
  cbn zeta.
  destruct (export_skips_curves_and_hidden_objects
              (fun _ => "0"%string) (fun a => a) (fun a => a)
              [] (Size.mk 4000 4000))
    as (_ & _ & _ & _ & Hcurve & Hone).
  eexists. split; [reflexivity|]. split.
  - apply (Hcurve (Canvas.setCurvePoints [Point.mk 0 0; Point.mk 10 10]
                     Samples.mounted)).
    simpl. now left.
  - apply Hone; reflexivity.
Defined.

End ExportFacts.

(** ** Selecting with the mouse, and the text tool *)

Module SelectionFacts.
Import Throwing Selection.

Lemma findM_first {A} (p : A -> option bool) (l1 : list A) (a : A)
    (l2 : list A) :
  Forall (fun x => p x = Some false) l1 -> p a = Some true ->
  findM p (l1 ++ a :: l2) = Some (Some a).
Proof.
  intros HF Ha. induction HF as [|x l1 Hx HF IH]; cbn [app findM].
  - now rewrite Ha.
  - rewrite Hx. exact IH.
Qed.

Lemma findM_none {A} (p : A -> option bool) (l : list A) :
  Forall (fun x => p x = Some false) l -> findM p l = Some None.
Proof.
  intros HF. induction HF as [|x l Hx HF IH]; cbn [findM];
    [reflexivity|].
  rewrite Hx. exact IH.
Qed.

Lemma under_bind (point : Point.t) (obj : CanvasObject.t) :
  (bbox <- Geometry.getBoundingBox obj ;;
   Some (Geometry.pointInBoundingBox point bbox))
  = under point obj.
Proof. unfold under. now destruct (Geometry.getBoundingBox obj). Qed.

Lemma findM_ext {A} (p q : A -> option bool) (l : list A) :
  (forall a, p a = q a) -> findM p l = findM q l.
Proof.
  intros H. induction l as [|a l IH]; cbn [findM]; [reflexivity|].
  now rewrite H, IH.
Qed.

(** X26: With the select tool, a press picks the first object in drawing
    order whose box holds the point, that is the lowest one, whether it
    is hidden or locked or not: it becomes the selection (with Shift it
    joins the selection), unless it is selected already, and a drag
    starts.  A press on no object clears the selection, unless Shift is
    held, and starts a rubber band at the point. *)
Theorem click_selects_the_lowest_object
    (props : Canvas.CanvasProps) (s : Canvas.State) (e : Canvas.MouseEvent) :
  Canvas.editing s = false ->
  Canvas.isSpacePressed s = false ->
  Canvas.tool props = Tool.select ->
  let point :=
    Canvas.getCanvasPoint props s (Canvas.clientX e) (Canvas.clientY e) in
  (forall below obj above,
     Canvas.objects props = below ++ obj :: above ->
     Forall (fun o => under point o = Some false) below ->
     under point obj = Some true ->
     exists calls s',
       Canvas.handleMouseDown props s e = Some (calls, s')
       /\ calls
          = (if JS.includes (Canvas.selectedObjectIds props)
                            (CanvasObject.id obj)
             then []
             else if Canvas.shiftKey e
             then [Canvas.ObjectSelect
                     (Canvas.selectedObjectIds props
                      ++ [CanvasObject.id obj])]
             else [Canvas.ObjectSelect [CanvasObject.id obj]])
       /\ Canvas.isDragging s' = true
       /\ Canvas.dragStart s' = Some point
       /\ Canvas.selectionBox s' = Canvas.selectionBox s)
  /\ (Forall (fun o => under point o = Some false) (Canvas.objects props) ->
      exists calls s',
        Canvas.handleMouseDown props s e = Some (calls, s')
        /\ calls = (if Canvas.shiftKey e then []
                    else [Canvas.ObjectSelect []])
        /\ Canvas.isDragging s' = true
        /\ Canvas.selectionBox s' = Some (point, point)).
Proof.
  intros Hed Hsp Htool. cbn zeta.
  unfold Canvas.handleMouseDown. rewrite Hed, Hsp, Htool.
  cbn [Canvas.isTool orb].
  rewrite (findM_ext _ _ _ (under_bind _)).
  split.
  - intros below obj above Hobjs Hbelow Hobj.
    rewrite Hobjs, (findM_first _ _ _ _ Hbelow Hobj). cbn [bind].
    do 2 eexists. split; [reflexivity|].
    conj_split; try reflexivity.
    destruct (JS.includes _ _); reflexivity.
  - intros Hnone. rewrite (findM_none _ _ Hnone). cbn [bind].
    do 2 eexists. split; [reflexivity|].
    conj_split; try reflexivity.
    destruct (Canvas.shiftKey e); reflexivity.
Qed.

Lemma click_selects_the_lowest_object_witness :
  let hidden :=
    UseCanvas.spreadObject (Samples.square "obj-1" 0 0 None)
      (PartialObject.of_visible false) in
  let props :=
    App.canvasProps
      (Samples.document [hidden; Samples.square "obj-2" 5 5 None] []
                        Tool.select) in
  exists s',
    Canvas.handleMouseDown props Samples.mounted (Samples.mouse 107 107)
    = Some ([Canvas.ObjectSelect ["obj-1"]], s').
Proof.
  cbn zeta.
  destruct (click_selects_the_lowest_object
              (App.canvasProps
                 (Samples.document
                    [UseCanvas.spreadObject (Samples.square "obj-1" 0 0 None)
                       (PartialObject.of_visible false);
                     Samples.square "obj-2" 5 5 None] [] Tool.select))
              Samples.mounted (Samples.mouse 107 107)
              eq_refl eq_refl eq_refl) as [Hclick _].
  destruct (Hclick []
              (UseCanvas.spreadObject (Samples.square "obj-1" 0 0 None)
                 (PartialObject.of_visible false))
              [Samples.square "obj-2" 5 5 None] eq_refl
              (Forall_nil _) ltac:(vm_compute; reflexivity))
    as (calls & s' & Hdown & Hcalls & _).
  exists s'. rewrite Hdown, Hcalls. reflexivity.
Defined.

Lemma unique_from (acc l : list string) :
  NoDup acc ->
  let r :=
    fold_left (fun acc x =>
                 if existsb (String.eqb x) acc then acc else acc ++ [x])
              l acc in
  NoDup r
  /\ (forall x, In x r <-> In x acc \/ In x l)
  /\ exists extra, r = acc ++ extra.
Proof.
  cbn zeta. revert acc. induction l as [|a l IH]; intros acc ND;
    cbn [fold_left].
  - conj_split; [exact ND | intros x; cbn [In]; tauto |].
    exists []. now rewrite app_nil_r.
  - destruct (existsb (String.eqb a) acc) eqn:E.
    + destruct (IH acc ND) as (ND' & Hin & extra & Hext).
      conj_split; [exact ND' | | now exists extra].
      intros x. rewrite Hin. cbn [In]. split; [tauto|].
      intros [H | [<- | H]]; auto.
      left. apply existsb_exists in E. destruct E as (y & Hy & Heq).
      apply String.eqb_eq in Heq. now subst y.
    + assert (Hnot : ~ In a acc).
      { intros Hin. assert (Ht : existsb (String.eqb a) acc = true)
          by (apply existsb_exists; exists a; split;
              [exact Hin | apply String.eqb_refl]).
        rewrite Ht in E. discriminate E. }
      assert (ND1 : NoDup (acc ++ [a])).
      { apply NoDup_app; [exact ND | constructor; [intros [] | constructor] |].
        intros x Hx [<- | []]. now apply Hnot. }
      destruct (IH (acc ++ [a]) ND1) as (ND' & Hin & extra & Hext).
      conj_split; [exact ND' | |].
      * intros x. rewrite Hin, in_app_iff. cbn [In]. tauto.
      * exists (a :: extra). rewrite Hext, <- app_assoc. reflexivity.
Qed.

Lemma unique_fresh (acc l : list string) :
  NoDup l ->
  fold_left (fun acc x =>
               if existsb (String.eqb x) acc then acc else acc ++ [x])
            l acc
  = acc ++ filter (fun x => negb (JS.includes acc x)) l.
Proof.
  unfold JS.includes. revert acc.
  induction l as [|a l IH]; intros acc ND; cbn [fold_left filter].
  - now rewrite app_nil_r.
  - apply NoDup_cons_iff in ND. destruct ND as [Ha ND].
    destruct (existsb (String.eqb a) acc) eqn:E; cbn [negb].
    + now apply IH.
    + rewrite (IH (acc ++ [a]) ND), <- app_assoc. cbn [app].
      do 2 f_equal. apply filter_ext_in. intros x Hx.
      rewrite existsb_app. cbn [existsb]. rewrite orb_false_r.
      destruct (String.eqb x a) eqn:Exa; [|now rewrite orb_false_r].
      apply String.eqb_eq in Exa. subst x. now elim Ha.
Qed.

Lemma unique_keeps (l : list string) : NoDup l -> JS.unique l = l.
Proof.
  intros ND. unfold JS.unique. rewrite (unique_fresh [] l ND).
  cbn [app]. apply forallb_filter_id. now apply forallb_forall.
Qed.

(** X27: Releasing a rubber band selects the objects whose box lies within
    the band, in drawing order, hidden and locked ones included.  With
    Shift the earlier selection stays in front and the objects in the
    band join it, each id once: when neither the selection nor the
    objects in the band repeat an id, those not selected yet follow the
    selection in drawing order. *)
Theorem rubber_band_selects_what_lies_within
    (Math_cos Math_sin : float -> float)
    (props : Canvas.CanvasProps) (s : Canvas.State) (e : Canvas.MouseEvent)
    (start end_ : Point.t) (calls : list Canvas.Call) (s' : Canvas.State) :
  Canvas.editing s = false ->
  Canvas.tool props = Tool.select ->
  Canvas.selectionBox s = Some (start, end_) ->
  Canvas.handleMouseUp Math_cos Math_sin props s e = Some (calls, s') ->
  let selected := Canvas.selectedObjectIds props in
  let inBand :=
    map CanvasObject.id (banded start end_ (Canvas.objects props)) in
  exists ids,
    calls = [Canvas.ObjectSelect ids]
    /\ Canvas.selectionBox s' = None /\ Canvas.isDragging s' = false
    /\ (Canvas.shiftKey e = false -> ids = inBand)
    /\ (Canvas.shiftKey e = true ->
        NoDup ids
        /\ (forall id, In id ids <-> In id selected \/ In id inBand)
        /\ (NoDup selected ->
            exists extra,
              ids = selected ++ extra
              /\ (NoDup inBand ->
                  extra
                  = filter (fun id => negb (JS.includes selected id))
                           inBand))).
Proof.
  intros Hed Htool Hbox. unfold Canvas.handleMouseUp.
  rewrite Hed, Htool, Hbox. cbn [Canvas.isTool andb Canvas.isShapeTool].
  unfold Canvas.boxSelection.
  destruct (filterM _ (Canvas.objects props)) as [inside|] eqn:E;
    cbn [bind]; [|discriminate].
  destruct (GestureFacts.filterM_filter _ _ _ E) as [Hinside _].
  assert (Hband : inside = banded start end_ (Canvas.objects props)).
  { rewrite Hinside. unfold banded. apply filter_ext. intros obj.
    destruct (Geometry.getBoundingBox obj) as [bbox|]; [|reflexivity].
    change (match Some (within (band start end_) bbox) with
            | Some true => true
            | _ => false
            end = within (band start end_) bbox).
    now destruct (within (band start end_) bbox). }
  rewrite Hband. clear Hband Hinside E inside.
  set (inBand := map CanvasObject.id
                     (banded start end_ (Canvas.objects props))).
  assert (Huniq :
    NoDup (JS.unique (Canvas.selectedObjectIds props ++ inBand))
    /\ (forall id,
          In id (JS.unique (Canvas.selectedObjectIds props ++ inBand)) <->
          In id (Canvas.selectedObjectIds props) \/ In id inBand)
    /\ (NoDup (Canvas.selectedObjectIds props) ->
        exists extra,
          JS.unique (Canvas.selectedObjectIds props ++ inBand)
          = Canvas.selectedObjectIds props ++ extra
          /\ (NoDup inBand ->
              extra
              = filter (fun id =>
                          negb (JS.includes
                                  (Canvas.selectedObjectIds props) id))
                       inBand))).
  { destruct (unique_from [] (Canvas.selectedObjectIds props ++ inBand)
                (NoDup_nil _)) as (ND & Hmem & _).
    conj_split.
    - exact ND.
    - intros id. unfold JS.unique. rewrite Hmem, in_app_iff. cbn [In].
      tauto.
    - intros NDsel.
      assert (Hsplit :
        JS.unique (Canvas.selectedObjectIds props ++ inBand)
        = fold_left
            (fun acc x =>
               if existsb (String.eqb x) acc then acc else acc ++ [x])
            inBand (Canvas.selectedObjectIds props)).
      { unfold JS.unique. rewrite fold_left_app. f_equal.
        apply (unique_keeps _ NDsel). }
      destruct (unique_from (Canvas.selectedObjectIds props) inBand NDsel)
        as (_ & _ & extra & Hext).
      exists extra. split; [now rewrite Hsplit|].
      intros NDband. rewrite (unique_fresh _ _ NDband) in Hext.
      now apply app_inv_head in Hext. }
  destruct (Canvas.shiftKey e) eqn:Es; cbn [bind];
    (destruct (Canvas.drawingStart s); rewrite ?andb_false_r);
    intros [= <- <-]; cbn [app]; eexists;
    (split; [reflexivity|]); conj_split; try reflexivity;
    try (intros H; discriminate H);
    try (intros _; exact Huniq).
Qed.

Lemma rubber_band_selects_what_lies_within_witness :
  let objs := [Samples.square "obj-1" 0 0 None;
               Samples.square "obj-2" 500 500 None;
               Samples.square "obj-3" 50 50 None] in
  let s := Canvas.setSelectionBox
             (Some (Point.mk (-10) (-10), Point.mk 200 200))
             Samples.mounted in
  let plain := {| Canvas.clientX := 300; Canvas.clientY := 300;
                  Canvas.shiftKey := false; Canvas.buttons := 0 |} in
  let shift := {| Canvas.clientX := 300; Canvas.clientY := 300;
                  Canvas.shiftKey := true; Canvas.buttons := 0 |} in
  (exists s',
     Canvas.handleMouseUp (fun a => a) (fun a => a)
       (App.canvasProps (Samples.document objs [] Tool.select)) s plain
     = Some ([Canvas.ObjectSelect ["obj-1"; "obj-3"]], s')
     /\ Canvas.selectionBox s' = None)
  /\ (exists s',
        Canvas.handleMouseUp (fun a => a) (fun a => a)
          (App.canvasProps
             (Samples.document objs ["obj-2"; "obj-3"] Tool.select))
          s shift
        = Some ([Canvas.ObjectSelect ["obj-2"; "obj-3"; "obj-1"]], s')).
Proof.
  cbn zeta.
  set (objs := [Samples.square "obj-1" 0 0 None;
                Samples.square "obj-2" 500 500 None;
                Samples.square "obj-3" 50 50 None]).
  set (s := Canvas.setSelectionBox
              (Some (Point.mk (-10) (-10), Point.mk 200 200))
              Samples.mounted).
  split.
  - destruct (Canvas.handleMouseUp (fun a => a) (fun a => a)
                (App.canvasProps (Samples.document objs [] Tool.select)) s
                {| Canvas.clientX := 300; Canvas.clientY := 300;
                   Canvas.shiftKey := false; Canvas.buttons := 0 |})
      as [[calls s']|] eqn:Hup; [|vm_compute in Hup; discriminate Hup].
    destruct (rubber_band_selects_what_lies_within (fun a => a) (fun a => a)
                (App.canvasProps (Samples.document objs [] Tool.select)) s
                {| Canvas.clientX := 300; Canvas.clientY := 300;
                   Canvas.shiftKey := false; Canvas.buttons := 0 |}
                (Point.mk (-10) (-10)) (Point.mk 200 200) calls s'
                eq_refl eq_refl eq_refl Hup)
      as (ids & -> & Hbox & _ & Hplain & _).
    exists s'. split; [|exact Hbox].
    rewrite (Hplain eq_refl). vm_compute. reflexivity.
  - destruct (Canvas.handleMouseUp (fun a => a) (fun a => a)
                (App.canvasProps
                   (Samples.document objs ["obj-2"; "obj-3"] Tool.select))
                s
                {| Canvas.clientX := 300; Canvas.clientY := 300;
                   Canvas.shiftKey := true; Canvas.buttons := 0 |})
      as [[calls s']|] eqn:Hup; [|vm_compute in Hup; discriminate Hup].
    destruct (rubber_band_selects_what_lies_within (fun a => a) (fun a => a)
                (App.canvasProps
                   (Samples.document objs ["obj-2"; "obj-3"] Tool.select))
                s
                {| Canvas.clientX := 300; Canvas.clientY := 300;
                   Canvas.shiftKey := true; Canvas.buttons := 0 |}
                (Point.mk (-10) (-10)) (Point.mk 200 200) calls s'
                eq_refl eq_refl eq_refl Hup)
      as (ids & -> & _ & _ & _ & Hshift).
    destruct (Hshift eq_refl) as (_ & _ & Hext).
    destruct Hext as (extra & -> & Hextra).
    { simpl. repeat constructor; simpl; intuition discriminate. }
    exists s'. rewrite Hextra.
    + vm_compute. reflexivity.
    + vm_compute. repeat constructor; simpl; intuition discriminate.
Defined.

Lemma get_last {A} (l : list A) (a : A) :
  JS.get (l ++ [a]) (Z.of_nat (List.length (l ++ [a])) - 1) = Some a.
Proof.
  unfold JS.get. rewrite length_app. cbn [List.length].
  rewrite (proj2 (Z.ltb_ge _ _)) by lia.
  replace (Z.to_nat (Z.of_nat (List.length l + 1) - 1)) with (List.length l)
    by lia.
  rewrite nth_error_app2 by lia. now rewrite Nat.sub_diag.
Qed.

(** X28: A press with the text tool adds a text object reading [Text] at the
    point and starts a timer of 100 ms that is to open it for editing.
    The timer looks at the objects of the render in which the press
    happened, which do not hold the new object: when there was no object,
    or the last one was no text, nothing is opened; when the last one was
    a text, that older text is opened, not the new one. *)
Theorem text_tool_opens_the_text_before
    (props : Canvas.CanvasProps) (s : Canvas.State) (e : Canvas.MouseEvent)
    (calls : list Canvas.Call) (s' : Canvas.State) :
  Canvas.editing s = false ->
  Canvas.isSpacePressed s = false ->
  Canvas.tool props = Tool.text ->
  Canvas.handleMouseDown props s e = Some (calls, s') ->
  let point :=
    Canvas.getCanvasPoint props s (Canvas.clientX e) (Canvas.clientY e) in
  exists obj later,
    calls = [Canvas.AddObject obj; Canvas.SetTimeout later 100]
    /\ CanvasObject.type obj = "text"
    /\ CanvasObject.props obj = Props.text "Text" 24 "Arial" "normal"
    /\ CanvasObject.transform obj
       = Canvas.unit_transform (Point.x point) (Point.y point)
    /\ Canvas.editing s' = false
    /\ (Canvas.objects props = [] -> forall st, later st = st)
    /\ (forall before last,
          Canvas.objects props = before ++ [last] ->
          CanvasObject.type last <> "text" ->
          forall st, later st = st)
    /\ (forall before last,
          Canvas.objects props = before ++ [last] ->
          CanvasObject.type last = "text" ->
          forall st,
            Canvas.editingTextId (later st) = Some (CanvasObject.id last)
            /\ Canvas.textInput (later st)
               = JS.or_string (Props.content (CanvasObject.props last))
                              "Text").
Proof.
  intros Hed Hsp Htool. unfold Canvas.handleMouseDown.
  rewrite Hed, Hsp, Htool. cbn [Canvas.isTool orb Canvas.isShapeTool].
  destruct (Canvas.updateCanvasSize props s _ []) as [size|]; cbn [bind];
    [|discriminate].
  intros [= <- <-]. cbn zeta. do 2 eexists.
  split; [reflexivity|]. conj_split; try reflexivity.
  - exact Hed.
  - intros Hnone st. now rewrite Hnone.
  - intros before last Hobjs Hty st. rewrite Hobjs, get_last.
    destruct (String.eqb (CanvasObject.type last) "text") eqn:E;
      [apply String.eqb_eq in E; now elim Hty | reflexivity].
  - intros before last Hobjs Hty st. rewrite Hobjs, get_last, Hty.
    cbn [String.eqb Ascii.eqb Bool.eqb]. split; reflexivity.
Qed.

Lemma text_tool_opens_the_text_before_witness :
  let props := App.canvasProps (Samples.document [] [] Tool.text) in
  exists obj later s',
    Canvas.handleMouseDown props Samples.mounted (Samples.mouse 150 150)
    = Some ([Canvas.AddObject obj; Canvas.SetTimeout later 100], s')
    /\ CanvasObject.type obj = "text"
    /\ Canvas.editing (later s') = false.
Proof.
  cbn zeta.
  destruct (Canvas.handleMouseDown
              (App.canvasProps (Samples.document [] [] Tool.text))
              Samples.mounted (Samples.mouse 150 150))
    as [[calls s']|] eqn:Hdown; [|vm_compute in Hdown; discriminate Hdown].
  destruct (text_tool_opens_the_text_before
              (App.canvasProps (Samples.document [] [] Tool.text))
              Samples.mounted (Samples.mouse 150 150) calls s'
              eq_refl eq_refl eq_refl Hdown)
    as (obj & later & -> & Hty & _ & _ & Hedit & Hnone & _).
  exists obj, later, s'. conj_split; [reflexivity | exact Hty |].
  rewrite (Hnone eq_refl s'). exact Hedit.
Defined.

End SelectionFacts.
